(** * NutritionTracker: the aggregation, streak, fasting and trend logic of
    [tracker.py], embedded in Rocq.

    Numbers.  The tracker computes on Python ints and floats.  A number is
    a rational [Q], and equality of computed quantities is [Qeq] ([==]).
    Two readings of the arithmetic are kept apart.  In the exact reading an
    expression denotes its exact value: it is used where a result is
    related to a formula (scaling, products, progress, the fasting panel,
    the averages of the report table).  In the binary64 reading every
    operation is followed by [round64], the rounding to the nearest
    binary64 number, ties to even, which is what the hardware does: it is
    used where the outcome depends on the rounding, that is for the sums of
    the day totals (module [B64]), the tolerance test of the streaks and
    the trend block of the report (module [B64]).  [round64] leaves out
    overflow: the quantities of the tracker stay far below [2^1024].

    Dates.  Dictionary keys such as ["2024-05-17"] are ISO dates.  A date is
    represented by its proleptic ordinal ([datetime.date.toordinal]) in [Z]:
    [isoformat] is injective and its string order is the chronological one,
    [d - timedelta(days=k)] is [d - k].

    Dictionaries.  [daily_logs] and [weight_logs] are [gmap Z _]; the
    [meals] mapping of a day, whose insertion order the code iterates, is an
    association list; a [micros] dictionary is a [gmap string Q] living in a
    store of objects, because [dict.copy] is shallow and the copy of an
    entry shares it. *)

From Stdlib Require Import QArith Qabs Qminmax Qround Qpower Lqa Lia.
From Stdlib Require Import Floats.
From Stdlib Require Import Permutation Sorting.Sorted.
From stdpp Require Import base option list gmap strings sorting.

Local Open Scope Q_scope.

(** ** Exceptions *)

Inductive exn : Type :=
| ZeroDivisionError
| StatisticsError
| IndexError.

Inductive result (A : Type) : Type :=
| Ok (a : A)
| Raise (e : exn).
Arguments Ok {A} a.
Arguments Raise {A} e.

#[global] Instance result_ret : MRet result := fun A a => Ok a.
#[global] Instance result_bind : MBind result := fun A B k r =>
  match r with
  | Ok a => k a
  | Raise e => Raise e
  end.

(** Python's [a / b]. *)
Definition py_div (a b : Q) : result Q :=
  if Qeq_bool b 0 then Raise ZeroDivisionError else Ok (a / b).

(** Truthiness of a number: [x or y] keeps [x] unless it is zero. *)
Definition truthy (x : Q) : bool := negb (Qeq_bool x 0).

(** [d.get(k) or y], the key being absent when the field is [None]. *)
Definition get_or (x : option Q) (y : Q) : Q :=
  match x with
  | Some v => if truthy v then v else y
  | None => y
  end.

(** [sum(...)] over numbers, in the exact reading. *)
Definition qsum (l : list Q) : Q := foldl Qplus 0 l.

(** ** Binary64 arithmetic *)

(** The integer nearest to [num / den], for [num >= 0]; a tie goes to the
    even one. *)
Definition rne (num : Z) (den : positive) : Z :=
  let q := (num / Zpos den)%Z in
  let r := (num mod Zpos den)%Z in
  match (2 * r ?= Zpos den)%Z with
  | Lt => q
  | Gt => (q + 1)%Z
  | Eq => if Z.even q then q else (q + 1)%Z
  end.

(** The exponent [e] with [2^e <= n / d < 2^(e+1)]. *)
Definition floor_log2 (n d : positive) : Z :=
  let e := (Z.log2 (Zpos n) - Z.log2 (Zpos d))%Z in
  if (if (0 <=? e)%Z then (Zpos d * 2 ^ e <=? Zpos n)%Z
      else (Zpos d <=? Zpos n * 2 ^ (- e))%Z)
  then e else (e - 1)%Z.

(** Rounding of the positive [n / d]: 53 significant bits, and never a bit
    below [2^-1074] (the subnormal numbers). *)
Definition round64_pos (n d : positive) : Q :=
  let e := floor_log2 n d in
  let sh := Z.max (e - 52) (-1074) in
  if (0 <=? sh)%Z
  then inject_Z (rne (Zpos n) (d * Z.to_pos (2 ^ sh)) * 2 ^ sh)
  else Qmake (rne (Zpos n * 2 ^ (- sh)) d) (Z.to_pos (2 ^ (- sh))).

(** The binary64 number nearest to [x], ties to even, as a reduced
    fraction.  It is what a float literal denotes, what [float(x)] returns
    and what every arithmetic operation on floats applies to its exact
    result. *)
Definition round64 (x : Q) : Q :=
  Qred match Qnum (Qred x) with
       | Z0 => 0
       | Zpos n => round64_pos n (Qden (Qred x))
       | Zneg n => - round64_pos n (Qden (Qred x))
       end.

(** [a + b] and [a - b] on floats (or on a float and an int). *)
Definition fadd (a b : Q) : Q := round64 (a + b).
Definition fsub (a b : Q) : Q := round64 (a - b).

(** [sum(...)] over floats, as CPython up to 3.11 computes it: one
    addition after the other from the int [0], each one rounded. *)
Definition fsum (l : list Q) : Q := foldl fadd 0 l.

(** The value of a kernel float, to compare [round64] with the binary64
    arithmetic of the machine ([0] stands for the values that are not
    finite). *)
Definition Q_of_float (f : float) : Q :=
  match Prim2SF f with
  | S754_finite s m e =>
      let v := if (0 <=? e)%Z then inject_Z (Zpos m * 2 ^ e)
               else Qmake (Zpos m) (Z.to_pos (2 ^ (- e))) in
      Qred (if s then - v else v)
  | _ => 0
  end.

(** A binary64 number: an integer of at most 53 bits times a power of two
    that is at least [2^-1074]. *)
Definition is_b64 (y : Q) : Prop :=
  exists k sh : Z, (Z.abs k <= 2 ^ 53)%Z /\ (-1074 <= sh)%Z /\ y == inject_Z k * 2 ^ sh.

(** ** Food entries and the store of [micros] dictionaries *)

(** A reference to a [micros] dictionary object. *)
Definition ref : Type := positive.

(** A food entry is a Python dict.  A field is [None] when the key is
    absent; a key that is present holds a number.  [micros] holds a
    reference: the dictionary itself is an object of the store. *)
Record FoodEntry : Type := {
  name : string;
  serving_size_g : option Q;
  grams : option Q;
  calories : option Q;
  protein_g : option Q;
  carbs_g : option Q;
  fats_g : option Q;
  micros : option ref
}.

Abbreviation store := (gmap ref (gmap string Q)).

(** [f.get('micros', {})], read through the store. *)
Definition micros_of (σ : store) (f : FoodEntry) : gmap string Q :=
  match micros f with
  | Some r => default ∅ (σ !! r)
  | None => ∅
  end.

(** [f.get('micros', {}).get(k, 0)]. *)
Definition micro (σ : store) (k : string) (f : FoodEntry) : Q :=
  default 0 (micros_of σ f !! k).

(** [f.get(key, 0)] for a top-level nutrient key. *)
Definition nutrient (key : FoodEntry -> option Q) (f : FoodEntry) : Q :=
  default 0 (key f).

(** ** Daily logs *)

Definition MEAL_TYPES : list string :=
  ["Breakfast"; "Lunch"; "Dinner"; "Snacks"]%string.

(** [meals] keeps the insertion order of its buckets; workouts and notes
    take no part in the totals and are left out. *)
Record DailyLog : Type := {
  meals : list (string * list FoodEntry);
  water_ml : option Q
}.

(** [[item for meal_entries in log['meals'].values() for item in meal_entries]] *)
Definition all_food (log : DailyLog) : list FoodEntry :=
  concat (map snd (meals log)).

Record Totals : Type := {
  total_calories : Q;
  total_protein : Q;
  total_carbs : Q;
  total_fats : Q;
  total_water : Q;
  total_sodium : Q;
  total_sugar : Q
}.

(** The [totals] dictionary of [build_dashboard_panel] in the exact
    reading; [B64.day_totals] below has the sums of floats. *)
Definition day_totals (σ : store) (log : DailyLog) : Totals :=
  let all := all_food log in
  {| total_calories := qsum (map (nutrient calories) all);
     total_protein := qsum (map (nutrient protein_g) all);
     total_carbs := qsum (map (nutrient carbs_g) all);
     total_fats := qsum (map (nutrient fats_g) all);
     total_water := default 0 (water_ml log);
     total_sodium := qsum (map (micro σ "sodium_mg") all);
     total_sugar := qsum (map (micro σ "sugar_g") all) |}.

(** ** Scaling an entry *)

(** [(d.get(key) or 0) * scale], the product in the exact reading. *)
Definition scaled (scale v : Q) : Q := (if truthy v then v else 0) * scale.

(** [scale_food_entry]; [grams_in] is the answer to the prompt (the local
    [grams]).  [food_entry.copy()] is a new dictionary with the same
    values, so the copy is a new record holding the same [micros]
    reference, and the loop over [micros] assigns into the dictionary the
    copy shares with [food_entry]: the result carries the store after the
    call.  On an empty [micros] the loop does not run, and the store is
    rewritten with the value it has. *)
Definition scale_food_entry (σ : store) (food_entry : FoodEntry) (grams_in : Q)
  : result (store * option FoodEntry) :=
  let base_grams :=
    get_or (serving_size_g food_entry) (get_or (grams food_entry) 100) in
  if Qeq_bool base_grams 0 then Ok (σ, None) else
  scale ← py_div grams_in base_grams;
  let scaled_entry :=
    {| name := name food_entry;
       serving_size_g := serving_size_g food_entry;
       grams := Some grams_in;
       calories := scaled scale <$> calories food_entry;
       protein_g := scaled scale <$> protein_g food_entry;
       carbs_g := scaled scale <$> carbs_g food_entry;
       fats_g := scaled scale <$> fats_g food_entry;
       micros := micros food_entry |} in
  let σ' :=
    match micros food_entry with
    | Some r =>
        match σ !! r with
        | Some m => <[r := scaled scale <$> m]> σ
        | None => σ
        end
    | None => σ
    end in
  Ok (σ', Some scaled_entry).

(** ** Comparisons on numbers *)

Definition qltb (a b : Q) : bool := negb (Qle_bool b a).
Definition qleb (a b : Q) : bool := Qle_bool a b.

(** ** Profile, goals and the persisted document *)

(** The [goals] dictionary of the profile; every key may be absent and
    each reader supplies its own default. *)
Record Goals : Type := {
  goal_calories : option Q;
  goal_protein_g : option Q;
  goal_carbs_g : option Q;
  goal_fats_g : option Q;
  goal_water_ml : option Q
}.

Record MicroGoals : Type := {
  goal_sodium_mg : option Q;
  goal_sugar_g : option Q
}.

Record Profile : Type := {
  weight_kg : Q;
  goal_weight_kg : Q;
  goals : Goals
}.

(** [start_time] is the timestamp, in seconds, of the stored ISO instant;
    [None] stands for a missing or empty value, which Python treats as
    false. *)
Record Fasting : Type := {
  active : bool;
  start_time : option Q;
  duration_hours : Z
}.

Record Streaks : Type := {
  calorie_goal : Z;
  water_goal : Z;
  last_checked_date : option Z
}.

(** [self.data]; [objects] is the store holding the [micros]
    dictionaries the entries refer to. *)
Record Data : Type := {
  profile : Profile;
  micronutrient_goals : MicroGoals;
  daily_logs : gmap Z DailyLog;
  weight_logs : gmap Z Q;
  fasting : Fasting;
  streaks : Streaks;
  objects : store
}.

(** ** Lazy creation of a day's log *)

(** [log["meals"].setdefault(meal, [])] *)
Definition setdefault_meal (ms : list (string * list FoodEntry)) (meal : string)
  : list (string * list FoodEntry) :=
  if existsb (fun b => String.eqb (fst b) meal) ms then ms else ms ++ [(meal, [])].

(** [get_log_for_date]: returns the log and the document, in which the log
    has been created or completed. *)
Definition get_log_for_date (data : Data) (date_iso : Z) : Data * DailyLog :=
  let log0 :=
    match daily_logs data !! date_iso with
    | Some log => log
    | None => {| meals := map (fun meal => (meal, [])) MEAL_TYPES; water_ml := Some 0 |}
    end in
  let log :=
    {| meals := foldl setdefault_meal (meals log0) MEAL_TYPES;
       water_ml := Some (default 0 (water_ml log0)) |} in
  ({| profile := profile data;
      micronutrient_goals := micronutrient_goals data;
      daily_logs := <[date_iso := log]> (daily_logs data);
      weight_logs := weight_logs data;
      fasting := fasting data;
      streaks := streaks data;
      objects := objects data |}, log).

(** ** The dashboard: goal progress and the fasting panel *)

(** [min(current / goal, 1.0) if goal > 0 else 0] *)
Definition goal_progress (current goal : Q) : result Q :=
  if qltb 0 goal then q ← py_div current goal; Ok (Qmin q 1) else Ok 0.

(** The [metrics] list: current value and goal, with the defaults of each
    [get]. *)
Definition metrics (totals : Totals) (g : Goals) (mg : MicroGoals) : list (Q * Q) :=
  [ (total_calories totals, default 2000 (goal_calories g));
    (total_protein totals, default 100 (goal_protein_g g));
    (total_carbs totals, default 200 (goal_carbs_g g));
    (total_fats totals, default 70 (goal_fats_g g));
    (total_water totals, default 2500 (goal_water_ml g));
    (total_sodium totals, default 2300 (goal_sodium_mg mg));
    (total_sugar totals, default 30 (goal_sugar_g mg)) ].

(** The progress bars of the summary table, in order. *)
Fixpoint progress_bars (ms : list (Q * Q)) : result (list Q) :=
  match ms with
  | [] => Ok []
  | (current, goal) :: rest =>
      p ← goal_progress current goal;
      ps ← progress_bars rest;
      Ok (p :: ps)
  end.

(** [int(x)]: truncation towards zero. *)
Definition py_int (x : Q) : Z := if qltb x 0 then Qceiling x else Qfloor x.

(** [divmod(x, y)] on floats, for [y > 0]: floor quotient and remainder. *)
Definition py_divmod (x y : Q) : Q * Q :=
  let q := inject_Z (Qfloor (x / y)) in (q, x - q * y).

Record FastingView : Type := {
  elapsed_sec : Q;
  remaining_sec : Q;
  progress : Q;
  shown_elapsed : Z * Z;
  shown_remaining : Z * Z
}.

(** The fasting panel of [build_dashboard_panel] at clock [now_ts];
    [None] is the "No active fast." text. *)
Definition fasting_panel (fasting_data : Fasting) (now_ts : Q)
  : result (option FastingView) :=
  match active fasting_data, start_time fasting_data with
  | true, Some start_ts =>
      let duration_sec := inject_Z (duration_hours fasting_data * 3600) in
      let elapsed := now_ts - start_ts in
      q ← py_div elapsed duration_sec;
      let progress := Qmin q 1 in
      let '(elapsed_h, rem_m_div) := py_divmod elapsed 3600 in
      let elapsed_m := rem_m_div / 60 in
      let remaining := Qmax 0 (duration_sec - elapsed) in
      let '(rem_h, rem_m_rem_div) := py_divmod remaining 3600 in
      let rem_m := rem_m_rem_div / 60 in
      Ok (Some {| elapsed_sec := elapsed;
                  remaining_sec := remaining;
                  progress := progress;
                  shown_elapsed := (py_int elapsed_h, py_int elapsed_m);
                  shown_remaining := (py_int rem_h, py_int rem_m) |})
  | _, _ => Ok None
  end.

(** [manage_fasting] when no fast is active: the prompt's answer
    [duration] is stored unchecked. *)
Definition start_fast (now_ts : Q) (duration : Z) : Fasting :=
  {| active := true; start_time := Some now_ts; duration_hours := duration |}.

(** ** Streaks *)

Definition set_streaks (data : Data) (s : Streaks) : Data :=
  {| profile := profile data;
     micronutrient_goals := micronutrient_goals data;
     daily_logs := daily_logs data;
     weight_logs := weight_logs data;
     fasting := fasting data;
     streaks := s;
     objects := objects data |}.

(** The adherence test on yesterday's calories:
    [total_calories > 0 and abs(total_calories - goal) <= 100], the
    subtraction being one on floats. *)
Definition calorie_adherent (total_cal goal : Q) : bool :=
  qltb 0 total_cal && qleb (Qabs (fsub total_cal goal)) 100.

(** [update_streaks], with [today] the ordinal of [datetime.date.today()].
    A stored log is a dictionary with keys, hence true under
    [if yesterday_log].  The calories of yesterday are summed as floats:
    the test is taken on the rounded sum. *)
Definition update_streaks (data : Data) (today : Z) : Data :=
  let s := streaks data in
  if decide (last_checked_date s = Some today) then data else
  let yesterday := (today - 1)%Z in
  let s1 :=
    if decide (last_checked_date s <> Some yesterday)
    then {| calorie_goal := 0; water_goal := 0;
            last_checked_date := last_checked_date s |}
    else s in
  let s2 :=
    match daily_logs data !! yesterday with
    | Some yesterday_log =>
        let g := goals (profile data) in
        let total_cal := fsum (map (nutrient calories) (all_food yesterday_log)) in
        let c :=
          if calorie_adherent total_cal (default 0 (goal_calories g))
          then (calorie_goal s1 + 1)%Z else 0%Z in
        let w :=
          if qleb (default 2500 (goal_water_ml g)) (default 0 (water_ml yesterday_log))
          then (water_goal s1 + 1)%Z else 0%Z in
        {| calorie_goal := c; water_goal := w;
           last_checked_date := last_checked_date s1 |}
    | None => s1
    end in
  set_streaks data {| calorie_goal := calorie_goal s2;
                      water_goal := water_goal s2;
                      last_checked_date := Some today |}.

(** ** Summary reports and trend advice *)

Inductive Period : Type := weekly | monthly.

Definition num_days_of (period : Period) : Z :=
  match period with weekly => 7%Z | monthly => 30%Z end.

(** The three advice texts, with the figures they print. *)
Inductive Advice : Type :=
| ReduceCalories (from_cal to_cal : Q)
| IncreaseCaloriesTo (to_cal : Q)
| IncreaseCalories (from_cal to_cal : Q).

(** [statistics.mean], before the conversion of the result to a float. *)
Definition mean (l : list Q) : result Q :=
  match l with
  | [] => Raise StatisticsError
  | _ => Ok (qsum l / inject_Z (Z.of_nat (length l)))
  end.

(** [start_date <= date <= end_date] *)
Definition in_window (start_date end_date d : Z) : Prop :=
  (start_date <= d <= end_date)%Z.

#[global] Instance in_window_dec s e d : Decision (in_window s e d) :=
  ltac:(unfold in_window; apply _).

(** The dictionary comprehension keeping the keys of the window. *)
Definition relevant {A : Type} (start_date end_date : Z) (m : gmap Z A) : gmap Z A :=
  filter (fun kv => in_window start_date end_date (fst kv)) m.

(** [[(start_date + timedelta(days=i)) for i in range(num_days)]] *)
Definition window_dates (start_date num_days : Z) : list Z :=
  seqZ start_date num_days.

(** One column of the per-day table: the value of [f] on the day's log,
    [0] when the day has none. *)
Definition daily {A : Type} (logs : gmap Z A) (f : A -> Q) (dates : list Z) : list Q :=
  (fun d => match logs !! d with Some log => f log | None => 0 end) <$> dates.

(** The per-day sums of [view_summary_reports], in the exact reading. *)
Definition log_sum (key : FoodEntry -> option Q) (log : DailyLog) : Q :=
  qsum (map (nutrient key) (all_food log)).

Definition by_date (a b : Z * Q) : Prop := (fst a <= fst b)%Z.

#[global] Instance by_date_dec a b : Decision (by_date a b) :=
  ltac:(unfold by_date; apply _).

(** [sorted(relevant_weights.items())]: the keys are distinct, so the
    tuples are ordered by date. *)
Definition sorted_items (m : gmap Z Q) : list (Z * Q) :=
  merge_sort by_date (map_to_list m).

(** The advice decision on the goal, the current weight, the change over
    the period and the mean intake, in the exact reading. *)
Definition advise (goal_w current_w weight_change avg_calories : Q) : option Advice :=
  if qltb goal_w current_w then
    if qltb (-(2#10)) weight_change
    then Some (ReduceCalories avg_calories (avg_calories - 200))
    else if qltb weight_change (-(1))
    then Some (IncreaseCaloriesTo (avg_calories + 150))
    else None
  else
    if qltb weight_change (2#10)
    then Some (IncreaseCalories avg_calories (avg_calories + 250))
    else None.

Record Report : Type := {
  dates : list Z;
  daily_cals : list Q;
  daily_prot : list Q;
  daily_carbs : list Q;
  daily_fats : list Q;
  daily_water : list Q;
  logged_days : nat;
  avg_cals : Q;
  avg_prot : Q;
  avg_carbs : Q;
  avg_fats : Q;
  avg_water : Q;
  advice : option Advice
}.

(** The trend-advice block in the exact reading; [None] when the block is
    skipped or leaves [advice] empty. *)
Definition trend_advice (data : Data) (period : Period) (start_date end_date : Z)
    (cals : list Q) : result (option Advice) :=
  let relevant_weights := relevant start_date end_date (weight_logs data) in
  match period with
  | weekly =>
      if decide (2 <= size relevant_weights)%nat then
        let sorted_weights := sorted_items relevant_weights in
        match last sorted_weights, head sorted_weights with
        | Some w_last, Some w_first =>
            let weight_change := snd w_last - snd w_first in
            let eaten := List.filter (qltb 0) cals in
            avg_calories ← match eaten with [] => Ok 0 | _ => mean eaten end;
            Ok (advise (goal_weight_kg (profile data)) (weight_kg (profile data))
                       weight_change avg_calories)
        | _, _ => Raise IndexError
        end
      else Ok None
  | monthly => Ok None
  end.

(** [view_summary_reports] up to its printing, in the exact reading:
    [None] is the "No data found" return. *)
Definition view_summary_reports (data : Data) (period : Period) (today : Z)
  : result (option Report) :=
  let num_days := num_days_of period in
  let end_date := today in
  let start_date := (end_date - (num_days - 1))%Z in
  let relevant_logs := relevant start_date end_date (daily_logs data) in
  if decide (relevant_logs = ∅) then Ok None else
  let ds := window_dates start_date num_days in
  let cals := daily relevant_logs (log_sum calories) ds in
  let prot := daily relevant_logs (log_sum protein_g) ds in
  let carbs := daily relevant_logs (log_sum carbs_g) ds in
  let fats := daily relevant_logs (log_sum fats_g) ds in
  let water := daily relevant_logs (fun log => default 0 (water_ml log)) ds in
  m_cals ← mean cals;
  m_prot ← mean prot;
  m_carbs ← mean carbs;
  m_fats ← mean fats;
  m_water ← mean water;
  adv ← trend_advice data period start_date end_date cals;
  Ok (Some {| dates := ds;
              daily_cals := cals; daily_prot := prot; daily_carbs := carbs;
              daily_fats := fats; daily_water := water;
              logged_days := size relevant_logs;
              avg_cals := m_cals; avg_prot := m_prot; avg_carbs := m_carbs;
              avg_fats := m_fats; avg_water := m_water;
              advice := adv |}).

(** ** The sums and the trend block in the binary64 reading *)

Module B64.

(** The [totals] dictionary of [build_dashboard_panel], every [sum] a sum
    of floats. *)
Definition day_totals (σ : store) (log : DailyLog) : Totals :=
  let all := all_food log in
  {| total_calories := fsum (map (nutrient calories) all);
     total_protein := fsum (map (nutrient protein_g) all);
     total_carbs := fsum (map (nutrient carbs_g) all);
     total_fats := fsum (map (nutrient fats_g) all);
     total_water := default 0 (water_ml log);
     total_sodium := fsum (map (micro σ "sodium_mg") all);
     total_sugar := fsum (map (micro σ "sugar_g") all) |}.

(** The per-day sums of [view_summary_reports]. *)
Definition log_sum (key : FoodEntry -> option Q) (log : DailyLog) : Q :=
  fsum (map (nutrient key) (all_food log)).

(** [statistics.mean]: the exact mean of the data, converted to a float. *)
Definition mean (l : list Q) : result Q :=
  match l with
  | [] => Raise StatisticsError
  | _ => Ok (round64 (qsum l / inject_Z (Z.of_nat (length l))))
  end.

(** The advice decision; [-0.2] and [0.2] are the float literals of the
    code. *)
Definition advise (goal_w current_w weight_change avg_calories : Q) : option Advice :=
  if qltb goal_w current_w then
    if qltb (round64 (-(2#10))) weight_change
    then Some (ReduceCalories avg_calories (fsub avg_calories 200))
    else if qltb weight_change (-(1))
    then Some (IncreaseCaloriesTo (fadd avg_calories 150))
    else None
  else
    if qltb weight_change (round64 (2#10))
    then Some (IncreaseCalories avg_calories (fadd avg_calories 250))
    else None.

(** The trend-advice block: the change of weight is a subtraction of
    floats, the mean that of [statistics.mean]. *)
Definition trend_advice (data : Data) (period : Period) (start_date end_date : Z)
    (cals : list Q) : result (option Advice) :=
  let relevant_weights := relevant start_date end_date (weight_logs data) in
  match period with
  | weekly =>
      if decide (2 <= size relevant_weights)%nat then
        let sorted_weights := sorted_items relevant_weights in
        match last sorted_weights, head sorted_weights with
        | Some w_last, Some w_first =>
            let weight_change := fsub (snd w_last) (snd w_first) in
            let eaten := List.filter (qltb 0) cals in
            avg_calories ← match eaten with [] => Ok 0 | _ => mean eaten end;
            Ok (advise (goal_weight_kg (profile data)) (weight_kg (profile data))
                       weight_change avg_calories)
        | _, _ => Raise IndexError
        end
      else Ok None
  | monthly => Ok None
  end.

(** [view_summary_reports] up to its printing, on floats. *)
Definition view_summary_reports (data : Data) (period : Period) (today : Z)
  : result (option Report) :=
  let num_days := num_days_of period in
  let end_date := today in
  let start_date := (end_date - (num_days - 1))%Z in
  let relevant_logs := relevant start_date end_date (daily_logs data) in
  if decide (relevant_logs = ∅) then Ok None else
  let ds := window_dates start_date num_days in
  let cals := daily relevant_logs (log_sum calories) ds in
  let prot := daily relevant_logs (log_sum protein_g) ds in
  let carbs := daily relevant_logs (log_sum carbs_g) ds in
  let fats := daily relevant_logs (log_sum fats_g) ds in
  let water := daily relevant_logs (fun log => default 0 (water_ml log)) ds in
  m_cals ← mean cals;
  m_prot ← mean prot;
  m_carbs ← mean carbs;
  m_fats ← mean fats;
  m_water ← mean water;
  adv ← trend_advice data period start_date end_date cals;
  Ok (Some {| dates := ds;
              daily_cals := cals; daily_prot := prot; daily_carbs := carbs;
              daily_fats := fats; daily_water := water;
              logged_days := size relevant_logs;
              avg_cals := m_cals; avg_prot := m_prot; avg_carbs := m_carbs;
              avg_fats := m_fats; avg_water := m_water;
              advice := adv |}).

End B64.

(** ** The aggregation contract, in the specification's words *)

(** What a field contributes: its value, nothing when the key is
    missing. *)
Definition value_of (x : option Q) : Q :=
  match x with Some v => v | None => 0 end.

(** What an entry contributes under a key of its [micros]. *)
Definition micro_value (σ : store) (k : string) (e : FoodEntry) : Q :=
  match micros e with
  | Some r => match σ !! r with Some m => value_of (m !! k) | None => 0 end
  | None => 0
  end.

(** The entries of one bucket added to a running total, one after the
    other, each addition rounded. *)
Fixpoint add_entries (f : FoodEntry -> Q) (total : Q) (entries : list FoodEntry) : Q :=
  match entries with
  | [] => total
  | e :: rest => add_entries f (round64 (total + f e)) rest
  end.

Fixpoint add_buckets (f : FoodEntry -> Q) (total : Q)
    (ms : list (string * list FoodEntry)) : Q :=
  match ms with
  | [] => total
  | b :: rest => add_buckets f (add_entries f total (snd b)) rest
  end.

(** The sum over all entries in all meal buckets, taken in the stored
    order. *)
Definition sum_over_buckets (f : FoodEntry -> Q) (ms : list (string * list FoodEntry)) : Q :=
  add_buckets f 0 ms.

(** A whole number that is not negative. *)
Definition whole (x : Q) : Prop := exists z : Z, (0 <= z)%Z /\ x == inject_Z z.

(** Values whose sum binary64 holds exactly: whole numbers adding up to
    less than [2^53]. *)
Definition exactly_summable (l : list Q) : Prop :=
  Forall whole l /\ qsum l < inject_Z (2 ^ 53).

(** The same, decided. *)
Definition wholeb (x : Q) : bool :=
  (Qden (Qred x) =? 1)%positive && (0 <=? Qnum (Qred x))%Z.

Definition exactly_summableb (l : list Q) : bool :=
  forallb wholeb l && qltb (qsum l) (inject_Z (2 ^ 53)).

(** Every nutrient of the day is exactly summable. *)
Definition whole_valued (σ : store) (log : DailyLog) : Prop :=
  exactly_summable (map (fun e => value_of (calories e)) (all_food log)) /\
  exactly_summable (map (fun e => value_of (protein_g e)) (all_food log)) /\
  exactly_summable (map (fun e => value_of (carbs_g e)) (all_food log)) /\
  exactly_summable (map (fun e => value_of (fats_g e)) (all_food log)) /\
  exactly_summable (map (micro_value σ "sodium_mg") (all_food log)) /\
  exactly_summable (map (micro_value σ "sugar_g") (all_food log)).

(** Two buckets with the same meal type and the same entries, in any
    order. *)
Definition same_bucket (b b' : string * list FoodEntry) : Prop :=
  fst b = fst b' /\ snd b ≡ₚ snd b'.

(** [log'] is [log] with its buckets, and the entries inside each bucket,
    rearranged. *)
Definition rearranged (log log' : DailyLog) : Prop :=
  (exists ms, meals log ≡ₚ ms /\ Forall2 same_bucket ms (meals log'))
  /\ water_ml log = water_ml log'.

Definition totals_eq (t t' : Totals) : Prop :=
  total_calories t == total_calories t' /\
  total_protein t == total_protein t' /\
  total_carbs t == total_carbs t' /\
  total_fats t == total_fats t' /\
  total_water t == total_water t' /\
  total_sodium t == total_sodium t' /\
  total_sugar t == total_sugar t'.

(** The totals of a day are those stated: each nutrient summed over all
    entries of all buckets, the water the log's own. *)
Definition totals_claimed (σ : store) (log : DailyLog) : Prop :=
  let t := B64.day_totals σ log in
  total_calories t == sum_over_buckets (fun e => value_of (calories e)) (meals log) /\
  total_protein t == sum_over_buckets (fun e => value_of (protein_g e)) (meals log) /\
  total_carbs t == sum_over_buckets (fun e => value_of (carbs_g e)) (meals log) /\
  total_fats t == sum_over_buckets (fun e => value_of (fats_g e)) (meals log) /\
  total_sodium t == sum_over_buckets (micro_value σ "sodium_mg") (meals log) /\
  total_sugar t == sum_over_buckets (micro_value σ "sugar_g") (meals log) /\
  total_water t == value_of (water_ml log).

(** The totals do not depend on the order of the buckets and of the
    entries. *)
Definition order_independent (σ : store) (log log' : DailyLog) : Prop :=
  rearranged log log' -> totals_eq (B64.day_totals σ log) (B64.day_totals σ log').

(** ** The streak rules, in the specification's words *)

(** The value a counter has once the gap rule has been applied: kept when
    the last evaluation was yesterday's, [0] otherwise. *)
Definition after_gap (s : Streaks) (today : Z) (counter : Z) : Z :=
  if decide (last_checked_date s = Some (today - 1)%Z) then counter else 0%Z.

(** The day of the last evaluation has a log.  The dashboard creates the
    log of the day the tracker is opened on before any action can save the
    document. *)
Definition evaluated_day_logged (data : Data) : Prop :=
  forall d, last_checked_date (streaks data) = Some d ->
            is_Some (daily_logs data !! d).

(** Within-tolerance adherence to the calorie goal:
    [abs(totalCalories - calorieGoal) <= 100], the difference as the
    subtraction of floats gives it. *)
Definition within_tolerance (total_cal goal : Q) : Prop :=
  0 < total_cal /\ Qabs (round64 (total_cal - goal)) <= 100.

(** ** Comparing entries up to the value of their numbers *)

Definition opt_eq (x y : option Q) : Prop :=
  match x, y with
  | Some a, Some b => a == b
  | None, None => True
  | _, _ => False
  end.

(** Same name, same grams and the same value under every top-level
    nutrient key. *)
Definition same_nutrients (e e' : FoodEntry) : Prop :=
  name e = name e' /\
  opt_eq (grams e) (grams e') /\
  opt_eq (calories e) (calories e') /\
  opt_eq (protein_g e) (protein_g e') /\
  opt_eq (carbs_g e) (carbs_g e') /\
  opt_eq (fats_g e) (fats_g e').

(** ** The report contract, in the specification's words *)

(** The total of a day under one field of its totals, zero for a date
    with no log. *)
Definition total_or_zero (data : Data) (field : Totals -> Q) (d : Z) : Q :=
  match daily_logs data !! d with
  | Some log => field (day_totals (objects data) log)
  | None => 0
  end.

(** The report of a period ending [today] holds one total per date of the
    window, zero for the dates without a log, and its averages divide by
    the number of days of the window. *)
Definition report_claimed (data : Data) (period : Period) (today : Z) : Prop :=
  let n := num_days_of period in
  let start_date := (today - (n - 1))%Z in
  exists r,
    view_summary_reports data period today = Ok (Some r) /\
    length (dates r) = Z.to_nat n /\
    NoDup (dates r) /\
    (forall d, d ∈ dates r <-> (start_date <= d <= today)%Z) /\
    (forall i d, dates r !! i = Some d ->
       daily_cals r !! i = Some (total_or_zero data total_calories d) /\
       daily_prot r !! i = Some (total_or_zero data total_protein d) /\
       daily_carbs r !! i = Some (total_or_zero data total_carbs d) /\
       daily_fats r !! i = Some (total_or_zero data total_fats d) /\
       daily_water r !! i = Some (total_or_zero data total_water d)) /\
    avg_cals r == qsum (daily_cals r) / inject_Z n /\
    avg_prot r == qsum (daily_prot r) / inject_Z n /\
    avg_carbs r == qsum (daily_carbs r) / inject_Z n /\
    avg_fats r == qsum (daily_fats r) / inject_Z n /\
    avg_water r == qsum (daily_water r) / inject_Z n /\
    length (filter (fun d => daily_logs data !! d = None) (dates r))
      = (Z.to_nat n - logged_days r)%nat.

(** ** The trend rules, in the specification's words *)

(** The trend advice the report prints, if any. *)
Definition advice_shown (data : Data) (period : Period) (today : Z) : option Advice :=
  match B64.view_summary_reports data period today with
  | Ok (Some r) => advice r
  | _ => None
  end.

(** [change] is the last weight minus the first, in chronological
    order. *)
Definition chronological_change (m : gmap Z Q) (change : Q) : Prop :=
  exists d1 w1 d2 w2,
    m !! d1 = Some w1 /\ m !! d2 = Some w2 /\
    (forall d, is_Some (m !! d) -> (d1 <= d <= d2)%Z) /\
    change = w2 - w1.

(** The mean of the days whose calorie total is positive; [0] when there
    is none. *)
Definition mean_eaten (cals : list Q) : Q :=
  match List.filter (qltb 0) cals with
  | [] => 0
  | eaten => qsum eaten / inject_Z (Z.of_nat (length eaten))
  end.

(** [first_w] and [last_w] are the weights of the earliest and of the
    latest date of [m]. *)
Definition chronological_ends (m : gmap Z Q) (first_w last_w : Q) : Prop :=
  exists d1 d2,
    m !! d1 = Some first_w /\ m !! d2 = Some last_w /\
    forall d, is_Some (m !! d) -> (d1 <= d <= d2)%Z.

(** The calorie total of a date as the report computes it, zero without a
    log. *)
Definition calories_on (data : Data) (d : Z) : Q :=
  match daily_logs data !! d with
  | Some log => total_calories (B64.day_totals (objects data) log)
  | None => 0
  end.

(** The calorie totals of the seven days ending [today]. *)
Definition week_calories (data : Data) (today : Z) : list Q :=
  calories_on data <$> seqZ (today - 6) 7.

(** [avg] is the mean of the totals that are positive, as a float; the
    rule says nothing of a week without such a total. *)
Definition mean_of_eaten (cals : list Q) (avg : Q) : Prop :=
  let eaten := List.filter (fun c => qltb 0 c) cals in
  eaten <> [] -> avg = round64 (qsum eaten / inject_Z (Z.of_nat (length eaten))).

(** The weekly advice: none unless the period holds two weights; with the
    change of weight as the subtraction of floats gives it, when cutting
    minus 200 exactly for a change above -0.2 and plus 150 exactly for a
    change below -1.0; otherwise plus 250 exactly for a change below 0.2;
    nothing in between. *)
Definition advice_rule_claimed (data : Data) (today : Z) : Prop :=
  let ws := relevant (today - 6) today (weight_logs data) in
  let goal_w := goal_weight_kg (profile data) in
  let current_w := weight_kg (profile data) in
  let shown := advice_shown data weekly today in
  (forall period a, advice_shown data period today = Some a ->
     period = weekly /\ (2 <= size ws)%nat) /\
  ((2 <= size ws)%nat ->
   exists first_w last_w avg,
     chronological_ends ws first_w last_w /\
     mean_of_eaten (week_calories data today) avg /\
     (goal_w < current_w ->
        (shown = Some (ReduceCalories avg (round64 (avg - 200)))
           <-> -(2#10) < round64 (last_w - first_w)) /\
        (shown = Some (IncreaseCaloriesTo (round64 (avg + 150)))
           <-> round64 (last_w - first_w) < -(1)) /\
        (shown = None
           <-> -(1) <= round64 (last_w - first_w) <= -(2#10))) /\
     (~ goal_w < current_w ->
        (shown = Some (IncreaseCalories avg (round64 (avg + 250)))
           <-> round64 (last_w - first_w) < 2#10) /\
        (shown = None
           <-> 2#10 <= round64 (last_w - first_w)))).

(** ** Worked inputs *)

Definition oats : FoodEntry :=
  {| name := "Oats"; serving_size_g := None; grams := Some 100;
     calories := Some 380; protein_g := Some 13; carbs_g := Some 67;
     fats_g := Some 7; micros := Some 1%positive |}.

Definition milk : FoodEntry :=
  {| name := "Milk"; serving_size_g := None; grams := Some 250;
     calories := Some 160; protein_g := Some 8; carbs_g := Some 12;
     fats_g := Some 9; micros := Some 2%positive |}.

(** A custom food as [manage_custom_food_recipes] stores it: a serving
    size, no [grams] key, an empty [micros]. *)
Definition shake : FoodEntry :=
  {| name := "Shake"; serving_size_g := Some 100; grams := None;
     calories := Some 50; protein_g := Some 10; carbs_g := Some 2;
     fats_g := Some 1; micros := Some 3%positive |}.

(** [shake] as [scale_food_entry] returns it for 200 g: each value times
    200 / 100. *)
Definition shake_200 : FoodEntry :=
  {| name := "Shake"; serving_size_g := Some 100; grams := Some 200;
     calories := Some (50 * (200 / 100)); protein_g := Some (10 * (200 / 100));
     carbs_g := Some (2 * (200 / 100)); fats_g := Some (1 * (200 / 100));
     micros := Some 3%positive |}.

Definition pantry : store :=
  {[ 1%positive := {[ "sodium_mg"%string := 6; "sugar_g"%string := 1 ]};
     2%positive := {[ "sodium_mg"%string := 110; "sugar_g"%string := 12 ]};
     3%positive := ∅ ]}.

Definition monday : DailyLog :=
  {| meals := [("Breakfast"%string, [oats; milk]); ("Lunch"%string, [shake]);
               ("Dinner"%string, []); ("Snacks"%string, [])];
     water_ml := Some 1500 |}.

Definition monday_shuffled : DailyLog :=
  {| meals := [("Lunch"%string, [shake]); ("Breakfast"%string, [milk; oats]);
               ("Dinner"%string, []); ("Snacks"%string, [])];
     water_ml := Some 1500 |}.

Definition plan : Goals :=
  {| goal_calories := Some 2000; goal_protein_g := Some 120;
     goal_carbs_g := Some 220; goal_fats_g := Some 60;
     goal_water_ml := Some 2500 |}.

(** A user at 79.9 kg aiming at 75 kg. *)
Definition me : Profile :=
  {| weight_kg := 799 # 10; goal_weight_kg := 75; goals := plan |}.

Definition idle : Fasting :=
  {| active := false; start_time := None; duration_hours := 16 |}.

Definition fresh : Streaks :=
  {| calorie_goal := 0; water_goal := 0; last_checked_date := None |}.

Definition document (logs : gmap Z DailyLog) (weights : gmap Z Q) (s : Streaks) : Data :=
  {| profile := me;
     micronutrient_goals := {| goal_sodium_mg := Some 2300; goal_sugar_g := Some 30 |};
     daily_logs := logs;
     weight_logs := weights;
     fasting := idle;
     streaks := s;
     objects := pantry |}.

(** A day with one meal of [kcal] calories and [water] ml drunk. *)
Definition day_of (kcal water : Q) : DailyLog :=
  {| meals := [("Breakfast"%string,
                [{| name := "Meal"; serving_size_g := None; grams := Some 400;
                    calories := Some kcal; protein_g := Some 30;
                    carbs_g := Some 50; fats_g := Some 20; micros := None |}]);
               ("Lunch"%string, []); ("Dinner"%string, []); ("Snacks"%string, [])];
     water_ml := Some water |}.

(** 80.0 kg on day 94, 79.9 kg on day 100. *)
Definition two_weights : gmap Z Q := {[ 94%Z := 80; 100%Z := 799 # 10 ]}.

(** Two weights in the week ending on day 100 and no daily log at all. *)
Definition weights_only : Data := document ∅ two_weights fresh.

(** Three logged days (95, 97, 100) in the week 94..100. *)
Definition three_logged : Data :=
  document {[ 95%Z := day_of 1800 2000; 97%Z := day_of 2100 2600; 100%Z := monday ]}
           two_weights fresh.

(** The same user with the weights as the floats typed: 79.9 kg now,
    aiming at 75 kg. *)
Definition diary (logs : gmap Z DailyLog) (weights : gmap Z Q) : Data :=
  {| profile := {| weight_kg := round64 79.9; goal_weight_kg := 75; goals := plan |};
     micronutrient_goals := {| goal_sodium_mg := Some 2300; goal_sugar_g := Some 30 |};
     daily_logs := logs;
     weight_logs := weights;
     fasting := idle;
     streaks := fresh;
     objects := pantry |}.

(** 80.0 kg on day 94, 79.9 kg on day 100. *)
Definition slow_loss : gmap Z Q := {[ 94%Z := 80; 100%Z := round64 79.9 ]}.

(** Two weights in the week ending on day 100 and no daily log at all. *)
Definition weighed_only : Data := diary ∅ slow_loss.

(** The same weights and three logged days (95, 97, 100). *)
Definition weighed_and_logged : Data :=
  diary {[ 95%Z := day_of 1800 2000; 97%Z := day_of 2100 2600; 100%Z := monday ]}
        slow_loss.

(** 79.6 kg on day 94, 79.4 kg on day 100, and one logged day. *)
Definition hair_above : Data :=
  diary {[ 100%Z := monday ]} {[ 94%Z := round64 79.6; 100%Z := round64 79.4 ]}.

(** Yesterday (day 99) at 1950 kcal against a goal of 2000, the last
    evaluation made on day 99 with a calorie streak of 4. *)
Definition on_track : Data :=
  document {[ 99%Z := day_of 1950 2600 ]} ∅
           {| calorie_goal := 4; water_goal := 0; last_checked_date := Some 99%Z |}.

(** The same with 2050 kcal logged on day 100 as well. *)
Definition two_good_days : Data :=
  document {[ 99%Z := day_of 1950 2600; 100%Z := day_of 2050 2600 ]} ∅
           {| calorie_goal := 4; water_goal := 0; last_checked_date := Some 99%Z |}.

(** The same with 500 kcal and 1000 ml. *)
Definition off_track : Data :=
  document {[ 99%Z := day_of 500 1000 ]} ∅
           {| calorie_goal := 4; water_goal := 3; last_checked_date := Some 99%Z |}.

(** Oats logged on day 99, and Monday's meals on day 100. *)
Definition oats_days : Data :=
  document {[ 99%Z := {| meals := [("Breakfast"%string, [oats]); ("Lunch"%string, []);
                                   ("Dinner"%string, []); ("Snacks"%string, [])];
                         water_ml := Some 0 |};
              100%Z := monday ]} ∅ fresh.

(** Streaks of 3 and 2 evaluated on day 99, and no log for day 99. *)
Definition stale_streak : Data :=
  document ∅ ∅ {| calorie_goal := 3; water_goal := 2; last_checked_date := Some 99%Z |}.

(** Streaks of 3 and 2 evaluated on day 98, which has a log, and no log
    for day 99. *)
Definition skipped_day : Data :=
  document {[ 98%Z := day_of 1950 2600 ]} ∅
           {| calorie_goal := 3; water_goal := 2; last_checked_date := Some 98%Z |}.

(** An entry of [kcal] kilocalories, the float nearest to the number
    typed. *)
Definition bite (kcal : Q) : FoodEntry :=
  {| name := "Bite"; serving_size_g := None; grams := Some 1;
     calories := Some (round64 kcal); protein_g := Some 0; carbs_g := Some 0;
     fats_g := Some 0; micros := None |}.

(** A day whose breakfast holds one entry for each of the calorie values
    typed, and [water] ml drunk. *)
Definition day_with (kcals : list Q) (water : Q) : DailyLog :=
  {| meals := [("Breakfast"%string, bite <$> kcals);
               ("Lunch"%string, []); ("Dinner"%string, []); ("Snacks"%string, [])];
     water_ml := Some water |}.

(** Yesterday (day 99) with these entries against a goal of 2000 kcal, the
    last evaluation made on day 99 with a calorie streak of 4. *)
Definition tracked (kcals : list Q) : Data :=
  document {[ 99%Z := day_with kcals 2600 ]} ∅
           {| calorie_goal := 4; water_goal := 0; last_checked_date := Some 99%Z |}.

Definition tenth : FoodEntry := bite 0.1.
Definition fifth : FoodEntry := bite 0.2.
Definition three_tenths : FoodEntry := bite 0.3.

(** A day whose breakfast holds 0.1, 0.2 and 0.3 kcal, and the same day
    with the three entries in the reverse order. *)
Definition tenths : DailyLog :=
  {| meals := [("Breakfast"%string, [tenth; fifth; three_tenths]);
               ("Lunch"%string, []); ("Dinner"%string, []); ("Snacks"%string, [])];
     water_ml := Some 0 |}.

Definition tenths_reversed : DailyLog :=
  {| meals := [("Breakfast"%string, [three_tenths; fifth; tenth]);
               ("Lunch"%string, []); ("Dinner"%string, []); ("Snacks"%string, [])];
     water_ml := Some 0 |}.

(** * The rest of the tracker *)

(** ** Logging water, weight and food *)

Definition set_daily_logs (data : Data) (logs : gmap Z DailyLog) : Data :=
  {| profile := profile data;
     micronutrient_goals := micronutrient_goals data;
     daily_logs := logs;
     weight_logs := weight_logs data;
     fasting := fasting data;
     streaks := streaks data;
     objects := objects data |}.

(** [log_water], with [amount] the answer to the prompt.  The log comes
    from [get_log_for_date], so its [water_ml] key is present; the log is
    created even when nothing is added. *)
Definition log_water (data : Data) (current_date_iso : Z) (amount : Z) : Data :=
  let '(data1, current_log) := get_log_for_date data current_date_iso in
  if (0 <? amount)%Z then
    set_daily_logs data1
      (<[current_date_iso :=
           {| meals := meals current_log;
              water_ml := Some (default 0 (water_ml current_log) + inject_Z amount) |}]>
         (daily_logs data1))
  else data1.

(** [log_weight], with [new_weight] the answer to the prompt. *)
Definition log_weight (data : Data) (current_date_iso : Z) (new_weight : Q) : Data :=
  {| profile := {| weight_kg := new_weight;
                   goal_weight_kg := goal_weight_kg (profile data);
                   goals := goals (profile data) |};
     micronutrient_goals := micronutrient_goals data;
     daily_logs := daily_logs data;
     weight_logs := <[current_date_iso := new_weight]> (weight_logs data);
     fasting := fasting data;
     streaks := streaks data;
     objects := objects data |}.

(** [meals[meal_choice].append(food_entry)]; [None] is the [KeyError] of a
    meal type that is not a key. *)
Fixpoint append_to_meal (ms : list (string * list FoodEntry)) (meal_choice : string)
    (food_entry : FoodEntry) : option (list (string * list FoodEntry)) :=
  match ms with
  | [] => None
  | (k, entries) :: rest =>
      if String.eqb k meal_choice
      then Some ((k, entries ++ [food_entry]) :: rest)
      else cons (k, entries) <$> append_to_meal rest meal_choice food_entry
  end.

Definition set_objects (data : Data) (σ : store) : Data :=
  {| profile := profile data;
     micronutrient_goals := micronutrient_goals data;
     daily_logs := daily_logs data;
     weight_logs := weight_logs data;
     fasting := fasting data;
     streaks := streaks data;
     objects := σ |}.

(** [log_food].  [method] is the lookup chosen, as a function of the store
    of objects: [get_food_from_frequent] and [get_food_from_custom] end in
    [scale_food_entry], which rewrites the [micros] that the entry found
    shares with stored entries; the search, the history and the barcode end
    in [process_product_selection], whose entry has a [micros] of its own;
    a cancelled or empty lookup returns nothing.  The lookup runs first,
    then a non-empty result is appended to the log of the date shown.
    [None] is the [KeyError] of a meal type that is not a key,
    [Some (Raise e)] an exception of the lookup. *)
Definition log_food (data : Data) (current_date_iso : Z) (meal_choice : string)
    (method : store -> result (store * option FoodEntry)) : option (result Data) :=
  match method (objects data) with
  | Raise e => Some (Raise e)
  | Ok (σ', None) => Some (Ok (set_objects data σ'))
  | Ok (σ', Some entry) =>
      let '(data1, log) := get_log_for_date (set_objects data σ') current_date_iso in
      ms ← append_to_meal (meals log) meal_choice entry;
      Some (Ok (set_daily_logs data1
                  (<[current_date_iso := {| meals := ms; water_ml := water_ml log |}]>
                     (daily_logs data1))))
  end.

(** [__init__] up to the first dashboard: the streak evaluation, then the
    panel of today, which creates today's log. *)
Definition open_session (data : Data) (today : Z) : Data :=
  fst (get_log_for_date (update_streaks data today) today).

(** ** Products of the food lookup *)

(** The [nutriments] of a product; a field is [None] when the key is
    missing or its value is not a number, the cases in which [safe_float]
    answers its default. *)
Record Nutriments : Type := {
  energy_kcal_100g : option Q;
  proteins_100g : option Q;
  carbohydrates_100g : option Q;
  fat_100g : option Q;
  sodium_100g : option Q;
  sugars_100g : option Q;
  fiber_100g : option Q
}.

Record Product : Type := {
  product_name_en : option string;
  product_name : option string;
  nutriments : Nutriments
}.

(** [safe_float(value)] with its default [0.0]. *)
Definition safe_float (value : option Q) : Q := default 0 value.

(** A new dictionary object: a reference the store does not hold yet. *)
Definition new_dict (σ : store) (m : gmap string Q) : store * ref :=
  let r := base.fresh (dom σ) in (<[r := m]> σ, r).

(** [product.get('product_name_en') or product.get('product_name', 'Unknown Food')] *)
Definition display_name (product : Product) : string :=
  match product_name_en product with
  | Some s => if String.eqb s "" then default "Unknown Food"%string (product_name product) else s
  | None => default "Unknown Food"%string (product_name product)
  end.

(** [process_product_selection], with [grams_consumed] the answer to the
    prompt. *)
Definition process_product_selection (σ : store) (product : Product) (grams_consumed : Q)
  : store * FoodEntry :=
  let n := nutriments product in
  let scale := grams_consumed / 100 in
  let '(σ', r) :=
    new_dict σ
      (<["sodium_mg"%string := safe_float (sodium_100g n) * 1000 * scale]>
         (<["sugar_g"%string := safe_float (sugars_100g n) * scale]>
            (<["fiber_g"%string := safe_float (fiber_100g n) * scale]> ∅))) in
  (σ', {| name := display_name product;
          serving_size_g := None;
          grams := Some grams_consumed;
          calories := Some (safe_float (energy_kcal_100g n) * scale);
          protein_g := Some (safe_float (proteins_100g n) * scale);
          carbs_g := Some (safe_float (carbohydrates_100g n) * scale);
          fats_g := Some (safe_float (fat_100g n) * scale);
          micros := Some r |}).

(** The lookups as [log_food] runs them: a product found by the search,
    the history or the barcode, and a stored food found among the frequent
    or the custom ones. *)
Definition product_lookup (product : Product) (grams_consumed : Q) (σ : store)
  : result (store * option FoodEntry) :=
  let '(σ', entry) := process_product_selection σ product grams_consumed in
  Ok (σ', Some entry).

Definition stored_lookup (food : FoodEntry) (grams_in : Q) (σ : store)
  : result (store * option FoodEntry) :=
  scale_food_entry σ food grams_in.

(** ** Search history *)

(** [l.remove(x)] for an [x] that is in [l]: the first occurrence goes. *)
Fixpoint remove_first (x : string) (l : list string) : list string :=
  match l with
  | [] => []
  | y :: rest => if String.eqb y x then rest else y :: remove_first x rest
  end.

(** The history update of [get_food_from_search] for a typed [query]. *)
Definition record_search (history : list string) (query : string) : list string :=
  take 10 (query :: (if bool_decide (query ∈ history)
                     then remove_first query history else history)).

(** The history after [get_food_from_search]: [query] is the argument
    ([None] by default), [typed] the answer to the prompt.  An empty string
    is false. *)
Definition searched_history (history : list string) (query : option string)
    (typed : string) : list string :=
  match query with
  | Some q => if String.eqb q "" then
                (if String.eqb typed "" then history else record_search history typed)
              else history
  | None => if String.eqb typed "" then history else record_search history typed
  end.

(** ** Frequent foods *)

(** [Counter]'s update for one element: the count of a known name goes up
    in place, a new name is added last. *)
Fixpoint count_up (c : list (string * nat)) (x : string) : list (string * nat) :=
  match c with
  | [] => [(x, 1%nat)]
  | (k, n) :: rest =>
      if String.eqb k x then (k, S n) :: rest else (k, n) :: count_up rest x
  end.

(** [Counter(all_names)]: the names with their counts, in the order they
    were first seen. *)
Definition Counter (all_names : list string) : list (string * nat) :=
  foldl count_up [] all_names.

(** One step of a stable sort by decreasing count: [x], which came before
    the items of [l], stays before those of the same count. *)
Fixpoint insert_by_count (x : string * nat) (l : list (string * nat))
  : list (string * nat) :=
  match l with
  | [] => [x]
  | y :: rest => if (snd x <? snd y)%nat then y :: insert_by_count x rest else x :: l
  end.

(** [most_common(limit)]: the documented
    [sorted(items, key=count, reverse=True)[:limit]]. *)
Definition most_common (limit : nat) (c : list (string * nat)) : list (string * nat) :=
  take limit (foldr insert_by_count [] c).

(** [get_frequent_foods]; [days] is [daily_logs.values()], in the order the
    days were inserted. *)
Definition get_frequent_foods (days : list DailyLog) (limit : nat) : list string :=
  let all_names := name <$> concat (all_food <$> days) in
  match all_names with
  | [] => []
  | _ => fst <$> most_common limit (Counter all_names)
  end.

(** The search loop of [get_food_from_frequent]: the days from the last
    inserted back, the meals and the entries in order. *)
Definition find_logged (days : list DailyLog) (food_name : string) : option FoodEntry :=
  List.find (fun food => String.eqb (name food) food_name)
            (concat (all_food <$> reverse days)).

(** [get_food_from_frequent]: [choice] and [grams_in] are the answers to
    the two prompts.  [None] is the hand-over to the search; otherwise the
    result of the scaling, or [Ok (σ, None)] for the final [return None]. *)
Definition get_food_from_frequent (σ : store) (days : list DailyLog) (choice : nat)
    (grams_in : Q) : option (result (store * option FoodEntry)) :=
  let frequent_foods := get_frequent_foods days 10 in
  match frequent_foods, choice with
  | [], _ => None
  | _, O => None
  | _, S i =>
      Some match frequent_foods !! i with
           | None => Raise IndexError
           | Some food_name =>
               match find_logged days food_name with
               | Some food => scale_food_entry σ food grams_in
               | None => Ok (σ, None)
               end
           end
  end.

(** ** Starting and ending a fast *)

(** [manage_fasting]: [confirm] is whether the answer to "End it?" is [y],
    [duration] the answer to the duration prompt, [now_ts] the clock. *)
Definition manage_fasting (fasting_data : Fasting) (confirm : bool) (now_ts : Q)
    (duration : Z) : Fasting :=
  if active fasting_data then
    if confirm
    then {| active := false;
            start_time := start_time fasting_data;
            duration_hours := duration_hours fasting_data |}
    else fasting_data
  else start_fast now_ts duration.

(** ** Weight history *)

(** The series [view_weight_history] plots: dates and weights, [None] for
    the "Not enough data" message. *)
Definition view_weight_history (logs : gmap Z Q) : option (list Z * list Q) :=
  if decide (size logs < 2)%nat then None
  else
    let sorted_logs := sorted_items logs in
    Some (fst <$> sorted_logs, snd <$> sorted_logs).

(** ** Recipes *)

Record RecipeTotals : Type := {
  r_serving_size_g : Q;
  r_calories : Q;
  r_protein_g : Q;
  r_carbs_g : Q;
  r_fats_g : Q;
  r_sodium_mg : Q;
  r_sugar_g : Q
}.

(** One turn of the loop over the ingredients; [None] is the [KeyError] of
    an ingredient without one of the keys read by index. *)
Definition add_ingredient (σ : store) (t : RecipeTotals) (ing : FoodEntry)
  : option RecipeTotals :=
  g ← grams ing;
  c ← calories ing;
  p ← protein_g ing;
  cb ← carbs_g ing;
  f ← fats_g ing;
  let m := micros_of σ ing in
  let with_micros := negb (bool_decide (m = ∅)) in
  Some {| r_serving_size_g := r_serving_size_g t + g;
          r_calories := r_calories t + c;
          r_protein_g := r_protein_g t + p;
          r_carbs_g := r_carbs_g t + cb;
          r_fats_g := r_fats_g t + f;
          r_sodium_mg := if with_micros
                         then r_sodium_mg t + default 0 (m !! "sodium_mg"%string)
                         else r_sodium_mg t;
          r_sugar_g := if with_micros
                       then r_sugar_g t + default 0 (m !! "sugar_g"%string)
                       else r_sugar_g t |}.

Fixpoint add_ingredients (σ : store) (t : RecipeTotals) (ingredients : list FoodEntry)
  : option RecipeTotals :=
  match ingredients with
  | [] => Some t
  | ing :: rest => t' ← add_ingredient σ t ing; add_ingredients σ t' rest
  end.

(** The recipe branch of [manage_custom_food_recipes] once the ingredients
    are gathered: [None] is a [KeyError], [Some (σ, None)] the "Recipe
    cancelled" return, otherwise the custom food appended to the list. *)
Definition make_recipe (σ : store) (recipe_name : string) (ingredients : list FoodEntry)
  : option (store * option FoodEntry) :=
  match ingredients with
  | [] => Some (σ, None)
  | _ =>
      t ← add_ingredients σ
             {| r_serving_size_g := 0; r_calories := 0; r_protein_g := 0;
                r_carbs_g := 0; r_fats_g := 0; r_sodium_mg := 0; r_sugar_g := 0 |}
             ingredients;
      let '(σ', r) :=
        new_dict σ (<["sodium_mg"%string := r_sodium_mg t]>
                      (<["sugar_g"%string := r_sugar_g t]> ∅)) in
      Some (σ', Some {| name := recipe_name;
                        serving_size_g := Some (r_serving_size_g t);
                        grams := None;
                        calories := Some (r_calories t);
                        protein_g := Some (r_protein_g t);
                        carbs_g := Some (r_carbs_g t);
                        fats_g := Some (r_fats_g t);
                        micros := Some r |})
  end.

(** ** Meal plans *)

(** The [a] action of [manage_meal_plan] on the items of the chosen meal:
    an empty name adds nothing. *)
Definition plan_add (items : list string) (item_name : string) : list string :=
  if String.eqb item_name "" then items else items ++ [item_name].

(** The [r] action: the first occurrence of the name goes, if there is
    one. *)
Definition plan_remove (items : list string) (item_to_remove : string) : list string :=
  if bool_decide (item_to_remove ∈ items)
  then remove_first item_to_remove items else items.

(** ** The build script *)

Module Build.

Definition APP_NAME : string := "NutrientTracker".

Definition MAIN_SCRIPT : string := "tracker.py".

Definition hidden_imports : list string :=
  ["rich.console"; "rich.prompt"; "rich.panel"; "rich.layout"; "rich.table";
   "rich.progress_bar"; "rich.text"; "plotext"; "requests"; "json"; "datetime";
   "statistics"; "collections"]%string.

(** [get_pyinstaller_args] of [build.py]; [system] stands for
    [platform.system().lower()]. *)
Definition get_pyinstaller_args (system target_platform : string) : list string :=
  let target_platform :=
    if String.eqb target_platform "current" then system else target_platform in
  let base_args :=
    ["pyinstaller"; "--onefile"; "--console"; "--name";
     APP_NAME +:+ "_" +:+ target_platform; "--clean"; "--noconfirm"]%string in
  let base_args :=
    base_args ++ flat_map (fun import_name => ["--hidden-import"%string; import_name])
                          hidden_imports in
  let base_args :=
    if String.eqb target_platform "windows" then base_args ++ ["--icon=NONE"%string]
    else if String.eqb target_platform "linux" then base_args ++ ["--strip"%string]
    else base_args in
  base_args ++ [MAIN_SCRIPT].

(** The platform a target names. *)
Definition resolved (system target_platform : string) : string :=
  if String.eqb target_platform "current" then system else target_platform.

End Build.

(** ** Shorthands of the statements *)

(** The totals of a day without entries and without water. *)
Definition no_totals : Totals :=
  {| total_calories := 0; total_protein := 0; total_carbs := 0; total_fats := 0;
     total_water := 0; total_sodium := 0; total_sugar := 0 |}.

(** The totals of a date as the dashboard shows them: those of its log,
    [no_totals] without one. *)
Definition totals_on (data : Data) (d : Z) : Totals :=
  match daily_logs data !! d with
  | Some log => day_totals (objects data) log
  | None => no_totals
  end.

(** Several answers to the water prompt, one call of [log_water] each. *)
Definition log_waters (data : Data) (d : Z) (amounts : list Z) : Data :=
  foldl (fun dt amount => log_water dt d amount) data amounts.

(** What the additions bring: an answer that is not positive adds
    nothing. *)
Definition water_added (amounts : list Z) : Z :=
  foldr (fun amount acc => (Z.max 0 amount + acc)%Z) 0%Z amounts.

(** ** A session *)

Definition set_fasting (data : Data) (f : Fasting) : Data :=
  {| profile := profile data;
     micronutrient_goals := micronutrient_goals data;
     daily_logs := daily_logs data;
     weight_logs := weight_logs data;
     fasting := f;
     streaks := streaks data;
     objects := objects data |}.

(** One action of the loop of [run] on the document: the dashboard of a
    date, a water, weight or food entry for a date, the start or the end
    of a fast. *)
Inductive session_step : Data -> Data -> Prop :=
| step_show data d :
    session_step data (fst (get_log_for_date data d))
| step_water data d amount :
    session_step data (log_water data d amount)
| step_weight data d w :
    session_step data (log_weight data d w)
| step_food data d meal method data' :
    log_food data d meal method = Some (Ok data') -> session_step data data'
| step_fasting data confirm now_ts duration :
    session_step data
      (set_fasting data (manage_fasting (fasting data) confirm now_ts duration)).

(** The documents of the session opened on [today] from the stored
    document [data0]. *)
Definition in_session (data0 : Data) (today : Z) (data : Data) : Prop :=
  rtc session_step (open_session data0 today) data.

(** The per-100 g value of a product behind each key of [micros]: sodium
    is read in grams and stored in milligrams. *)
Definition per_100g_micro (n : Nutriments) (k : string) : Q :=
  if String.eqb k "sodium_mg" then safe_float (sodium_100g n) * 1000
  else if String.eqb k "sugar_g" then safe_float (sugars_100g n)
  else if String.eqb k "fiber_g" then safe_float (fiber_100g n)
  else 0.

(** How many of the logged names are [x]. *)
Definition times (x : string) (all_names : list string) : nat :=
  length (filter (x =.) all_names).

(** The order of [most_common]: the larger count first. *)
Definition more_common (a b : string * nat) : Prop := (snd b <= snd a)%nat.

(** What a counter holds for the names [l]: each name of [l] once, with
    the number of times it occurs. *)
Definition counts (c : list (string * nat)) (l : list string) : Prop :=
  NoDup (c.*1) /\
  (forall k n, (k, n) ∈ c -> n = times k l /\ k ∈ l) /\
  (forall k, k ∈ l -> k ∈ c.*1).

(** An entry holding the keys the recipe loop reads by index. *)
Definition complete (ing : FoodEntry) : Prop :=
  is_Some (grams ing) /\ is_Some (calories ing) /\ is_Some (protein_g ing) /\
  is_Some (carbs_g ing) /\ is_Some (fats_g ing).

(** * Properties *)

(** ** Arithmetic helpers *)

Lemma qltb_lt a b : qltb a b = true <-> a < b.
Proof.
  unfold qltb. rewrite negb_true_iff, <- not_true_iff_false, Qle_bool_iff.
  split; [apply Qnot_le_lt | apply Qlt_not_le].
Qed.

Lemma qltb_ge a b : qltb a b = false <-> b <= a.
Proof.
  unfold qltb. rewrite negb_false_iff. apply Qle_bool_iff.
Qed.

Lemma qleb_le a b : qleb a b = true <-> a <= b.
Proof. apply Qle_bool_iff. Qed.

(** Turns the boolean comparisons among the hypotheses into their
    propositions. *)
Ltac q_reflect :=
  repeat match goal with
         | H : qltb _ _ = true |- _ => apply qltb_lt in H
         | H : qltb _ _ = false |- _ => apply qltb_ge in H
         | H : qleb _ _ = true |- _ => apply qleb_le in H
         end.

Lemma foldl_Qplus_acc (a : Q) (l : list Q) : foldl Qplus a l == a + qsum l.
Proof.
  unfold qsum. revert a. induction l as [|x l IH]; intros a; simpl.
  - lra.
  - rewrite (IH (a + x)), (IH (0 + x)). lra.
Qed.

Lemma qsum_cons x l : qsum (x :: l) == x + qsum l.
Proof. unfold qsum at 1. simpl. rewrite foldl_Qplus_acc. lra. Qed.

Lemma qsum_app l1 l2 : qsum (l1 ++ l2) == qsum l1 + qsum l2.
Proof.
  induction l1 as [|x l1 IH]; simpl.
  - unfold qsum at 2. simpl. lra.
  - rewrite !qsum_cons, IH. lra.
Qed.

Lemma qsum_Permutation l1 l2 : l1 ≡ₚ l2 -> qsum l1 == qsum l2.
Proof.
  induction 1 as [|x l l' _ IH|x y l|l l' l'' _ IH1 _ IH2].
  - reflexivity.
  - rewrite !qsum_cons, IH. reflexivity.
  - rewrite !qsum_cons. lra.
  - rewrite IH1. exact IH2.
Qed.

(** ** Binary64 rounding *)

(** *** Nearest integer *)

Lemma rne_nearest (num : Z) (den : positive) (j : Z) :
  (Z.abs (rne num den * Zpos den - num) <= Z.abs (j * Zpos den - num))%Z.
Proof.
  unfold rne.
  pose proof (Z.div_mod num (Zpos den) ltac:(lia)) as Hdm.
  pose proof (Z.mod_pos_bound num (Zpos den) ltac:(lia)) as Hr.
  set (q := (num / Zpos den)%Z) in *. set (r := (num mod Zpos den)%Z) in *.
  set (D := Zpos den) in *. assert (HD : (0 < D)%Z) by (unfold D; lia).
  clearbody q r D.
  assert (Hj : (j <= q \/ q + 1 <= j)%Z) by lia.
  destruct (Z.compare_spec (2 * r) D) as [E|E|E];
    [destruct (Z.even q)| |]; destruct Hj as [Hj|Hj]; nia.
Qed.

Lemma rne_between (num : Z) (den : positive) (lo hi : Z) :
  (lo * Zpos den <= num <= hi * Zpos den)%Z -> (lo <= rne num den <= hi)%Z.
Proof.
  intros [Hlo Hhi]. unfold rne.
  pose proof (Z.div_mod num (Zpos den) ltac:(lia)) as Hdm.
  pose proof (Z.mod_pos_bound num (Zpos den) ltac:(lia)) as Hr.
  set (q := (num / Zpos den)%Z) in *. set (r := (num mod Zpos den)%Z) in *.
  set (D := Zpos den) in *. assert (HD : (0 < D)%Z) by (unfold D; lia).
  clearbody q r D.
  assert (Hq1 : (lo <= q)%Z) by nia.
  assert (Hq2 : (q <= hi)%Z) by nia.
  assert (Hq3 : (0 < r -> q + 1 <= hi)%Z) by nia.
  destruct (Z.compare_spec (2 * r) D) as [E|E|E];
    [destruct (Z.even q)| |]; lia.
Qed.

(** *** Powers of two *)

Lemma p2_pos (e : Z) : 0 < 2 ^ e.
Proof. apply Qpower_0_lt. reflexivity. Qed.

Lemma p2_add (a b : Z) : 2 ^ (a + b) == 2 ^ a * 2 ^ b.
Proof. apply Qpower_plus. discriminate. Qed.

Lemma p2_Z (e : Z) : (0 <= e)%Z -> 2 ^ e == inject_Z (2 ^ e).
Proof. intros He. rewrite (Zpower_Qpower 2 e He). reflexivity. Qed.

Lemma p2_neg (e : Z) : (e < 0)%Z -> 2 ^ e == 1 # Z.to_pos (2 ^ (- e)).
Proof.
  intros He. replace e with (- (- e))%Z at 1 by lia.
  rewrite Qpower_opp, p2_Z by lia.
  assert (Hp : (0 < 2 ^ (- e))%Z) by (apply Z.pow_pos_nonneg; lia).
  destruct (2 ^ (- e))%Z as [|p|p] eqn:E; try lia.
  reflexivity.
Qed.

Lemma p2_le (a b : Z) : (a <= b)%Z -> 2 ^ a <= 2 ^ b.
Proof.
  intros H. replace b with (a + (b - a))%Z by lia. rewrite p2_add.
  assert (H1 : 1 <= 2 ^ (b - a)).
  { rewrite p2_Z by lia. change 1 with (inject_Z 1). rewrite <- Zle_Qle.
    assert (0 < 2 ^ (b - a))%Z by (apply Z.pow_pos_nonneg; lia). lia. }
  pose proof (p2_pos a). nra.
Qed.

Lemma p2_succ (e : Z) : 2 ^ (e + 1) == 2 * 2 ^ e.
Proof. rewrite p2_add. change (2 ^ 1) with 2. ring. Qed.

(** *** The exponent *)

Lemma floor_log2_spec (n d : positive) :
  2 ^ floor_log2 n d <= Zpos n # d /\ Zpos n # d < 2 ^ (floor_log2 n d + 1).
Proof.
  unfold floor_log2.
  pose proof (Z.log2_spec (Zpos n) ltac:(lia)) as [Hn1 Hn2].
  pose proof (Z.log2_spec (Zpos d) ltac:(lia)) as [Hd1 Hd2].
  pose proof (Z.log2_nonneg (Zpos n)) as Hln. pose proof (Z.log2_nonneg (Zpos d)) as Hld.
  set (ln := Z.log2 (Zpos n)) in *. set (ld := Z.log2 (Zpos d)) in *.
  set (e0 := (ln - ld)%Z).
  (* n/d lies strictly between 2^(e0-1) and 2^(e0+1) *)
  assert (Qn1 : 2 ^ ln <= inject_Z (Zpos n)) by (rewrite p2_Z by lia; rewrite <- Zle_Qle; lia).
  assert (Qn2 : inject_Z (Zpos n) < 2 ^ (ln + 1))
    by (rewrite p2_Z by lia; rewrite <- Zlt_Qlt; lia).
  assert (Qd1 : 2 ^ ld <= inject_Z (Zpos d)) by (rewrite p2_Z by lia; rewrite <- Zle_Qle; lia).
  assert (Qd2 : inject_Z (Zpos d) < 2 ^ (ld + 1))
    by (rewrite p2_Z by lia; rewrite <- Zlt_Qlt; lia).
  assert (Hx : Zpos n # d == inject_Z (Zpos n) / inject_Z (Zpos d)).
  { rewrite Qmake_Qdiv. reflexivity. }
  assert (Hdpos : 0 < inject_Z (Zpos d)) by reflexivity.
  assert (Hlow : 2 ^ (e0 - 1) < Zpos n # d).
  { rewrite Hx. apply Qlt_shift_div_l; [exact Hdpos|].
    assert (E : 2 ^ ln == 2 ^ (e0 - 1) * 2 ^ (ld + 1)).
    { rewrite <- p2_add. replace (e0 - 1 + (ld + 1))%Z with ln by (unfold e0; lia).
      reflexivity. }
    pose proof (p2_pos (e0 - 1)) as P.
    set (A := 2 ^ (e0 - 1)) in *. set (B := 2 ^ (ld + 1)) in *. set (C := 2 ^ ln) in *.
    set (N := inject_Z (Zpos n)) in *. set (D := inject_Z (Zpos d)) in *.
    clearbody A B C N D. clear - E P Qn1 Qd2 Hdpos. nra. }
  assert (Hhigh : Zpos n # d < 2 ^ (e0 + 1)).
  { rewrite Hx. apply Qlt_shift_div_r; [exact Hdpos|].
    assert (E : 2 ^ (ln + 1) == 2 ^ (e0 + 1) * 2 ^ ld).
    { rewrite <- p2_add. replace (e0 + 1 + ld)%Z with (ln + 1)%Z by (unfold e0; lia).
      reflexivity. }
    pose proof (p2_pos (e0 + 1)) as P.
    set (A := 2 ^ (e0 + 1)) in *. set (B := 2 ^ ld) in *. set (C := 2 ^ (ln + 1)) in *.
    set (N := inject_Z (Zpos n)) in *. set (D := inject_Z (Zpos d)) in *.
    clearbody A B C N D. clear - E P Qn2 Qd1 Hdpos.
    apply Qlt_le_trans with (A * B); [rewrite <- E; exact Qn2|].
    apply Qmult_le_l; assumption. }
  assert (Htest : (if (0 <=? e0)%Z then (Zpos d * 2 ^ e0 <=? Zpos n)%Z
                   else (Zpos d <=? Zpos n * 2 ^ (- e0))%Z) = true
                  <-> 2 ^ e0 <= Zpos n # d).
  { destruct (0 <=? e0)%Z eqn:E0.
    - apply Z.leb_le in E0. rewrite Z.leb_le, p2_Z by exact E0.
      unfold Qle. cbn [Qnum Qden inject_Z].
      rewrite Z.mul_1_r, (Z.mul_comm (Zpos d)). reflexivity.
    - apply Z.leb_gt in E0. rewrite Z.leb_le, p2_neg by exact E0.
      assert (Hp : (0 < 2 ^ (- e0))%Z) by (apply Z.pow_pos_nonneg; lia).
      unfold Qle. cbn [Qnum Qden]. rewrite Z2Pos.id by exact Hp.
      rewrite Z.mul_1_l. reflexivity. }
  fold e0.
  destruct (if (0 <=? e0)%Z then (Zpos d * 2 ^ e0 <=? Zpos n)%Z
            else (Zpos d <=? Zpos n * 2 ^ (- e0))%Z) eqn:T.
  - split; [apply Htest; reflexivity | exact Hhigh].
  - split; [apply Qlt_le_weak, Hlow|].
    replace (e0 - 1 + 1)%Z with e0 by lia.
    apply Qnot_le_lt. intros H. apply Htest in H. discriminate.
Qed.

(** *** The rounding *)

Lemma round64_pos_eq (n d : positive) :
  exists (num : Z) (den : positive),
    (0 < num)%Z /\
    Zpos n # d == (num # den) * 2 ^ Z.max (floor_log2 n d - 52) (-1074) /\
    round64_pos n d
    == inject_Z (rne num den) * 2 ^ Z.max (floor_log2 n d - 52) (-1074).
Proof.
  unfold round64_pos.
  set (sh := Z.max (floor_log2 n d - 52) (-1074)).
  destruct (0 <=? sh)%Z eqn:E.
  - apply Z.leb_le in E.
    assert (Hp : (0 < 2 ^ sh)%Z) by (apply Z.pow_pos_nonneg; lia).
    exists (Zpos n), (d * Z.to_pos (2 ^ sh))%positive.
    split; [lia|]. rewrite p2_Z by exact E. split.
    + unfold Qeq, Qmult, inject_Z. cbn [Qnum Qden].
      rewrite !Pos2Z.inj_mul, Z2Pos.id by exact Hp.
      generalize (2 ^ sh)%Z. intros P. ring.
    + rewrite inject_Z_mult. reflexivity.
  - apply Z.leb_gt in E.
    assert (Hp : (0 < 2 ^ (- sh))%Z) by (apply Z.pow_pos_nonneg; lia).
    exists (Zpos n * 2 ^ (- sh))%Z, d.
    split; [lia|]. rewrite p2_neg by exact E. split.
    + unfold Qeq, Qmult. cbn [Qnum Qden].
      rewrite !Pos2Z.inj_mul, Z2Pos.id by exact Hp.
      generalize (2 ^ (- sh))%Z. intros P. ring.
    + unfold Qeq, Qmult, inject_Z. cbn [Qnum Qden].
      rewrite Pos.mul_1_l, Z.mul_1_r. reflexivity.
Qed.

Lemma rne_nearest_Q (num : Z) (den : positive) (j : Z) :
  Qabs (inject_Z (rne num den) - (num # den)) <= Qabs (inject_Z j - (num # den)).
Proof.
  assert (E : forall i : Z, inject_Z i - (num # den) == (i * Zpos den - num) # den).
  { intros i. unfold Qeq, Qminus, Qplus, Qopp, inject_Z. cbn [Qnum Qden].
    rewrite ?Pos.mul_1_l. ring. }
  rewrite !E. unfold Qabs, Qle. cbn [Qnum Qden].
  apply Z.mul_le_mono_nonneg_r; [lia|]. apply rne_nearest.
Qed.

Lemma Qabs_scale (a s : Q) : 0 < s -> Qabs (a * s) == Qabs a * s.
Proof. intros Hs. rewrite Qabs_Qmult, (Qabs_pos s) by lra. reflexivity. Qed.

(** The rounded value of a positive number lies on the grid of its binade
    and no binary64 number is nearer. *)
Lemma round64_pos_nearest (n d : positive) (y : Q) :
  is_b64 y -> Qabs (round64_pos n d - (Zpos n # d)) <= Qabs (y - (Zpos n # d)).
Proof.
  intros (k' & s' & Hk' & Hs' & Hy).
  destruct (round64_pos_eq n d) as (num & den & Hnum & Hx & Hr).
  destruct (floor_log2_spec n d) as [Hlo Hhi].
  set (e := floor_log2 n d) in *. set (sh := Z.max (e - 52) (-1074)) in *.
  set (x := Zpos n # d) in *. set (m := num # den) in *.
  pose proof (p2_pos sh) as Psh.
  assert (Hrx : round64_pos n d - x == (inject_Z (rne num den) - m) * 2 ^ sh).
  { rewrite Hr, Hx. ring. }
  rewrite Hrx, Qabs_scale by exact Psh.
  assert (Hgrid : forall j : Z,
            Qabs (inject_Z (rne num den) - m) * 2 ^ sh
            <= Qabs (inject_Z j * 2 ^ sh - x)).
  { intros j.
    assert (Hjx : inject_Z j * 2 ^ sh - x == (inject_Z j - m) * 2 ^ sh)
      by (rewrite Hx; ring).
    rewrite Hjx, Qabs_scale by exact Psh.
    apply Qmult_le_compat_r; [apply rne_nearest_Q | lra]. }
  destruct (Z_le_gt_dec sh s') as [Hge|Hlt].
  - (* y is on the grid *)
    assert (Hyj : y == inject_Z (k' * 2 ^ (s' - sh)) * 2 ^ sh).
    { rewrite Hy, inject_Z_mult, <- p2_Z by lia.
      rewrite <- Qmult_assoc, <- p2_add.
      replace (s' - sh + sh)%Z with s' by lia. reflexivity. }
    rewrite Hyj. apply Hgrid.
  - (* y is below the binade of x *)
    assert (Hsh : sh = (e - 52)%Z) by lia.
    assert (Hyle : y <= 2 ^ e).
    { rewrite Hy.
      assert (Hk1 : inject_Z k' <= 2 ^ 53).
      { rewrite p2_Z by lia. rewrite <- Zle_Qle. lia. }
      pose proof (p2_pos s') as Ps'.
      assert (H1 : inject_Z k' * 2 ^ s' <= 2 ^ 53 * 2 ^ s')
        by (apply Qmult_le_compat_r; lra).
      rewrite <- p2_add in H1.
      apply Qle_trans with (2 ^ (53 + s')); [exact H1|]. apply p2_le. lia. }
    assert (He : 2 ^ e == inject_Z (2 ^ 52) * 2 ^ sh).
    { rewrite <- p2_Z by lia. rewrite <- p2_add. rewrite Hsh.
      replace (52 + (e - 52))%Z with e by lia. reflexivity. }
    apply Qle_trans with (Qabs (2 ^ e - x)).
    + rewrite He. apply Hgrid.
    + rewrite (Qabs_neg (2 ^ e - x)) by lra. rewrite (Qabs_neg (y - x)) by lra. lra.
Qed.

Lemma round64_pos_b64 (n d : positive) : is_b64 (round64_pos n d) /\ 0 <= round64_pos n d.
Proof.
  destruct (round64_pos_eq n d) as (num & den & Hnum & Hx & Hr).
  destruct (floor_log2_spec n d) as [Hlo Hhi].
  set (e := floor_log2 n d) in *. set (sh := Z.max (e - 52) (-1074)) in *.
  pose proof (p2_pos sh) as Psh.
  assert (Hm : num # den <= 2 ^ 53).
  { assert (H1 : (num # den) * 2 ^ sh < 2 ^ 53 * 2 ^ sh).
    { rewrite <- Hx, <- p2_add. apply Qlt_le_trans with (2 ^ (e + 1)); [exact Hhi|].
      apply p2_le. lia. }
    apply Qnot_lt_le. intros Hc.
    assert (2 ^ 53 * 2 ^ sh <= (num # den) * 2 ^ sh)
      by (apply Qmult_le_compat_r; lra).
    lra. }
  assert (Hk : (0 <= rne num den <= 2 ^ 53)%Z).
  { apply rne_between. split; [lia|].
    rewrite p2_Z in Hm by lia. unfold Qle, inject_Z in Hm. cbn [Qnum Qden] in Hm. lia. }
  split.
  - exists (rne num den), sh. split; [lia|]. split; [lia | exact Hr].
  - rewrite Hr. apply Qmult_le_0_compat; [|lra].
    change 0 with (inject_Z 0). rewrite <- Zle_Qle. lia.
Qed.

#[global] Instance is_b64_proper : Proper (Qeq ==> iff) is_b64.
Proof.
  intros a b H. unfold is_b64.
  split; intros (k & sh & H1 & H2 & H3); exists k, sh; (split; [exact H1|]);
    (split; [exact H2|]); [rewrite <- H | rewrite H]; exact H3.
Qed.

Lemma is_b64_opp (y : Q) : is_b64 y -> is_b64 (- y).
Proof.
  intros (k & sh & H1 & H2 & H3). exists (- k)%Z, sh.
  split; [lia|]. split; [exact H2|]. rewrite H3, inject_Z_opp. ring.
Qed.

Lemma is_b64_Z (z : Z) : (Z.abs z <= 2 ^ 53)%Z -> is_b64 (inject_Z z).
Proof.
  intros H. exists z, 0%Z. split; [exact H|]. split; [lia|].
  change (2 ^ 0) with 1. ring.
Qed.

Lemma round64_proper (x y : Q) : x == y -> round64 x = round64 y.
Proof. intros H. unfold round64. rewrite (Qred_complete x y H). reflexivity. Qed.

#[global] Instance round64_Proper : Proper (Qeq ==> Qeq) round64.
Proof. intros x y H. rewrite (round64_proper x y H). reflexivity. Qed.

(** The three cases of [round64]. *)
Lemma round64_cases (x : Q) :
  (x == 0 /\ round64 x == 0) \/
  (exists n d, x == Zpos n # d /\ round64 x == round64_pos n d) \/
  (exists n d, x == - (Zpos n # d) /\ round64 x == - round64_pos n d).
Proof.
  unfold round64. pose proof (Qred_correct x) as Hx.
  destruct (Qred x) as [num den].
  destruct num as [|n|n]; cbn [Qnum Qden].
  - left. split; [rewrite <- Hx | rewrite Qred_correct]; reflexivity.
  - right. left. exists n, den.
    split; [rewrite <- Hx | rewrite Qred_correct]; reflexivity.
  - right. right. exists n, den.
    split; [rewrite <- Hx | rewrite Qred_correct]; reflexivity.
Qed.

(** [round64 x] is a binary64 number, and no binary64 number is nearer to
    [x]. *)
Lemma round64_b64 (x : Q) : is_b64 (round64 x).
Proof.
  destruct (round64_cases x) as [[_ H]|[(n & d & _ & H)|(n & d & _ & H)]]; rewrite H.
  - apply (is_b64_Z 0). lia.
  - apply round64_pos_b64.
  - apply is_b64_opp, round64_pos_b64.
Qed.

Lemma round64_nearest (x y : Q) :
  is_b64 y -> Qabs (round64 x - x) <= Qabs (y - x).
Proof.
  intros Hy.
  destruct (round64_cases x) as [[Hx H]|[(n & d & Hx & H)|(n & d & Hx & H)]];
    rewrite H, Hx.
  - setoid_replace (0 - 0) with 0 using relation Qeq by ring. apply Qabs_nonneg.
  - apply round64_pos_nearest, Hy.
  - pose proof (round64_pos_nearest n d (- y) (is_b64_opp y Hy)) as Hn.
    setoid_replace (- round64_pos n d - - (Zpos n # d))
      with (- (round64_pos n d - (Zpos n # d))) using relation Qeq by ring.
    setoid_replace (y - - (Zpos n # d)) with (- (- y - (Zpos n # d)))
      using relation Qeq by ring.
    rewrite !Qabs_opp. exact Hn.
Qed.

Lemma Qabs_zero (a : Q) : Qabs a <= 0 -> a == 0.
Proof.
  intros H. pose proof (Qabs_nonneg a).
  destruct (Qlt_le_dec a 0) as [Hn|Hp].
  - rewrite Qabs_neg in H by lra. lra.
  - rewrite Qabs_pos in H by lra. lra.
Qed.

(** A binary64 number is its own rounding. *)
Lemma round64_exact (y : Q) : is_b64 y -> round64 y == y.
Proof.
  intros Hy. pose proof (round64_nearest y y Hy) as H.
  setoid_replace (y - y) with 0 using relation Qeq in H by ring.
  apply Qabs_zero in H. lra.
Qed.

Lemma round64_Z (z : Z) : (Z.abs z <= 2 ^ 53)%Z -> round64 (inject_Z z) == inject_Z z.
Proof. intros H. apply round64_exact, is_b64_Z, H. Qed.

Lemma round64_idempotent (x : Q) : round64 (round64 x) == round64 x.
Proof. apply round64_exact, round64_b64. Qed.

(** No binary64 number lies strictly between a number and its rounding. *)
Lemma round64_lt_inv (c x : Q) : is_b64 c -> c < round64 x -> c < x.
Proof.
  intros Hc Hlt. apply Qnot_le_lt. intros Hle.
  pose proof (round64_nearest x c Hc) as H.
  rewrite (Qabs_pos (c - x)) in H by lra.
  rewrite (Qabs_pos (round64 x - x)) in H by lra. lra.
Qed.

Lemma round64_gt_inv (c x : Q) : is_b64 c -> round64 x < c -> x < c.
Proof.
  intros Hc Hlt. apply Qnot_le_lt. intros Hle.
  pose proof (round64_nearest x c Hc) as H.
  rewrite (Qabs_neg (c - x)) in H by lra.
  rewrite (Qabs_neg (round64 x - x)) in H by lra. lra.
Qed.

(** Rounding keeps the order. *)
Lemma round64_le (x y : Q) : x <= y -> round64 x <= round64 y.
Proof.
  intros Hxy. apply Qnot_lt_le. intros Hlt.
  pose proof (round64_lt_inv (round64 y) x (round64_b64 y) Hlt) as H1.
  pose proof (round64_gt_inv (round64 x) y (round64_b64 x) Hlt) as H2.
  pose proof (round64_nearest x (round64 y) (round64_b64 y)) as N1.
  pose proof (round64_nearest y (round64 x) (round64_b64 x)) as N2.
  rewrite (Qabs_neg (round64 y - x)) in N1 by lra.
  rewrite (Qabs_pos (round64 x - x)) in N1 by lra.
  rewrite (Qabs_pos (round64 x - y)) in N2 by lra.
  rewrite (Qabs_neg (round64 y - y)) in N2 by lra.
  assert (E : x == y) by lra.
  rewrite (round64_proper x y E) in Hlt. lra.
Qed.

Lemma round64_0 : round64 0 = 0.
Proof. reflexivity. Qed.

Lemma round64_nonneg (x : Q) : 0 <= x -> 0 <= round64 x.
Proof. intros H. rewrite <- round64_0. apply round64_le, H. Qed.

(** Reading a threshold as the decimal or as the float nearest to it makes
    no difference to a comparison with a binary64 number, when the float
    lies on the far side of the decimal. *)
Lemma gt_threshold (c t : Q) :
  is_b64 c -> round64 t <= t -> (round64 t < c <-> t < c).
Proof.
  intros Hc Ht. split; intros H.
  - apply (round64_gt_inv c t Hc H).
  - lra.
Qed.

Lemma lt_threshold (c t : Q) :
  is_b64 c -> t <= round64 t -> (c < round64 t <-> c < t).
Proof.
  intros Hc Ht. split; intros H.
  - apply (round64_lt_inv c t Hc H).
  - lra.
Qed.

(** [round64] against the arithmetic of the machine: the literals, a sum,
    a difference and a quotient of the kind the tracker computes.  The
    decimal literals stand for the nearest floats, as in Python. *)
#[local] Set Warnings "-inexact-float".
Example round64_as_the_machine :
  round64 0.1 = Q_of_float 0.1%float /\
  round64 79.6 = Q_of_float 79.6%float /\
  fadd (round64 0.1) (round64 0.2) = Q_of_float (0.1 + 0.2)%float /\
  fadd (round64 2032.4) (round64 67.60000000000001)
    = Q_of_float (2032.4 + 67.60000000000001)%float /\
  fsub (round64 79.4) (round64 79.6) = Q_of_float (79.4 - 79.6)%float /\
  round64 (4490 / 3) = Q_of_float (4490 / 3)%float /\
  round64 (-(2#10)) = Q_of_float (-0.2)%float.
Proof. vm_compute. repeat split. Qed.

(** ** Sums of floats *)

Lemma fsum_snoc (l : list Q) (x : Q) : fsum (l ++ [x]) = fadd (fsum l) x.
Proof. unfold fsum. rewrite foldl_app. reflexivity. Qed.

Lemma whole_nonneg (x : Q) : whole x -> 0 <= x.
Proof.
  intros (z & Hz & ->). change 0 with (inject_Z 0). rewrite <- Zle_Qle. exact Hz.
Qed.

Lemma qsum_whole (l : list Q) : Forall whole l -> whole (qsum l).
Proof.
  induction 1 as [|x l (z & Hz & Hx) _ (zs & Hzs & Hs)].
  - exists 0%Z. split; [lia | reflexivity].
  - exists (z + zs)%Z. split; [lia|].
    rewrite qsum_cons, Hx, Hs, inject_Z_plus. reflexivity.
Qed.

Lemma foldl_fadd_exact (l : list Q) (a : Q) :
  whole a -> Forall whole l -> a + qsum l < inject_Z (2 ^ 53) ->
  foldl fadd a l == a + qsum l.
Proof.
  intros Ha Hl. revert a Ha. induction Hl as [|x l Hx Hl IH]; intros a Ha Hb.
  - cbn. unfold qsum. cbn. ring.
  - cbn [foldl]. rewrite qsum_cons in Hb.
    pose proof (whole_nonneg _ (qsum_whole l Hl)) as Hs.
    destruct Ha as (za & Hza & Ea). destruct Hx as (zx & Hzx & Ex).
    assert (E : fadd a x == a + x).
    { unfold fadd. rewrite Ea, Ex, <- inject_Z_plus. apply round64_Z.
      assert (Hlt : inject_Z (za + zx) < inject_Z (2 ^ 53))
        by (rewrite inject_Z_plus, <- Ea, <- Ex; lra).
      rewrite <- Zlt_Qlt in Hlt. lia. }
    rewrite IH.
    + rewrite E, qsum_cons. ring.
    + exists (za + zx)%Z. split; [lia|].
      rewrite E, Ea, Ex, inject_Z_plus. reflexivity.
    + rewrite E. lra.
Qed.

(** A sum of floats that are whole numbers is exact as long as it stays
    below [2^53]. *)
Lemma fsum_exact (l : list Q) : exactly_summable l -> fsum l == qsum l.
Proof.
  intros [Hl Hb]. unfold fsum. rewrite foldl_fadd_exact.
  - ring.
  - exists 0%Z. split; [lia | reflexivity].
  - exact Hl.
  - lra.
Qed.

Lemma exactly_summable_Permutation (l l' : list Q) :
  l ≡ₚ l' -> exactly_summable l -> exactly_summable l'.
Proof.
  intros Hp [Hl Hb]. split.
  - rewrite <- Hp. exact Hl.
  - rewrite <- (qsum_Permutation _ _ Hp). exact Hb.
Qed.

(** ** Day totals *)

Lemma nutrient_value (key : FoodEntry -> option Q) (e : FoodEntry) :
  nutrient key e = value_of (key e).
Proof. unfold nutrient. destruct (key e); reflexivity. Qed.

Lemma micro_micro_value (σ : store) (k : string) (e : FoodEntry) :
  micro σ k e = micro_value σ k e.
Proof.
  unfold micro, micro_value, micros_of.
  destruct (micros e) as [r|]; [|reflexivity].
  destruct (σ !! r) as [m|]; [|reflexivity].
  cbn. destruct (m !! k); reflexivity.
Qed.

Lemma add_entries_foldl (f : FoodEntry -> Q) (total : Q) (entries : list FoodEntry) :
  add_entries f total entries = foldl fadd total (map f entries).
Proof.
  revert total. induction entries as [|e rest IH]; intros total; [reflexivity|].
  cbn [add_entries map foldl]. apply IH.
Qed.

(** Adding bucket after bucket is adding the flattened list of entries. *)
Lemma add_buckets_foldl (f : FoodEntry -> Q) (total : Q)
    (ms : list (string * list FoodEntry)) :
  add_buckets f total ms = foldl fadd total (map f (concat (map snd ms))).
Proof.
  revert total. induction ms as [|b ms IH]; intros total; [reflexivity|].
  cbn [add_buckets map concat]. rewrite map_app, foldl_app, IH, add_entries_foldl.
  reflexivity.
Qed.

Lemma fsum_sum_over_buckets (f g : FoodEntry -> Q) (log : DailyLog) :
  (forall e, f e = g e) ->
  fsum (map f (all_food log)) = sum_over_buckets g (meals log).
Proof.
  intros Hfg. unfold sum_over_buckets, fsum, all_food.
  rewrite add_buckets_foldl. f_equal. apply map_ext. exact Hfg.
Qed.

Lemma same_bucket_all_food (ms ms' : list (string * list FoodEntry)) :
  Forall2 same_bucket ms ms' -> concat (map snd ms) ≡ₚ concat (map snd ms').
Proof.
  induction 1 as [|b b' ms ms' [_ Hb] _ IH]; [reflexivity|].
  cbn [map concat]. rewrite Hb, IH. reflexivity.
Qed.

Lemma rearranged_all_food (log log' : DailyLog) :
  rearranged log log' -> all_food log ≡ₚ all_food log'.
Proof.
  intros [(ms & Hp & Hf) _]. unfold all_food.
  rewrite <- (same_bucket_all_food ms (meals log') Hf).
  rewrite Hp. reflexivity.
Qed.

Lemma rearranged_fsum (f g : FoodEntry -> Q) (log log' : DailyLog) :
  (forall e, f e = g e) ->
  rearranged log log' ->
  exactly_summable (map g (all_food log)) ->
  fsum (map f (all_food log)) == fsum (map f (all_food log')).
Proof.
  intros Hfg Hr Hs.
  rewrite (map_ext f g Hfg (all_food log)), (map_ext f g Hfg (all_food log')).
  pose proof (Permutation_map g (rearranged_all_food log log' Hr)) as Hp.
  rewrite (fsum_exact _ Hs).
  rewrite (fsum_exact _ (exactly_summable_Permutation _ _ Hp Hs)).
  apply qsum_Permutation, Hp.
Qed.


Lemma monday_rearranged : rearranged monday monday_shuffled.
Proof.
  split; [|reflexivity].
  exists [("Lunch"%string, [shake]); ("Breakfast"%string, [oats; milk]);
          ("Dinner"%string, []); ("Snacks"%string, [])].
  split.
  - apply perm_swap.
  - constructor; [split; reflexivity|].
    constructor; [split; [reflexivity | apply perm_swap]|].
    constructor; [split; reflexivity|].
    constructor; [split; reflexivity|].
    constructor.
Qed.

Lemma wholeb_whole (x : Q) : wholeb x = true -> whole x.
Proof.
  unfold wholeb. rewrite andb_true_iff, Pos.eqb_eq, Z.leb_le. intros [Hd Hn].
  exists (Qnum (Qred x)). split; [exact Hn|].
  rewrite <- (Qred_correct x) at 1.
  destruct (Qred x) as [num den]. cbn [Qnum Qden] in *. subst den. reflexivity.
Qed.

Lemma exactly_summableb_ok (l : list Q) :
  exactly_summableb l = true -> exactly_summable l.
Proof.
  unfold exactly_summableb. rewrite andb_true_iff, qltb_lt. intros [Hl Hb].
  split; [|exact Hb].
  apply Forall_forall. intros x Hx. apply wholeb_whole.
  rewrite forallb_forall in Hl. apply Hl, list_elem_of_In, Hx.
Qed.

Lemma monday_whole_valued : whole_valued pantry monday.
Proof.
  repeat split; apply exactly_summableb_ok; vm_compute; reflexivity.
Qed.


(** The totals of a concrete day. *)
Example day_totals_monday :
  B64.day_totals pantry monday
  = {| total_calories := 590; total_protein := 31; total_carbs := 81;
       total_fats := 17; total_water := 1500;
       total_sodium := 116; total_sugar := 13 |}.
Proof. vm_compute. reflexivity. Qed.

Lemma tenths_rearranged : rearranged tenths tenths_reversed.
Proof.
  split; [|reflexivity].
  exists (meals tenths). split; [reflexivity|].
  constructor; [split; [reflexivity|]|].
  - cbn. apply (Permutation_rev [tenth; fifth; three_tenths]).
  - constructor; [split; reflexivity|].
    constructor; [split; reflexivity|].
    constructor; [split; reflexivity|].
    constructor.
Qed.


(** The two sums of the counterexample, as Python prints them. *)
Example tenths_totals :
  total_calories (B64.day_totals pantry tenths) = round64 0.6000000000000001 /\
  total_calories (B64.day_totals pantry tenths_reversed) = round64 0.6 /\
  ~ round64 0.6000000000000001 == round64 0.6.
Proof.
  split; [vm_compute; reflexivity|]. split; [vm_compute; reflexivity|].
  intros H. vm_compute in H. discriminate H.
Qed.

(** ** The day's log on the dashboard *)

(** After [get_log_for_date] the log of the date is stored and holds the
    four meal buckets. *)
Lemma get_log_for_date_stored (data : Data) (date_iso : Z) :
  daily_logs (fst (get_log_for_date data date_iso)) !! date_iso
  = Some (snd (get_log_for_date data date_iso)).
Proof. unfold get_log_for_date. simpl. apply lookup_insert_eq. Qed.

Lemma setdefault_meal_keeps ms meal b : b ∈ ms -> b ∈ setdefault_meal ms meal.
Proof.
  intros Hb. unfold setdefault_meal.
  destruct (existsb _ ms); [exact Hb|]. apply elem_of_app. left. exact Hb.
Qed.

Lemma setdefault_meal_has ms meal :
  exists entries, (meal, entries) ∈ setdefault_meal ms meal.
Proof.
  unfold setdefault_meal.
  destruct (existsb (fun b => String.eqb (fst b) meal) ms) eqn:E.
  - apply existsb_exists in E as ([k entries] & Hin & Hk).
    apply String.eqb_eq in Hk. simpl in Hk. subst k.
    exists entries. apply list_elem_of_In. exact Hin.
  - exists []. apply elem_of_app. right. apply list_elem_of_singleton. reflexivity.
Qed.

Lemma get_log_for_date_buckets (data : Data) (date_iso : Z) (meal : string) :
  meal ∈ MEAL_TYPES ->
  exists entries, (meal, entries) ∈ meals (snd (get_log_for_date data date_iso)).
Proof.
  intros Hm. unfold get_log_for_date. cbn [snd meals].
  set (ms := meals _). clearbody ms. unfold MEAL_TYPES in *. simpl.
  repeat (apply elem_of_cons in Hm as [->|Hm]);
    [| | | | apply elem_of_nil in Hm; contradiction].
  - destruct (setdefault_meal_has ms "Breakfast") as [e He]. exists e.
    do 3 apply setdefault_meal_keeps. exact He.
  - destruct (setdefault_meal_has (setdefault_meal ms "Breakfast") "Lunch") as [e He].
    exists e. do 2 apply setdefault_meal_keeps. exact He.
  - destruct (setdefault_meal_has
                (setdefault_meal (setdefault_meal ms "Breakfast") "Lunch") "Dinner")
      as [e He].
    exists e. apply setdefault_meal_keeps. exact He.
  - apply setdefault_meal_has.
Qed.

(** ** Streaks *)

Lemma calorie_adherent_spec total goal :
  calorie_adherent total goal = true <-> within_tolerance total goal.
Proof.
  unfold calorie_adherent, within_tolerance.
  rewrite andb_true_iff, qltb_lt, qleb_le. reflexivity.
Qed.

Lemma update_streaks_today data today :
  last_checked_date (streaks data) = Some today ->
  update_streaks data today = data.
Proof.
  intros H. unfold update_streaks.
  destruct (decide (last_checked_date (streaks data) = Some today)); [reflexivity | contradiction].
Qed.

Lemma update_streaks_last_checked data today :
  last_checked_date (streaks (update_streaks data today)) = Some today.
Proof.
  unfold update_streaks.
  destruct (decide (last_checked_date (streaks data) = Some today)) as [H|H]; [exact H | reflexivity].
Qed.

(** Without a log for yesterday the second step is skipped: the counters
    are whatever the gap rule left. *)
Lemma update_streaks_no_log data today :
  last_checked_date (streaks data) <> Some today ->
  daily_logs data !! (today - 1)%Z = None ->
  calorie_goal (streaks (update_streaks data today))
    = after_gap (streaks data) today (calorie_goal (streaks data)) /\
  water_goal (streaks (update_streaks data today))
    = after_gap (streaks data) today (water_goal (streaks data)).
Proof.
  intros Hne Hlog. unfold update_streaks, after_gap.
  destruct (decide (last_checked_date (streaks data) = Some today)); [contradiction|].
  rewrite Hlog.
  destruct (decide (last_checked_date (streaks data) = Some (today - 1)%Z)) as [Hy|Hy].
  - destruct (decide (last_checked_date (streaks data) <> Some (today - 1)%Z)); [contradiction|].
    split; reflexivity.
  - destruct (decide (last_checked_date (streaks data) <> Some (today - 1)%Z)); [|contradiction].
    split; reflexivity.
Qed.

(** On a document whose last evaluated day has a log, a missing log for
    yesterday means a gap, and both counters are reset. *)
Lemma update_streaks_no_log_gap data today :
  evaluated_day_logged data ->
  last_checked_date (streaks data) <> Some today ->
  daily_logs data !! (today - 1)%Z = None ->
  calorie_goal (streaks (update_streaks data today)) = 0%Z /\
  water_goal (streaks (update_streaks data today)) = 0%Z.
Proof.
  intros Hinv Hne Hlog.
  destruct (update_streaks_no_log data today Hne Hlog) as [Hc Hw].
  rewrite Hc, Hw. unfold after_gap.
  destruct (decide (last_checked_date (streaks data) = Some (today - 1)%Z)) as [Hy|Hy].
  - apply Hinv in Hy. rewrite Hlog in Hy. destruct Hy as [x Hx]. discriminate.
  - split; reflexivity.
Qed.

(** Splits on whether the last evaluation was yesterday's, in both forms
    the code and the rule test it. *)
Ltac gap_cases data today :=
  destruct (decide (last_checked_date (streaks data) = Some (today - 1)%Z));
  destruct (decide (last_checked_date (streaks data) <> Some (today - 1)%Z));
  try contradiction.


(** C5. An evaluation whose state already carries today's date changes
    nothing, and evaluating twice on the same day is evaluating once. *)
Theorem update_streaks_idempotent (data : Data) (today : Z) :
  (last_checked_date (streaks data) = Some today -> update_streaks data today = data) /\
  update_streaks (update_streaks data today) today = update_streaks data today.
Proof.
  split.
  - apply update_streaks_today.
  - apply update_streaks_today, update_streaks_last_checked.
Qed.


(** Goal 2000 and 1950 kcal yesterday: the streak of 4 becomes 5. *)
Example streak_increments_at_1950 :
  streaks (update_streaks on_track 100)
  = {| calorie_goal := 5; water_goal := 1; last_checked_date := Some 100%Z |}.
Proof. vm_compute. reflexivity. Qed.

(** Goal 2000 and 500 kcal yesterday: the streak is reset. *)
Example streak_resets_at_500 :
  streaks (update_streaks off_track 100)
  = {| calorie_goal := 0; water_goal := 0; last_checked_date := Some 100%Z |}.
Proof. vm_compute. reflexivity. Qed.

(** The test is taken on the rounded sum.  964.2 + 1117.4 + 18.4 is
    2100.0000000000005 in binary64, more than 100 above the goal of 2000:
    the streak of 4 is reset.  2032.4 + 67.60000000000001 is 2100.0: the
    streak becomes 5. *)
Example streak_on_the_rounded_sum :
  total_calories (B64.day_totals pantry (day_with [964.2; 1117.4; 18.4] 2600))
    = round64 2100.0000000000005 /\
  calorie_goal (streaks (update_streaks (tracked [964.2; 1117.4; 18.4]) 100)) = 0%Z /\
  total_calories (B64.day_totals pantry (day_with [2032.4; 67.60000000000001] 2600))
    = 2100 /\
  calorie_goal (streaks (update_streaks (tracked [2032.4; 67.60000000000001]) 100))
    = 5%Z.
Proof. vm_compute. repeat split. Qed.

(** C4. On a document whose last evaluated day has a log, as every
    document is that the tracker itself has saved, an evaluation that finds
    no log for yesterday sets both counters to 0: a missing log means that
    the last evaluation was not yesterday's, and the gap rule resets. *)
Theorem streaks_reset_without_log (data : Data) (today : Z) :
  evaluated_day_logged data ->
  last_checked_date (streaks data) <> Some today ->
  daily_logs data !! (today - 1)%Z = None ->
  calorie_goal (streaks (update_streaks data today)) = 0%Z /\
  water_goal (streaks (update_streaks data today)) = 0%Z.
Proof.
  intros Hinv Hne Hlog.
  assert (Hgap : last_checked_date (streaks data) <> Some (today - 1)%Z).
  { intros Hy. apply Hinv in Hy. rewrite Hlog in Hy.
    destruct Hy as [x Hx]. discriminate. }
  unfold update_streaks.
  destruct (decide (last_checked_date (streaks data) = Some today)); [contradiction|].
  rewrite Hlog.
  destruct (decide (last_checked_date (streaks data) <> Some (today - 1)%Z));
    [|contradiction].
  split; reflexivity.
Qed.

Lemma streaks_reset_without_log_witness :
  evaluated_day_logged skipped_day /\
  last_checked_date (streaks skipped_day) <> Some 100%Z /\
  daily_logs skipped_day !! (100 - 1)%Z = None /\
  calorie_goal (streaks (update_streaks skipped_day 100)) = 0%Z /\
  water_goal (streaks (update_streaks skipped_day 100)) = 0%Z.
Proof.
  assert (H1 : evaluated_day_logged skipped_day).
  { intros d [= <-]. eexists. reflexivity. }
  assert (H2 : last_checked_date (streaks skipped_day) <> Some 100%Z) by discriminate.
  assert (H3 : daily_logs skipped_day !! (100 - 1)%Z = None) by reflexivity.
  split; [exact H1|]. split; [exact H2|]. split; [exact H3|].
  apply (streaks_reset_without_log skipped_day 100 H1 H2 H3).
Defined.

(** The hypothesis on the document is needed: with counters of 3 and 2
    evaluated on day 99 and no log for day 99, which no session leaves
    behind, the evaluation of day 100 keeps both counters. *)
Example stale_streak_kept :
  ~ evaluated_day_logged stale_streak /\
  streaks (update_streaks stale_streak 100)
  = {| calorie_goal := 3; water_goal := 2; last_checked_date := Some 100%Z |}.
Proof.
  split; [|vm_compute; reflexivity].
  intros H. destruct (H 99%Z eq_refl) as [x Hx]. discriminate.
Qed.

Lemma update_streaks_idempotent_witness :
  last_checked_date (streaks (update_streaks on_track 100)) = Some 100%Z /\
  update_streaks (update_streaks on_track 100) 100 = update_streaks on_track 100.
Proof.
  assert (H : last_checked_date (streaks (update_streaks on_track 100)) = Some 100%Z)
    by reflexivity.
  split; [exact H|].
  exact (proj1 (update_streaks_idempotent (update_streaks on_track 100) 100) H).
Defined.

(** ** Division *)

Lemma py_div_ok a b : ~ b == 0 -> py_div a b = Ok (a / b).
Proof.
  intros Hb. unfold py_div.
  destruct (Qeq_bool b 0) eqn:E; [|reflexivity].
  apply Qeq_bool_iff in E. contradiction.
Qed.

Lemma py_div_zero a b : b == 0 -> py_div a b = Raise ZeroDivisionError.
Proof.
  intros Hb. unfold py_div.
  apply Qeq_bool_iff in Hb. rewrite Hb. reflexivity.
Qed.

Lemma hours_to_seconds_nonzero (d : Z) : d <> 0%Z -> ~ inject_Z (d * 3600) == 0.
Proof.
  intros Hd H. unfold Qeq in H. simpl in H. lia.
Qed.

(** ** The fasting panel *)

#[global] Instance qltb_proper : Proper (Qeq ==> Qeq ==> eq) qltb.
Proof.
  intros a a' Ha b b' Hb.
  destruct (qltb a b) eqn:E1, (qltb a' b') eqn:E2; try reflexivity.
  - apply qltb_lt in E1. apply qltb_ge in E2. rewrite Ha, Hb in E1. lra.
  - apply qltb_ge in E1. apply qltb_lt in E2. rewrite Ha, Hb in E1. lra.
Qed.

#[global] Instance py_int_proper : Proper (Qeq ==> eq) py_int.
Proof.
  intros x y H. unfold py_int.
  rewrite (qltb_proper x y H 0 0 (Qeq_refl 0)).
  rewrite (Qceiling_comp x y H), (Qfloor_comp x y H). reflexivity.
Qed.

Lemma py_int_Z (z : Z) : py_int (inject_Z z) = z.
Proof.
  unfold py_int. destruct (qltb (inject_Z z) 0).
  - apply Qceiling_Z.
  - apply Qfloor_Z.
Qed.

Lemma fasting_panel_active (f : Fasting) (T now : Q) :
  active f = true -> start_time f = Some T -> duration_hours f <> 0%Z ->
  fasting_panel f now =
    let duration_sec := inject_Z (duration_hours f * 3600) in
    let elapsed := now - T in
    let remaining := Qmax 0 (duration_sec - elapsed) in
    Ok (Some {| elapsed_sec := elapsed;
                remaining_sec := remaining;
                progress := Qmin (elapsed / duration_sec) 1;
                shown_elapsed :=
                  (py_int (fst (py_divmod elapsed 3600)),
                   py_int (snd (py_divmod elapsed 3600) / 60));
                shown_remaining :=
                  (py_int (fst (py_divmod remaining 3600)),
                   py_int (snd (py_divmod remaining 3600) / 60)) |}).
Proof.
  intros Ha Hs Hd. unfold fasting_panel. rewrite Ha, Hs.
  rewrite (py_div_ok _ _ (hours_to_seconds_nonzero _ Hd)). reflexivity.
Qed.

Lemma shown_hours_minutes (x : Q) (h : Z) :
  x == inject_Z h * 3600 ->
  py_int (fst (py_divmod x 3600)) = h /\ py_int (snd (py_divmod x 3600) / 60) = 0%Z.
Proof.
  intros Hx. unfold py_divmod. cbn [fst snd].
  assert (Hq : Qfloor (x / 3600) = h).
  { rewrite <- (Qfloor_Z h). apply Qfloor_comp. rewrite Hx. field. }
  rewrite Hq. split.
  - apply py_int_Z.
  - rewrite <- (py_int_Z 0). apply py_int_proper. rewrite Hx. field.
Qed.

(** C6. While a fast is active, with start time [T] and a duration of [d]
    hours ([d] not zero), the panel at time [now] shows
    [elapsed = now - T], [remaining = max(0, d*3600 - elapsed)] and
    [progress = min(elapsed / (d*3600), 1)]; for [d = 16] and
    [now = T + 10h] these are 10h, 6h and 0.625, displayed as "10h 0m" and
    "6h 0m". *)
Theorem fasting_view_formula (f : Fasting) (T now : Q) :
  active f = true -> start_time f = Some T -> duration_hours f <> 0%Z ->
  exists v,
    fasting_panel f now = Ok (Some v) /\
    elapsed_sec v = now - T /\
    remaining_sec v == Qmax 0 (inject_Z (duration_hours f) * 3600 - elapsed_sec v) /\
    progress v == Qmin (elapsed_sec v / (inject_Z (duration_hours f) * 3600)) 1 /\
    (duration_hours f = 16%Z -> now == T + 10 * 3600 ->
       elapsed_sec v == 10 * 3600 /\
       remaining_sec v == 6 * 3600 /\
       progress v == 625 # 1000 /\
       shown_elapsed v = (10%Z, 0%Z) /\
       shown_remaining v = (6%Z, 0%Z)).
Proof.
  intros Ha Hs Hd. eexists. split; [apply (fasting_panel_active f T now Ha Hs Hd)|].
  cbv zeta. cbn [elapsed_sec remaining_sec progress shown_elapsed shown_remaining].
  assert (Hsec : inject_Z (duration_hours f * 3600) == inject_Z (duration_hours f) * 3600).
  { rewrite inject_Z_mult. reflexivity. }
  split; [reflexivity|].
  split; [rewrite Hsec; reflexivity|].
  split; [rewrite Hsec; reflexivity|].
  intros H16 Hnow.
  assert (He : now - T == 10 * 3600) by (rewrite Hnow; ring).
  assert (Hr : Qmax 0 (inject_Z (duration_hours f * 3600) - (now - T)) == 6 * 3600).
  { rewrite H16, He. reflexivity. }
  split; [exact He|]. split; [exact Hr|].
  split.
  { rewrite H16, He. reflexivity. }
  destruct (shown_hours_minutes (now - T) 10) as [E1 E2]; [rewrite He; reflexivity|].
  destruct (shown_hours_minutes (Qmax 0 (inject_Z (duration_hours f * 3600) - (now - T))) 6)
    as [R1 R2]; [rewrite Hr; reflexivity|].
  rewrite E1, E2, R1, R2. split; reflexivity.
Qed.

Lemma fasting_view_formula_witness :
  active (start_fast 1700000000 16) = true /\
  start_time (start_fast 1700000000 16) = Some 1700000000 /\
  duration_hours (start_fast 1700000000 16) <> 0%Z /\
  exists v,
    fasting_panel (start_fast 1700000000 16) (1700000000 + 36000) = Ok (Some v) /\
    elapsed_sec v == 36000 /\
    remaining_sec v == 21600 /\
    progress v == 625 # 1000 /\
    shown_elapsed v = (10%Z, 0%Z) /\
    shown_remaining v = (6%Z, 0%Z).
Proof.
  assert (H3 : duration_hours (start_fast 1700000000 16) <> 0%Z) by discriminate.
  split; [reflexivity|]. split; [reflexivity|]. split; [exact H3|].
  destruct (fasting_view_formula (start_fast 1700000000 16) 1700000000
              (1700000000 + 36000) eq_refl eq_refl H3)
    as (v & Hv & _ & _ & _ & Hex).
  exists v. split; [exact Hv|].
  apply Hex; reflexivity.
Defined.

(** ** Goal progress *)

(** The goal bars are guarded: a goal that is not positive shows 0. *)
Lemma goal_progress_no_fault (current goal : Q) :
  exists p, goal_progress current goal = Ok p /\ (goal <= 0 -> p = 0).
Proof.
  unfold goal_progress. destruct (qltb 0 goal) eqn:E.
  - apply qltb_lt in E. rewrite py_div_ok by lra. simpl.
    eexists. split; [reflexivity|]. intros H. lra.
  - exists 0. split; [reflexivity|]. reflexivity.
Qed.

Lemma progress_bars_no_fault (ms : list (Q * Q)) :
  exists ps, progress_bars ms = Ok ps /\ length ps = length ms.
Proof.
  induction ms as [|[c g] ms (ps & IH & Hl)]; simpl.
  - exists []. split; reflexivity.
  - destruct (goal_progress_no_fault c g) as (p & Hp & _).
    rewrite Hp. simpl. rewrite IH. simpl.
    exists (p :: ps). split; [reflexivity|]. simpl. rewrite Hl. reflexivity.
Qed.

(** ** Scaling *)

Lemma truthy_nonzero v : truthy v = true <-> ~ v == 0.
Proof.
  unfold truthy. rewrite negb_true_iff, <- not_true_iff_false, Qeq_bool_iff.
  reflexivity.
Qed.

Lemma get_or_nonzero x y : ~ y == 0 -> ~ get_or x y == 0.
Proof.
  intros Hy. unfold get_or. destruct x as [v|]; [|exact Hy].
  destruct (truthy v) eqn:E; [apply truthy_nonzero, E | exact Hy].
Qed.

(** The base amount is never zero: a zero serving size or a zero [grams]
    falls through the [or] chain to [100.0]. *)
Lemma base_grams_nonzero (e : FoodEntry) :
  ~ get_or (serving_size_g e) (get_or (grams e) 100) == 0.
Proof. apply get_or_nonzero, get_or_nonzero. discriminate. Qed.

Lemma scaled_eq s v : scaled s v == v * s.
Proof.
  unfold scaled. destruct (truthy v) eqn:E; [reflexivity|].
  unfold truthy in E. rewrite negb_false_iff, Qeq_bool_iff in E.
  rewrite E. reflexivity.
Qed.

Lemma scale_food_entry_result (σ : store) (e : FoodEntry) (g : Q) :
  let scale := g / get_or (serving_size_g e) (get_or (grams e) 100) in
  scale_food_entry σ e g =
    Ok (match micros e with
        | Some r => match σ !! r with
                    | Some m => <[r := scaled scale <$> m]> σ
                    | None => σ
                    end
        | None => σ
        end,
        Some {| name := name e;
                serving_size_g := serving_size_g e;
                grams := Some g;
                calories := scaled scale <$> calories e;
                protein_g := scaled scale <$> protein_g e;
                carbs_g := scaled scale <$> carbs_g e;
                fats_g := scaled scale <$> fats_g e;
                micros := micros e |}).
Proof.
  cbv zeta. unfold scale_food_entry.
  pose proof (base_grams_nonzero e) as Hb.
  destruct (Qeq_bool (get_or (serving_size_g e) (get_or (grams e) 100)) 0) eqn:E.
  - apply Qeq_bool_iff in E. contradiction.
  - rewrite (py_div_ok _ _ Hb). reflexivity.
Qed.

(** Scaling never faults and always returns an entry. *)
Lemma scale_food_entry_no_fault (σ : store) (e : FoodEntry) (g : Q) :
  exists σ' e', scale_food_entry σ e g = Ok (σ', Some e').
Proof. rewrite scale_food_entry_result. eauto. Qed.

(** The [micros] of the source after the call: the very dictionary the
    scaled entry holds, every value multiplied. *)
Lemma scale_food_entry_micros (σ σ' : store) (e e' : FoodEntry) (g : Q) (k : string) :
  scale_food_entry σ e g = Ok (σ', Some e') ->
  micros e' = micros e /\
  micro σ' k e == micro σ k e * (g / get_or (serving_size_g e) (get_or (grams e) 100)).
Proof.
  rewrite scale_food_entry_result. cbv zeta. intros H.
  injection H as Hσ He. subst σ' e'. split; [reflexivity|].
  unfold micro, micros_of.
  destruct (micros e) as [r|].
  - destruct (σ !! r) as [m|] eqn:Hr.
    + rewrite lookup_insert_eq. simpl. rewrite lookup_fmap.
      destruct (m !! k) as [v|]; simpl.
      * apply scaled_eq.
      * rewrite Qmult_0_l. reflexivity.
    + rewrite Hr. simpl. rewrite lookup_empty. simpl.
      rewrite Qmult_0_l. reflexivity.
  - rewrite lookup_empty. simpl. rewrite Qmult_0_l. reflexivity.
Qed.

Lemma opt_eq_scaled_back (s s' : Q) (x : option Q) :
  s * s' == 1 -> opt_eq (scaled s' <$> (scaled s <$> x)) x.
Proof.
  intros Hs. destruct x as [v|]; simpl; [|exact I].
  rewrite !scaled_eq. rewrite <- Qmult_assoc, Hs. ring.
Qed.

(** The round trip, in exact arithmetic, for an entry that carries its
    amount under [grams] only. *)
Lemma scale_round_trip (σ : store) (e : FoodEntry) (g1 g2 : Q) :
  serving_size_g e = None -> grams e = Some g1 -> 0 < g1 -> 0 < g2 ->
  exists σ1 e1 σ2 e2,
    scale_food_entry σ e g2 = Ok (σ1, Some e1) /\
    scale_food_entry σ1 e1 g1 = Ok (σ2, Some e2) /\
    same_nutrients e2 e /\
    forall k, micro σ2 k e2 == micro σ k e.
Proof.
  intros Hs Hg H1 H2.
  destruct (scale_food_entry_no_fault σ e g2) as (σ1 & e1 & E1).
  destruct (scale_food_entry_no_fault σ1 e1 g1) as (σ2 & e2 & E2).
  exists σ1, e1, σ2, e2. split; [exact E1|]. split; [exact E2|].
  assert (Hb1 : get_or (serving_size_g e) (get_or (grams e) 100) = g1).
  { rewrite Hs, Hg. simpl.
    destruct (truthy g1) eqn:E; [reflexivity|].
    unfold truthy in E. rewrite negb_false_iff, Qeq_bool_iff in E. lra. }
  assert (Hb2 : get_or (serving_size_g e1) (get_or (grams e1) 100) = g2).
  { rewrite scale_food_entry_result in E1. injection E1 as _ <-. rewrite Hs. simpl.
    destruct (truthy g2) eqn:E; [reflexivity|].
    unfold truthy in E. rewrite negb_false_iff, Qeq_bool_iff in E. lra. }
  assert (Hinv : (g2 / g1) * (g1 / g2) == 1) by (field; split; lra).
  split.
  - pose proof E1 as E1'. pose proof E2 as E2'.
    rewrite scale_food_entry_result in E1'. rewrite scale_food_entry_result in E2'.
    cbv zeta in E1', E2'. rewrite Hb1 in E1'. rewrite Hb2 in E2'.
    injection E2' as _ <-. injection E1' as _ <-. cbn.
    repeat split; try (apply opt_eq_scaled_back, Hinv).
    rewrite Hg. simpl. reflexivity.
  - intros k.
    destruct (scale_food_entry_micros _ _ _ _ _ k E1) as [M1 V1].
    destruct (scale_food_entry_micros _ _ _ _ _ k E2) as [M2 V2].
    rewrite Hb1 in V1. rewrite Hb2 in V2.
    assert (Hsame : forall τ, micro τ k e2 = micro τ k e).
    { intros τ. unfold micro, micros_of. rewrite M2, M1. reflexivity. }
    assert (Hsame1 : forall τ, micro τ k e1 = micro τ k e).
    { intros τ. unfold micro, micros_of. rewrite M1. reflexivity. }
    rewrite Hsame, <- Hsame1, V2, Hsame1, V1.
    rewrite <- Qmult_assoc, Hinv. ring.
Qed.

(** C8. The custom food [shake] (serving size 100 g, 50 kcal) is logged at
    200 g, which gives an entry of 200 g and 100 kcal that keeps the
    serving size.  Scaling this entry from 200 g to 300 g and back to 200 g
    does not give its 100 kcal back: both calls take the kept serving size
    as their base, so the calories go 100, 300, 600. *)
Theorem scale_round_trip_stale_serving_size :
  exists σ1 logged σ2 e2 σ3 e3,
    scale_food_entry pantry shake 200 = Ok (σ1, Some logged) /\
    serving_size_g logged = Some 100 /\
    grams logged = Some 200 /\
    nutrient calories logged == 100 /\
    scale_food_entry σ1 logged 300 = Ok (σ2, Some e2) /\
    nutrient calories e2 == 300 /\
    scale_food_entry σ2 e2 200 = Ok (σ3, Some e3) /\
    grams e3 = Some 200 /\
    nutrient calories e3 == 600 /\
    ~ same_nutrients e3 logged.
Proof.
  do 6 eexists.
  split; [reflexivity|]. split; [reflexivity|]. split; [reflexivity|].
  split; [reflexivity|]. split; [reflexivity|]. split; [reflexivity|].
  split; [reflexivity|]. split; [reflexivity|]. split; [reflexivity|].
  intros (_ & _ & Hc & _). vm_compute in Hc. discriminate.
Qed.

(** C9. Scaling [oats] from 100 g to 200 g returns a new entry whose
    [micros] is the source's own dictionary: after the call the source
    entry reads 12 mg of sodium and 2 g of sugar where it read 6 and 1. *)
Theorem scale_rewrites_source_micros :
  exists σ' e',
    scale_food_entry pantry oats 200 = Ok (σ', Some e') /\
    micros e' = micros oats /\
    micro pantry "sodium_mg" oats == 6 /\
    micro σ' "sodium_mg" oats == 12 /\
    micro pantry "sugar_g" oats == 1 /\
    micro σ' "sugar_g" oats == 2.
Proof.
  do 2 eexists. split; [reflexivity|].
  repeat split; vm_compute; reflexivity.
Qed.

(** C10. A fast stored with a duration of 0 hours makes the fasting panel
    divide by zero: the dashboard raises [ZeroDivisionError]. *)
Theorem fasting_zero_duration_raises (T now : Q) :
  fasting_panel (start_fast T 0) now = Raise ZeroDivisionError.
Proof. reflexivity. Qed.

(** ** The reporting window *)

Lemma num_days_pos period : (0 < num_days_of period)%Z.
Proof. destruct period; reflexivity. Qed.

Lemma window_dates_length start n : length (window_dates start n) = Z.to_nat n.
Proof. apply length_seqZ. Qed.

Lemma relevant_lookup {A : Type} (s e : Z) (m : gmap Z A) (d : Z) :
  in_window s e d -> relevant s e m !! d = m !! d.
Proof.
  intros Hw. unfold relevant. rewrite map_lookup_filter.
  destruct (m !! d) as [x|]; simpl; [|reflexivity].
  rewrite option_guard_True by exact Hw. reflexivity.
Qed.

Lemma relevant_lookup_Some {A : Type} (s e : Z) (m : gmap Z A) (d : Z) (x : A) :
  relevant s e m !! d = Some x <-> m !! d = Some x /\ in_window s e d.
Proof. unfold relevant. rewrite map_lookup_filter_Some. reflexivity. Qed.

Lemma daily_length {A : Type} (logs : gmap Z A) (f : A -> Q) ds :
  length (daily logs f ds) = length ds.
Proof. unfold daily. apply length_fmap. Qed.

Lemma daily_lookup {A : Type} (m : gmap Z A) (f : A -> Q) ds i d :
  ds !! i = Some d ->
  daily m f ds !! i = Some (match m !! d with Some x => f x | None => 0 end).
Proof. intros H. unfold daily. rewrite list_lookup_fmap, H. reflexivity. Qed.

Lemma mean_ok (l : list Q) :
  l <> [] -> mean l = Ok (qsum l / inject_Z (Z.of_nat (length l))).
Proof. destruct l; [contradiction | reflexivity]. Qed.

Lemma filter_complement_length {A : Type} (P Q' : A -> Prop)
    `{!forall x, Decision (P x)} `{!forall x, Decision (Q' x)} (l : list A) :
  (forall x, Q' x <-> ~ P x) ->
  (length (filter Q' l) = length l - length (filter P l))%nat.
Proof.
  intros HPQ. induction l as [|x l IH]; [reflexivity|].
  pose proof (length_filter P l) as Hle.
  rewrite !filter_cons.
  destruct (decide (P x)) as [Hp|Hp]; destruct (decide (Q' x)) as [Hq|Hq]; simpl.
  - apply HPQ in Hq. contradiction.
  - exact IH.
  - rewrite IH. lia.
  - exfalso. apply Hq, HPQ, Hp.
Qed.

(** A window of [n] days starting on [s], over a dictionary [m] keyed by
    date. *)
Section Window.
Context {A : Type} (s n : Z) (m : gmap Z A).

Lemma window_dates_elem d :
  d ∈ window_dates s n <-> (s <= d <= s + n - 1)%Z.
Proof. unfold window_dates. rewrite elem_of_seqZ. lia. Qed.

(** Inside the window the filtered dictionary answers as the whole
    one. *)
Lemma daily_relevant (f : A -> Q) :
  daily (relevant s (s + n - 1) m) f (window_dates s n)
  = daily m f (window_dates s n).
Proof.
  unfold daily. apply list_fmap_ext.
  intros i d Hd. rewrite relevant_lookup; [reflexivity|].
  apply list_elem_of_lookup_2 in Hd. apply window_dates_elem in Hd.
  exact Hd.
Qed.

(** The logged days of the window are counted once each. *)
Lemma relevant_size :
  size (relevant s (s + n - 1) m)
  = length (filter (fun d => is_Some (m !! d)) (window_dates s n)).
Proof.
  rewrite <- (size_dom (D := gset Z)).
  rewrite <- (size_list_to_set (C := gset Z)).
  - f_equal. apply set_eq. intros d.
    rewrite elem_of_dom, elem_of_list_to_set, list_elem_of_filter.
    rewrite window_dates_elem.
    split.
    + intros [x Hx]. apply relevant_lookup_Some in Hx as [Hx Hw].
      split; [eauto | exact Hw].
    + intros [[x Hx] Hw]. exists x. apply relevant_lookup_Some. split; assumption.
  - apply NoDup_filter, NoDup_seqZ.
Qed.

Lemma unlogged_count :
  length (filter (fun d => m !! d = None) (window_dates s n))
  = (Z.to_nat n - size (relevant s (s + n - 1) m))%nat.
Proof.
  rewrite relevant_size.
  rewrite <- (window_dates_length s n).
  apply filter_complement_length.
  intros d. rewrite <- eq_None_not_Some. reflexivity.
Qed.
End Window.

(** ** Weights in chronological order *)

#[global] Instance by_date_refl : Reflexive by_date.
Proof. intros a. unfold by_date. lia. Qed.

#[global] Instance by_date_trans : Transitive by_date.
Proof. intros a b c. unfold by_date. lia. Qed.

#[global] Instance by_date_total : Total by_date.
Proof. intros a b. unfold by_date. lia. Qed.

Lemma StronglySorted_head_least {A : Type} (R : relation A) `{!Reflexive R}
    (l : list A) (x : A) :
  StronglySorted R l -> head l = Some x -> forall y, y ∈ l -> R x y.
Proof.
  intros Hs Hh y Hy. destruct l as [|a l]; [discriminate|].
  injection Hh as ->. apply StronglySorted_inv in Hs as [_ Hall].
  apply elem_of_cons in Hy as [->|Hy]; [reflexivity|].
  rewrite Forall_forall in Hall. apply Hall, Hy.
Qed.

Lemma StronglySorted_last_greatest {A : Type} (R : relation A) `{!Reflexive R}
    (l : list A) (x : A) :
  StronglySorted R l -> last l = Some x -> forall y, y ∈ l -> R y x.
Proof.
  induction l as [|a l IH]; intros Hs Hl y Hy; [discriminate|].
  apply StronglySorted_inv in Hs as [Hs Hall].
  destruct l as [|b l].
  - injection Hl as ->. apply list_elem_of_singleton in Hy as ->. reflexivity.
  - change (last (a :: b :: l)) with (last (b :: l)) in Hl.
    apply elem_of_cons in Hy as [->|Hy].
    + rewrite Forall_forall in Hall. apply Hall.
      apply last_Some_elem_of, Hl.
    + apply (IH Hs Hl y Hy).
Qed.

Lemma sorted_items_elem (m : gmap Z Q) (d : Z) (w : Q) :
  (d, w) ∈ sorted_items m <-> m !! d = Some w.
Proof.
  unfold sorted_items. rewrite merge_sort_Permutation.
  apply elem_of_map_to_list.
Qed.

Lemma sorted_items_length (m : gmap Z Q) : length (sorted_items m) = size m.
Proof.
  unfold sorted_items. rewrite merge_sort_Permutation.
  apply length_map_to_list.
Qed.

(** The first and the last item of the sorted list carry the earliest and
    the latest date of the dictionary. *)
Lemma sorted_items_ends (m : gmap Z Q) :
  (1 <= size m)%nat ->
  exists d1 w1 d2 w2,
    head (sorted_items m) = Some (d1, w1) /\
    last (sorted_items m) = Some (d2, w2) /\
    m !! d1 = Some w1 /\ m !! d2 = Some w2 /\
    forall d, is_Some (m !! d) -> (d1 <= d <= d2)%Z.
Proof.
  intros Hsize.
  assert (Hne : sorted_items m <> []).
  { intros E. pose proof (sorted_items_length m) as Hl. rewrite E in Hl.
    simpl in Hl. lia. }
  destruct (proj2 (head_is_Some _) Hne) as [[d1 w1] Hh].
  destruct (proj2 (last_is_Some _) Hne) as [[d2 w2] Hl].
  pose proof (StronglySorted_merge_sort by_date (map_to_list m)) as Hs.
  fold (sorted_items m) in Hs.
  exists d1, w1, d2, w2.
  split; [exact Hh|]. split; [exact Hl|].
  split; [apply sorted_items_elem, head_Some_elem_of, Hh|].
  split; [apply sorted_items_elem, last_Some_elem_of, Hl|].
  intros d [w Hw]. apply sorted_items_elem in Hw.
  pose proof (StronglySorted_head_least by_date _ _ Hs Hh _ Hw) as H1.
  pose proof (StronglySorted_last_greatest by_date _ _ Hs Hl _ Hw) as H2.
  unfold by_date in H1, H2. simpl in H1, H2. lia.
Qed.

(** ** The trend block *)

Lemma mean_eaten_ok (cals : list Q) :
  match List.filter (qltb 0) cals with
  | [] => Ok 0
  | _ :: _ => mean (List.filter (qltb 0) cals)
  end = Ok (mean_eaten cals).
Proof.
  unfold mean_eaten. destruct (List.filter (qltb 0) cals) eqn:E; reflexivity.
Qed.

Lemma trend_advice_weekly (data : Data) (s e : Z) (cals : list Q) :
  (2 <= size (relevant s e (weight_logs data)))%nat ->
  exists change,
    chronological_change (relevant s e (weight_logs data)) change /\
    trend_advice data weekly s e cals
    = Ok (advise (goal_weight_kg (profile data)) (weight_kg (profile data))
                 change (mean_eaten cals)).
Proof.
  intros Hsize.
  destruct (sorted_items_ends (relevant s e (weight_logs data)))
    as (d1 & w1 & d2 & w2 & Hh & Hl & H1 & H2 & Hb); [lia|].
  exists (w2 - w1). split.
  - exists d1, w1, d2, w2. repeat split; try assumption; apply Hb; assumption.
  - unfold trend_advice.
    destruct (decide (2 <= size (relevant s e (weight_logs data)))%nat); [|contradiction].
    rewrite Hl, Hh. simpl snd.
    rewrite mean_eaten_ok. reflexivity.
Qed.

Lemma trend_advice_skipped (data : Data) (period : Period) (s e : Z) (cals : list Q) :
  period = monthly \/ ~ (2 <= size (relevant s e (weight_logs data)))%nat ->
  trend_advice data period s e cals = Ok None.
Proof.
  intros [->|Hs]; [reflexivity|].
  unfold trend_advice. destruct period; [|reflexivity].
  destruct (decide (2 <= size (relevant s e (weight_logs data)))%nat); [contradiction|].
  reflexivity.
Qed.

Lemma trend_advice_no_fault (data : Data) (period : Period) (s e : Z) (cals : list Q) :
  exists adv, trend_advice data period s e cals = Ok adv.
Proof.
  destruct period.
  - destruct (decide (2 <= size (relevant s e (weight_logs data)))%nat) as [H|H].
    + destruct (trend_advice_weekly data s e cals H) as (c & _ & E). eauto.
    + exists None. apply trend_advice_skipped. right. exact H.
  - exists None. reflexivity.
Qed.

(** ** The summary report *)

Lemma view_summary_reports_no_data (data : Data) (period : Period) (today : Z) :
  relevant (today - (num_days_of period - 1)) today (daily_logs data) = ∅ ->
  view_summary_reports data period today = Ok None.
Proof.
  intros He. unfold view_summary_reports. rewrite He.
  destruct (decide (∅ = ∅)) as [_|Hn]; [reflexivity | contradiction].
Qed.

Lemma view_summary_reports_ok (data : Data) (period : Period) (today : Z) :
  let n := num_days_of period in
  let start_date := (today - (n - 1))%Z in
  let ds := window_dates start_date n in
  let cals := daily (daily_logs data) (log_sum calories) ds in
  let prot := daily (daily_logs data) (log_sum protein_g) ds in
  let carbs := daily (daily_logs data) (log_sum carbs_g) ds in
  let fats := daily (daily_logs data) (log_sum fats_g) ds in
  let water := daily (daily_logs data) (fun log => default 0 (water_ml log)) ds in
  relevant start_date today (daily_logs data) <> ∅ ->
  exists adv,
    trend_advice data period start_date today cals = Ok adv /\
    view_summary_reports data period today =
      Ok (Some {| dates := ds;
                  daily_cals := cals; daily_prot := prot; daily_carbs := carbs;
                  daily_fats := fats; daily_water := water;
                  logged_days := size (relevant start_date today (daily_logs data));
                  avg_cals := qsum cals / inject_Z n;
                  avg_prot := qsum prot / inject_Z n;
                  avg_carbs := qsum carbs / inject_Z n;
                  avg_fats := qsum fats / inject_Z n;
                  avg_water := qsum water / inject_Z n;
                  advice := adv |}).
Proof.
  intros n start_date ds cals prot carbs fats water Hne.
  destruct (trend_advice_no_fault data period start_date today cals) as [adv Hadv].
  exists adv. split; [exact Hadv|].
  unfold view_summary_reports. fold n. fold start_date.
  destruct (decide (relevant start_date today (daily_logs data) = ∅)); [contradiction|].
  assert (Hend : today = (start_date + n - 1)%Z) by (unfold start_date; lia).
  assert (Hn : (0 <= n)%Z) by (pose proof (num_days_pos period); unfold n; lia).
  fold ds.
  assert (Hd : forall f : DailyLog -> Q,
             daily (relevant start_date today (daily_logs data)) f ds
             = daily (daily_logs data) f ds).
  { intros f. rewrite Hend at 1. apply daily_relevant. }
  rewrite !Hd. fold cals prot carbs fats water.
  assert (Hlen : forall f : DailyLog -> Q,
             length (daily (daily_logs data) f ds) = Z.to_nat n).
  { intros f. rewrite daily_length. apply window_dates_length. }
  assert (Hmean : forall f : DailyLog -> Q,
             mean (daily (daily_logs data) f ds)
             = Ok (qsum (daily (daily_logs data) f ds) / inject_Z n)).
  { intros f. rewrite mean_ok.
    - rewrite Hlen, Z2Nat.id by exact Hn. reflexivity.
    - intros E. pose proof (Hlen f) as Hl. rewrite E in Hl. simpl in Hl.
      pose proof (num_days_pos period). unfold n in Hl. lia. }
  unfold cals, prot, carbs, fats, water. rewrite !Hmean. simpl.
  fold cals. rewrite Hadv. reflexivity.
Qed.

(** C2, as amended. When the window of a weekly or monthly report holds at
    least one daily log, the report has one total per date of the window,
    zero for the dates without a log, its averages divide by 7 or 30, and
    the dates without a log number 7 or 30 minus the logged days. *)
Theorem report_covers_whole_window (data : Data) (period : Period) (today : Z) :
  relevant (today - (num_days_of period - 1)) today (daily_logs data) <> ∅ ->
  report_claimed data period today.
Proof.
  intros Hne. unfold report_claimed.
  destruct (view_summary_reports_ok data period today Hne) as (adv & _ & Hr).
  set (n := num_days_of period) in *.
  set (start_date := (today - (n - 1))%Z) in *.
  assert (Hend : today = (start_date + n - 1)%Z) by (unfold start_date; lia).
  eexists. split; [exact Hr|].
  cbn [dates daily_cals daily_prot daily_carbs daily_fats daily_water
       avg_cals avg_prot avg_carbs avg_fats avg_water logged_days].
  split; [apply window_dates_length|].
  split; [apply NoDup_seqZ|].
  split.
  { intros d. rewrite window_dates_elem. lia. }
  split.
  { intros i d Hd. unfold total_or_zero.
    repeat split; rewrite (daily_lookup _ _ _ _ _ Hd);
      destruct (daily_logs data !! d); reflexivity. }
  do 5 (split; [reflexivity|]).
  replace (relevant start_date today (daily_logs data))
    with (relevant start_date (start_date + n - 1) (daily_logs data))
    by (rewrite <- Hend; reflexivity).
  apply unlogged_count.
Qed.

(** C2, as stated, fails: with no daily log in the week the report stops at
    "No data found" and holds no totals and no averages. *)
Lemma report_without_logs_counterexample :
  ~ report_claimed weights_only weekly 100.
Proof.
  intros (r & Hr & _).
  rewrite view_summary_reports_no_data in Hr by (apply map_filter_empty).
  discriminate.
Qed.

Lemma report_covers_whole_window_witness :
  relevant (100 - (num_days_of weekly - 1)) 100 (daily_logs three_logged) <> ∅ /\
  report_claimed three_logged weekly 100.
Proof.
  assert (H : relevant (100 - (num_days_of weekly - 1)) 100 (daily_logs three_logged) <> ∅).
  { apply map_size_non_empty_iff. vm_compute. discriminate. }
  split; [exact H|].
  apply (report_covers_whole_window three_logged weekly 100 H).
Defined.

(** Three logged days and four unlogged ones in a week: seven totals, four
    of them zero, and a mean over seven. *)
Example report_three_logged_days :
  exists r,
    view_summary_reports three_logged weekly 100 = Ok (Some r) /\
    dates r = [94; 95; 96; 97; 98; 99; 100]%Z /\
    daily_cals r = [0; 1800; 0; 2100; 0; 0; 590] /\
    logged_days r = 3%nat /\
    avg_cals r == (1800 + 2100 + 590) / 7 /\
    advice r = Some (ReduceCalories (4490 # 3) (3890 # 3)).
Proof.
  eexists. split; [vm_compute; reflexivity|].
  repeat split.
Qed.

(** ** The trend block in binary64 *)

Lemma advise64_cutting (goal_w current_w change avg : Q) :
  is_b64 change -> goal_w < current_w ->
  (B64.advise goal_w current_w change avg
   = Some (ReduceCalories avg (round64 (avg - 200)))
     <-> -(2#10) < change) /\
  (B64.advise goal_w current_w change avg
   = Some (IncreaseCaloriesTo (round64 (avg + 150)))
     <-> change < -(1)) /\
  (B64.advise goal_w current_w change avg = None
     <-> -(1) <= change <= -(2#10)).
Proof.
  intros Hb Hc. unfold B64.advise. apply qltb_lt in Hc. rewrite Hc.
  assert (T : round64 (-(2#10)) < change <-> -(2#10) < change).
  { apply gt_threshold; [exact Hb|]. vm_compute. discriminate. }
  destruct (qltb (round64 (-(2#10))) change) eqn:E1;
    [|destruct (qltb change (-(1))) eqn:E2];
    q_reflect; repeat split; intros; try discriminate;
    try reflexivity; try (apply T in E1); try lra.
Qed.

Lemma advise64_gaining (goal_w current_w change avg : Q) :
  is_b64 change -> ~ goal_w < current_w ->
  (B64.advise goal_w current_w change avg
   = Some (IncreaseCalories avg (round64 (avg + 250)))
     <-> change < 2#10) /\
  (B64.advise goal_w current_w change avg = None
     <-> 2#10 <= change).
Proof.
  intros Hb Hc. unfold B64.advise.
  destruct (qltb goal_w current_w) eqn:E0; [apply qltb_lt in E0; contradiction|].
  assert (T : change < round64 (2#10) <-> change < 2#10).
  { apply lt_threshold; [exact Hb|]. vm_compute. discriminate. }
  destruct (qltb change (round64 (2#10))) eqn:E1;
    q_reflect; repeat split; intros; try discriminate;
    try reflexivity; try (apply T in E1); try lra.
Qed.

Lemma trend_advice64_weekly (data : Data) (s e : Z) (cals : list Q) :
  (2 <= size (relevant s e (weight_logs data)))%nat ->
  exists first_w last_w avg,
    chronological_ends (relevant s e (weight_logs data)) first_w last_w /\
    mean_of_eaten cals avg /\
    B64.trend_advice data weekly s e cals
    = Ok (B64.advise (goal_weight_kg (profile data)) (weight_kg (profile data))
                     (round64 (last_w - first_w)) avg).
Proof.
  intros Hsize.
  destruct (sorted_items_ends (relevant s e (weight_logs data)))
    as (d1 & w1 & d2 & w2 & Hh & Hl & H1 & H2 & Hb); [lia|].
  unfold B64.trend_advice.
  destruct (decide (2 <= size (relevant s e (weight_logs data)))%nat); [|contradiction].
  rewrite Hl, Hh. cbn [snd]. unfold mean_of_eaten. cbv zeta.
  destruct (List.filter (qltb 0) cals) as [|c eaten] eqn:E.
  - exists w1, w2, 0. split; [exists d1, d2; auto|].
    split; [intros Hn; contradiction|]. reflexivity.
  - exists w1, w2, (round64 (qsum (c :: eaten) / inject_Z (Z.of_nat (length (c :: eaten))))).
    split; [exists d1, d2; auto|].
    split; [intros _; reflexivity|]. reflexivity.
Qed.

Lemma trend_advice64_skipped (data : Data) (period : Period) (s e : Z) (cals : list Q) :
  period = monthly \/ ~ (2 <= size (relevant s e (weight_logs data)))%nat ->
  B64.trend_advice data period s e cals = Ok None.
Proof.
  intros [->|Hs]; [reflexivity|].
  unfold B64.trend_advice. destruct period; [|reflexivity].
  destruct (decide (2 <= size (relevant s e (weight_logs data)))%nat); [contradiction|].
  reflexivity.
Qed.

Lemma mean64_ok (l : list Q) :
  l <> [] -> exists m, B64.mean l = Ok m.
Proof. destruct l; [contradiction|]. intros _. eexists. reflexivity. Qed.

(** Past the "No data found" return the report prints what the trend block
    leaves. *)
Lemma advice_shown_ok (data : Data) (period : Period) (today : Z) :
  relevant (today - (num_days_of period - 1)) today (daily_logs data) <> ∅ ->
  B64.trend_advice data period (today - (num_days_of period - 1)) today
    (daily (daily_logs data) (B64.log_sum calories)
           (window_dates (today - (num_days_of period - 1)) (num_days_of period)))
  = Ok (advice_shown data period today).
Proof.
  intros Hne. unfold advice_shown, B64.view_summary_reports.
  set (n := num_days_of period) in *. set (start_date := (today - (n - 1))%Z) in *.
  destruct (decide (relevant start_date today (daily_logs data) = ∅)); [contradiction|].
  assert (Hend : today = (start_date + n - 1)%Z) by (unfold start_date; lia).
  set (ds := window_dates start_date n).
  assert (Hd : forall f : DailyLog -> Q,
             daily (relevant start_date today (daily_logs data)) f ds
             = daily (daily_logs data) f ds).
  { intros f. rewrite Hend at 1. apply daily_relevant. }
  rewrite !Hd.
  assert (Hlen : forall f : DailyLog -> Q, daily (daily_logs data) f ds <> []).
  { intros f E. pose proof (daily_length (daily_logs data) f ds) as Hl.
    rewrite E in Hl. unfold ds in Hl. rewrite window_dates_length in Hl.
    pose proof (num_days_pos period). fold n in H. cbn in Hl. lia. }
  destruct (mean64_ok _ (Hlen (B64.log_sum calories))) as [m1 ->].
  destruct (mean64_ok _ (Hlen (B64.log_sum protein_g))) as [m2 ->].
  destruct (mean64_ok _ (Hlen (B64.log_sum carbs_g))) as [m3 ->].
  destruct (mean64_ok _ (Hlen (B64.log_sum fats_g))) as [m4 ->].
  destruct (mean64_ok _ (Hlen (fun log => default 0 (water_ml log)))) as [m5 ->].
  cbn [mbind result_bind].
  destruct (B64.trend_advice data period start_date today
              (daily (daily_logs data) (B64.log_sum calories) ds)) as [adv|err] eqn:E.
  - reflexivity.
  - exfalso. destruct period.
    + destruct (decide (2 <= size (relevant start_date today (weight_logs data)))%nat)
        as [Hs|Hs].
      * destruct (trend_advice64_weekly data start_date today
                    (daily (daily_logs data) (B64.log_sum calories) ds) Hs)
          as (w1 & w2 & avg & _ & _ & Ht).
        rewrite Ht in E. discriminate.
      * rewrite trend_advice64_skipped in E by (right; exact Hs). discriminate.
    + rewrite trend_advice64_skipped in E by (left; reflexivity). discriminate.
Qed.

Lemma advice_shown_without_logs (data : Data) (period : Period) (today : Z) :
  relevant (today - (num_days_of period - 1)) today (daily_logs data) = ∅ ->
  advice_shown data period today = None.
Proof.
  intros He. unfold advice_shown, B64.view_summary_reports. rewrite He.
  destruct (decide (∅ = ∅)) as [_|Hn]; [reflexivity | contradiction].
Qed.

Lemma advice_shown_only_weekly (data : Data) (period : Period) (today : Z) (a : Advice) :
  advice_shown data period today = Some a ->
  period = weekly /\ (2 <= size (relevant (today - 6) today (weight_logs data)))%nat.
Proof.
  intros H.
  destruct (decide (relevant (today - (num_days_of period - 1)) today (daily_logs data) = ∅))
    as [He|Hne].
  - rewrite (advice_shown_without_logs _ _ _ He) in H. discriminate.
  - pose proof (advice_shown_ok data period today Hne) as Hadv. rewrite H in Hadv.
    destruct period.
    + split; [reflexivity|].
      destruct (decide (2 <= size (relevant (today - 6) today (weight_logs data)))%nat)
        as [Hs|Hs]; [exact Hs|].
      change (today - (num_days_of weekly - 1))%Z with (today - 6)%Z in Hadv.
      rewrite trend_advice64_skipped in Hadv by (right; exact Hs). discriminate.
    + rewrite trend_advice64_skipped in Hadv by (left; reflexivity). discriminate.
Qed.


Lemma slow_loss_in_week : relevant (100 - 6) 100 slow_loss = slow_loss.
Proof.
  apply map_eq. intros d. unfold relevant. rewrite map_lookup_filter.
  destruct (slow_loss !! d) as [w|] eqn:E; simpl; [|reflexivity].
  rewrite option_guard_True; [reflexivity|].
  unfold slow_loss in E.
  apply lookup_insert_Some in E as [[<- _]|[_ E]]; [unfold in_window; simpl; lia|].
  apply lookup_singleton_Some in E as [<- _]. unfold in_window; simpl; lia.
Qed.

Lemma slow_loss_ends (first_w last_w : Q) :
  chronological_ends slow_loss first_w last_w ->
  first_w = 80 /\ last_w = round64 79.9.
Proof.
  intros (d1 & d2 & H1 & H2 & Hb).
  assert (B1 : (d1 <= 94 <= d2)%Z) by (apply Hb; eexists; reflexivity).
  assert (B2 : (d1 <= 100 <= d2)%Z) by (apply Hb; eexists; reflexivity).
  unfold slow_loss in H1, H2.
  apply lookup_insert_Some in H1 as [[<- <-]|[_ H1]].
  - apply lookup_insert_Some in H2 as [[<- _]|[_ H2]]; [lia|].
    apply lookup_singleton_Some in H2 as [_ <-]. split; reflexivity.
  - apply lookup_singleton_Some in H1 as [<- _]. lia.
Qed.



(** 80.0 kg then 79.9 kg with a goal of 75 kg: the change is above -0.2
    and the report advises 200 kcal less than the mean of the three days
    with calories, 1496.6666666666667. *)
Example advice_for_slow_loss :
  advice_shown weighed_and_logged weekly 100
  = Some (ReduceCalories (round64 1496.6666666666667) (round64 1296.6666666666667)).
Proof. vm_compute. reflexivity. Qed.

(** 79.6 kg then 79.4 kg: the difference of the two floats is
    -0.19999999999998863, above -0.2, and the report advises to eat
    less. *)
Example advice_a_hair_above :
  fsub (round64 79.4) (round64 79.6) = round64 (-0.19999999999998863) /\
  advice_shown hair_above weekly 100 = Some (ReduceCalories 590 390).
Proof. vm_compute. repeat split. Qed.

(** * The rest of the tracker: properties *)

(** ** The log of a day *)

Lemma setdefault_meal_all_food ms meal :
  concat (map snd (setdefault_meal ms meal)) = concat (map snd ms).
Proof.
  unfold setdefault_meal. destruct (existsb _ ms); [reflexivity|].
  rewrite map_app, concat_app. simpl. rewrite !app_nil_r. reflexivity.
Qed.

Lemma setdefault_meals_all_food ms meal_types :
  concat (map snd (foldl setdefault_meal ms meal_types)) = concat (map snd ms).
Proof.
  revert ms. induction meal_types as [|m rest IH]; intros ms; simpl; [reflexivity|].
  rewrite IH. apply setdefault_meal_all_food.
Qed.

Lemma setdefault_meal_known ms meal :
  existsb (fun b => String.eqb (fst b) meal) ms = true -> setdefault_meal ms meal = ms.
Proof. intros H. unfold setdefault_meal. rewrite H. reflexivity. Qed.

Lemma setdefault_meal_knows ms meal m :
  existsb (fun b => String.eqb (fst b) m) ms = true ->
  existsb (fun b => String.eqb (fst b) m) (setdefault_meal ms meal) = true.
Proof.
  intros H. unfold setdefault_meal.
  destruct (existsb (fun b => String.eqb (fst b) meal) ms); [exact H|].
  rewrite existsb_app, H. reflexivity.
Qed.

Lemma setdefault_meal_adds ms meal :
  existsb (fun b => String.eqb (fst b) meal) (setdefault_meal ms meal) = true.
Proof.
  unfold setdefault_meal.
  destruct (existsb (fun b => String.eqb (fst b) meal) ms) eqn:E; [exact E|].
  rewrite existsb_app. simpl. rewrite String.eqb_refl, orb_true_r. reflexivity.
Qed.

Lemma setdefault_meals_twice ms :
  foldl setdefault_meal (foldl setdefault_meal ms MEAL_TYPES) MEAL_TYPES
  = foldl setdefault_meal ms MEAL_TYPES.
Proof.
  unfold MEAL_TYPES. cbn [foldl].
  set (m1 := setdefault_meal ms "Breakfast").
  set (m2 := setdefault_meal m1 "Lunch").
  set (m3 := setdefault_meal m2 "Dinner").
  set (m4 := setdefault_meal m3 "Snacks").
  assert (H1 : existsb (fun b => String.eqb (fst b) "Breakfast") m4 = true).
  { do 3 apply setdefault_meal_knows. apply setdefault_meal_adds. }
  assert (H2 : existsb (fun b => String.eqb (fst b) "Lunch") m4 = true).
  { do 2 apply setdefault_meal_knows. apply setdefault_meal_adds. }
  assert (H3 : existsb (fun b => String.eqb (fst b) "Dinner") m4 = true).
  { apply setdefault_meal_knows. apply setdefault_meal_adds. }
  assert (H4 : existsb (fun b => String.eqb (fst b) "Snacks") m4 = true).
  { apply setdefault_meal_adds. }
  rewrite (setdefault_meal_known m4 _ H1), (setdefault_meal_known m4 _ H2),
    (setdefault_meal_known m4 _ H3), (setdefault_meal_known m4 _ H4).
  reflexivity.
Qed.

Lemma get_log_for_date_day_totals (data : Data) (d : Z) :
  day_totals (objects data) (snd (get_log_for_date data d)) = totals_on data d.
Proof.
  unfold totals_on, get_log_for_date, day_totals, all_food. cbn [snd meals water_ml].
  rewrite setdefault_meals_all_food.
  destruct (daily_logs data !! d) as [log|]; reflexivity.
Qed.

Lemma get_log_for_date_all_food (data : Data) (d : Z) :
  all_food (snd (get_log_for_date data d))
  = match daily_logs data !! d with Some l => all_food l | None => [] end.
Proof.
  unfold get_log_for_date, all_food. cbn [snd meals].
  rewrite setdefault_meals_all_food. destruct (daily_logs data !! d); reflexivity.
Qed.

Lemma get_log_for_date_other (data : Data) (d d' : Z) :
  d' <> d -> daily_logs (fst (get_log_for_date data d)) !! d' = daily_logs data !! d'.
Proof.
  intros Hd. unfold get_log_for_date. cbn [fst daily_logs].
  apply lookup_insert_ne. congruence.
Qed.

Lemma get_log_for_date_keeps (data : Data) (d d' : Z) :
  is_Some (daily_logs data !! d') ->
  is_Some (daily_logs (fst (get_log_for_date data d)) !! d').
Proof.
  intros Hs. destruct (decide (d' = d)) as [->|Hne].
  - rewrite get_log_for_date_stored. eauto.
  - rewrite get_log_for_date_other by exact Hne. exact Hs.
Qed.

Lemma get_log_for_date_frame (data : Data) (d : Z) :
  let data' := fst (get_log_for_date data d) in
  profile data' = profile data /\ weight_logs data' = weight_logs data /\
  streaks data' = streaks data /\ fasting data' = fasting data /\
  objects data' = objects data /\
  micronutrient_goals data' = micronutrient_goals data.
Proof. unfold get_log_for_date. cbn. repeat split. Qed.

(** X1. Showing a day never changes what it totals: the log handed to the
    dashboard has the totals of the stored log, and those of an empty day
    when it had to be created. *)
Theorem get_log_for_date_totals (data : Data) (d : Z) :
  day_totals (objects data) (snd (get_log_for_date data d)) = totals_on data d /\
  totals_on (fst (get_log_for_date data d)) d = totals_on data d.
Proof.
  split; [apply get_log_for_date_day_totals|].
  unfold totals_on at 1. rewrite get_log_for_date_stored.
  change (objects (fst (get_log_for_date data d))) with (objects data).
  apply get_log_for_date_day_totals.
Qed.

(** X2. Asking for the log of a date a second time changes nothing more, and
    the logs of the other dates are never touched. *)
Theorem get_log_for_date_idempotent (data : Data) (d : Z) :
  get_log_for_date (fst (get_log_for_date data d)) d = get_log_for_date data d /\
  (forall d', d' <> d ->
     daily_logs (fst (get_log_for_date data d)) !! d' = daily_logs data !! d') /\
  (forall d', is_Some (daily_logs data !! d') ->
     is_Some (daily_logs (fst (get_log_for_date data d)) !! d')).
Proof.
  split; [|split].
  - unfold get_log_for_date at 1 3.
    cbn [fst daily_logs profile micronutrient_goals weight_logs fasting streaks objects].
    rewrite get_log_for_date_stored.
    unfold get_log_for_date. cbn [snd fst meals water_ml daily_logs].
    rewrite setdefault_meals_twice, insert_insert_eq. reflexivity.
  - intros d' Hd. apply get_log_for_date_other, Hd.
  - intros d'. apply get_log_for_date_keeps.
Qed.

(** ** Sessions *)

Lemma open_session_today_logged (data : Data) (today : Z) :
  is_Some (daily_logs (open_session data today) !! today).
Proof. unfold open_session. rewrite get_log_for_date_stored. eauto. Qed.

Lemma relevant_nonempty {A : Type} (s e d : Z) (m : gmap Z A) :
  in_window s e d -> is_Some (m !! d) -> relevant s e m <> ∅.
Proof.
  intros Hw [x Hx] He.
  assert (H : relevant s e m !! d = Some x) by (apply relevant_lookup_Some; auto).
  rewrite He, lookup_empty in H. discriminate.
Qed.

(** X3. Once the tracker has been opened today the weekly and the monthly
    report always have data: the dashboard created today's log, so the
    "No data found" return cannot be taken and the report lists 7 or 30
    days. *)
Theorem report_after_dashboard (data : Data) (period : Period) (today : Z) :
  exists r,
    view_summary_reports (open_session data today) period today = Ok (Some r) /\
    length (daily_cals r) = Z.to_nat (num_days_of period) /\
    (1 <= logged_days r)%nat.
Proof.
  assert (Hne : relevant (today - (num_days_of period - 1)) today
                  (daily_logs (open_session data today)) <> ∅).
  { apply (relevant_nonempty _ _ today); [|apply open_session_today_logged].
    unfold in_window. pose proof (num_days_pos period). lia. }
  destruct (view_summary_reports_ok _ period today Hne) as (adv & _ & Hr).
  eexists. split; [exact Hr|].
  cbn [daily_cals logged_days]. split.
  - rewrite daily_length. apply window_dates_length.
  - apply map_size_non_empty_iff in Hne. lia.
Qed.

(** ** Water *)

Lemma totals_on_water_insert (data : Data) (d : Z) (log : DailyLog) :
  total_water (totals_on (set_daily_logs data (<[d := log]> (daily_logs data))) d)
  = default 0 (water_ml log).
Proof.
  unfold totals_on. cbn [daily_logs set_daily_logs]. rewrite lookup_insert_eq.
  reflexivity.
Qed.

Lemma log_water_log (data : Data) (d : Z) (amount : Z) :
  exists log,
    daily_logs (log_water data d amount) !! d = Some log /\
    all_food log = match daily_logs data !! d with
                   | Some l => all_food l
                   | None => []
                   end /\
    default 0 (water_ml log)
    = if (0 <? amount)%Z
      then total_water (totals_on data d) + inject_Z amount
      else total_water (totals_on data d).
Proof.
  unfold log_water.
  pose proof (get_log_for_date_stored data d) as Hst.
  pose proof (get_log_for_date_day_totals data d) as Ht.
  pose proof (get_log_for_date_all_food data d) as Hfood.
  destruct (get_log_for_date data d) as [data1 log1] eqn:E.
  cbn [fst snd] in Hst, Ht, Hfood.
  assert (Hw : default 0 (water_ml log1) = total_water (totals_on data d)).
  { rewrite <- Ht. reflexivity. }
  destruct (0 <? amount)%Z.
  - eexists. split; [cbn [daily_logs set_daily_logs]; apply lookup_insert_eq|].
    split; [exact Hfood|]. cbn [water_ml default]. rewrite Hw. reflexivity.
  - exists log1. split; [exact Hst|]. split; [exact Hfood | exact Hw].
Qed.

Lemma log_water_other (data : Data) (d d' : Z) (amount : Z) :
  d' <> d -> daily_logs (log_water data d amount) !! d' = daily_logs data !! d'.
Proof.
  intros Hne. unfold log_water.
  pose proof (get_log_for_date_other data d d' Hne) as Ho.
  destruct (get_log_for_date data d) as [data1 log1]. cbn [fst] in Ho.
  destruct (0 <? amount)%Z; [|exact Ho].
  cbn [daily_logs set_daily_logs]. rewrite lookup_insert_ne by congruence. exact Ho.
Qed.

Lemma log_water_objects (data : Data) (d : Z) (amount : Z) :
  objects (log_water data d amount) = objects data.
Proof.
  unfold log_water.
  pose proof (get_log_for_date_frame data d) as (_ & _ & _ & _ & Ho & _).
  destruct (get_log_for_date data d) as [data1 log1]. cbn [fst] in Ho.
  destruct (0 <? amount)%Z; exact Ho.
Qed.

Lemma log_water_totals (data : Data) (d : Z) (amount : Z) :
  let t := totals_on data d in
  let t' := totals_on (log_water data d amount) d in
  total_calories t' = total_calories t /\
  total_protein t' = total_protein t /\
  total_carbs t' = total_carbs t /\
  total_fats t' = total_fats t /\
  total_sodium t' = total_sodium t /\
  total_sugar t' = total_sugar t /\
  total_water t' = if (0 <? amount)%Z
                   then total_water t + inject_Z amount else total_water t.
Proof.
  cbv zeta.
  destruct (log_water_log data d amount) as (log & Hl & Hf & Hw).
  unfold totals_on at 1 3 5 7 9 11 13. rewrite Hl, log_water_objects.
  unfold day_totals. cbn [total_calories total_protein total_carbs total_fats
                          total_sodium total_sugar total_water].
  rewrite Hf, Hw. unfold totals_on.
  destruct (daily_logs data !! d); repeat split.
Qed.

(** X4. Water only accumulates: after any answers to the water prompt the
    day's water is what it was plus the positive answers, never less, and
    the food totals of the day and the logs of the other days are as
    before. *)
Theorem log_water_accumulates (data : Data) (d : Z) (amounts : list Z) :
  let t := totals_on data d in
  let t' := totals_on (log_waters data d amounts) d in
  total_water t' == total_water t + inject_Z (water_added amounts) /\
  total_water t <= total_water t' /\
  total_calories t' = total_calories t /\
  total_protein t' = total_protein t /\
  total_carbs t' = total_carbs t /\
  total_fats t' = total_fats t /\
  total_sodium t' = total_sodium t /\
  total_sugar t' = total_sugar t /\
  (forall d', d' <> d ->
     daily_logs (log_waters data d amounts) !! d' = daily_logs data !! d').
Proof.
  cbv zeta. revert data.
  induction amounts as [|a rest IH]; intros data.
  - unfold log_waters, water_added. cbn [foldl foldr].
    split; [unfold inject_Z; lra|]. split; [lra|]. repeat split.
  - change (log_waters data d (a :: rest)) with (log_waters (log_water data d a) d rest).
    destruct (IH (log_water data d a)) as (Hw & Hle & Hc & Hp & Hcb & Hf & Hna & Hsu & Ho).
    destruct (log_water_totals data d a) as (Sc & Sp & Scb & Sf & Sna & Ssu & Sw).
    assert (Hstep : total_water (totals_on (log_water data d a) d)
                    == total_water (totals_on data d) + inject_Z (Z.max 0 a)).
    { rewrite Sw. destruct (0 <? a)%Z eqn:E.
      - apply Z.ltb_lt in E. rewrite Z.max_r by lia. reflexivity.
      - apply Z.ltb_ge in E. rewrite Z.max_l by lia. unfold inject_Z. lra. }
    assert (Hpos : 0 <= inject_Z (Z.max 0 a)).
    { change 0 with (inject_Z 0). rewrite <- Zle_Qle. lia. }
    split; [|split].
    + rewrite Hw, Hstep. unfold water_added at 2. cbn [foldr].
      fold (water_added rest). rewrite inject_Z_plus. ring.
    + apply Qle_trans with (total_water (totals_on (log_water data d a) d));
        [rewrite Hstep; lra | exact Hle].
    + rewrite Hc, Hp, Hcb, Hf, Hna, Hsu, Sc, Sp, Scb, Sf, Sna, Ssu.
      repeat split. intros d' Hd. rewrite Ho by exact Hd.
      apply log_water_other, Hd.
Qed.

(** ** Weight *)

(** X5. Logging a weight stores it under the date shown, replacing what that
    date held and touching no other date, and makes it the current weight
    of the profile, also when the date shown is not today. *)
Theorem log_weight_stores (data : Data) (d : Z) (w : Q) :
  weight_logs (log_weight data d w) !! d = Some w /\
  (forall d', d' <> d ->
     weight_logs (log_weight data d w) !! d' = weight_logs data !! d') /\
  weight_kg (profile (log_weight data d w)) = w /\
  (forall w0, log_weight (log_weight data d w0) d w = log_weight data d w) /\
  daily_logs (log_weight data d w) = daily_logs data.
Proof.
  unfold log_weight. cbn. split; [apply lookup_insert_eq|].
  split; [intros d' Hd; apply lookup_insert_ne; congruence|].
  split; [reflexivity|]. split; [|reflexivity].
  intros w0. rewrite insert_insert_eq. reflexivity.
Qed.

(** ** Food *)

Lemma append_to_meal_known ms meal_choice entry :
  existsb (fun b => String.eqb (fst b) meal_choice) ms = true ->
  is_Some (append_to_meal ms meal_choice entry).
Proof.
  induction ms as [|[k entries] rest IH]; simpl; [discriminate|].
  destruct (String.eqb k meal_choice); [eauto|]. simpl. intros H.
  destruct (IH H) as [ms' ->]. simpl. eauto.
Qed.

Lemma append_to_meal_all_food ms meal_choice entry ms' :
  append_to_meal ms meal_choice entry = Some ms' ->
  concat (map snd ms') ≡ₚ entry :: concat (map snd ms).
Proof.
  revert ms'. induction ms as [|[k entries] rest IH]; intros ms'; simpl; [discriminate|].
  destruct (String.eqb k meal_choice).
  - intros [= <-]. simpl.
    rewrite <- app_assoc. simpl.
    rewrite (Permutation_app_comm entries (entry :: concat (map snd rest))).
    simpl. rewrite (Permutation_app_comm (concat (map snd rest)) entries).
    reflexivity.
  - destruct (append_to_meal rest meal_choice entry) as [r|]; simpl; [|discriminate].
    intros [= <-]. simpl. rewrite (IH r eq_refl).
    symmetry. apply Permutation_middle.
Qed.

Lemma meal_types_known (data : Data) (d : Z) (meal : string) :
  meal ∈ MEAL_TYPES ->
  existsb (fun b => String.eqb (fst b) meal) (meals (snd (get_log_for_date data d))) = true.
Proof.
  intros Hm. destruct (get_log_for_date_buckets data d meal Hm) as [entries He].
  apply existsb_exists. exists (meal, entries). split.
  - apply list_elem_of_In, He.
  - apply String.eqb_refl.
Qed.

Lemma qsum_added (f : FoodEntry -> Q) (entry : FoodEntry) (l l' : list FoodEntry) :
  l' ≡ₚ entry :: l -> qsum (map f l') == qsum (map f l) + f entry.
Proof.
  intros Hp. rewrite (qsum_Permutation _ _ (Permutation_map f Hp)).
  simpl. rewrite qsum_cons. ring.
Qed.

(** The store plays no part in the totals of the four top-level
    nutrients and of the water. *)
Lemma totals_on_set_objects (data : Data) (σ : store) (d : Z) :
  total_calories (totals_on (set_objects data σ) d) = total_calories (totals_on data d) /\
  total_protein (totals_on (set_objects data σ) d) = total_protein (totals_on data d) /\
  total_carbs (totals_on (set_objects data σ) d) = total_carbs (totals_on data d) /\
  total_fats (totals_on (set_objects data σ) d) = total_fats (totals_on data d) /\
  total_water (totals_on (set_objects data σ) d) = total_water (totals_on data d).
Proof.
  unfold totals_on. cbn [daily_logs set_objects objects].
  destruct (daily_logs data !! d); repeat split.
Qed.

Lemma qsum_map_ext (f g : FoodEntry -> Q) (l : list FoodEntry) :
  (forall e, e ∈ l -> f e = g e) -> qsum (map f l) = qsum (map g l).
Proof.
  intros H. f_equal. apply map_ext_in. intros e He. apply H, list_elem_of_In, He.
Qed.

(** X6. Logging a food into one of the four meals never fails on the meal
    type, leaves the store of objects as the lookup left it, adds the entry
    to the entries of the day shown and leaves the logs of the other days
    alone.  In the exact reading the calories, protein, carbs and fats of
    the day grow by those of the entry and its water stays; its sodium and
    sugar are those of the entries of the day, read in the store the lookup
    left, plus those of the entry: they grow by the entry's when the lookup
    left the [micros] of the day's entries alone. *)
Theorem log_food_adds (data : Data) (d : Z) (meal : string)
    (method : store -> result (store * option FoodEntry)) (σ' : store)
    (entry : FoodEntry) :
  meal ∈ MEAL_TYPES ->
  method (objects data) = Ok (σ', Some entry) ->
  exists data',
    log_food data d meal method = Some (Ok data') /\
    objects data' = σ' /\
    (exists log',
       daily_logs data' !! d = Some log' /\
       all_food log'
       ≡ₚ entry :: match daily_logs data !! d with
                   | Some log => all_food log
                   | None => []
                   end) /\
    (forall d', d' <> d -> daily_logs data' !! d' = daily_logs data !! d') /\
    let t := totals_on data d in
    let t1 := totals_on (set_objects data σ') d in
    let t' := totals_on data' d in
    total_calories t' == total_calories t + nutrient calories entry /\
    total_protein t' == total_protein t + nutrient protein_g entry /\
    total_carbs t' == total_carbs t + nutrient carbs_g entry /\
    total_fats t' == total_fats t + nutrient fats_g entry /\
    total_water t' = total_water t /\
    total_sodium t' == total_sodium t1 + micro σ' "sodium_mg" entry /\
    total_sugar t' == total_sugar t1 + micro σ' "sugar_g" entry /\
    ((forall log e, daily_logs data !! d = Some log -> e ∈ all_food log ->
                    micros_of σ' e = micros_of (objects data) e) ->
     total_sodium t1 = total_sodium t /\ total_sugar t1 = total_sugar t).
Proof.
  intros Hm Hmethod. unfold log_food. rewrite Hmethod.
  set (data0 := set_objects data σ').
  pose proof (meal_types_known data0 d meal Hm) as Hk.
  pose proof (get_log_for_date_day_totals data0 d) as Ht.
  pose proof (get_log_for_date_all_food data0 d) as Ha.
  pose proof (get_log_for_date_frame data0 d) as (_ & _ & _ & _ & Ho & _).
  pose proof (fun d' => get_log_for_date_other data0 d d') as Hother.
  destruct (get_log_for_date data0 d) as [data1 log] eqn:E.
  cbn [fst snd] in Hk, Ht, Ha, Ho, Hother.
  change (objects data0) with σ' in Ht, Ho.
  change (daily_logs data0) with (daily_logs data) in Ha.
  destruct (append_to_meal_known _ _ entry Hk) as [ms Hms].
  rewrite Hms. cbn [mbind option_bind].
  eexists. split; [reflexivity|].
  split; [exact Ho|].
  split.
  { eexists. split; [cbn [daily_logs set_daily_logs]; apply lookup_insert_eq|].
    rewrite <- Ha. unfold all_food. cbn [meals].
    apply (append_to_meal_all_food _ _ _ _ Hms). }
  split.
  { intros d' Hd. cbn [daily_logs set_daily_logs].
    rewrite lookup_insert_ne by congruence. apply Hother, Hd. }
  cbv zeta.
  destruct (totals_on_set_objects data σ' d) as (<- & <- & <- & <- & <-).
  fold data0. rewrite <- Ht.
  match goal with
  | |- context [totals_on ?x d] =>
      assert (Hnew : totals_on x d
                     = day_totals σ' {| meals := ms; water_ml := water_ml log |})
  end.
  { unfold totals_on. cbn [daily_logs set_daily_logs objects].
    rewrite lookup_insert_eq, Ho. reflexivity. }
  rewrite Hnew. clear Hnew.
  apply append_to_meal_all_food in Hms.
  unfold day_totals, all_food in *.
  cbn [total_calories total_protein total_carbs total_fats total_sodium
       total_sugar total_water meals water_ml].
  repeat (split; [first [apply qsum_added, Hms | reflexivity]|]).
  intros Hsame. unfold totals_on, day_totals, all_food. rewrite Ha.
  destruct (daily_logs data !! d) as [old|] eqn:Eold; [|split; reflexivity].
  cbn [total_sodium total_sugar]. unfold micro.
  split; apply qsum_map_ext; intros e He; rewrite (Hsame old e eq_refl He); reflexivity.
Qed.

Lemma log_food_adds_witness :
  "Lunch"%string ∈ MEAL_TYPES /\
  stored_lookup shake 200 (objects on_track) = Ok (pantry, Some shake_200) /\
  exists data',
    log_food on_track 100 "Lunch" (stored_lookup shake 200) = Some (Ok data') /\
    total_calories (totals_on data' 100) == 100.
Proof.
  assert (Hm : "Lunch"%string ∈ MEAL_TYPES).
  { apply list_elem_of_further, list_elem_of_here. }
  assert (Hl : stored_lookup shake 200 (objects on_track) = Ok (pantry, Some shake_200)).
  { vm_compute. reflexivity. }
  split; [exact Hm|]. split; [exact Hl|].
  destruct (log_food_adds on_track 100 "Lunch" (stored_lookup shake 200) pantry
              shake_200 Hm Hl) as (data' & E & _ & _ & _ & H).
  cbv zeta in H. destruct H as (Hc & _).
  exists data'. split; [exact E|]. rewrite Hc. vm_compute. reflexivity.
Defined.

(** A food found among the frequent ones has its [micros] rescaled where
    they are stored: Monday holds Oats (6 mg of sodium) and 116 mg in all;
    logging Oats again at 200 g makes both entries read 12 mg, so the day
    shows 134 mg and not 116 + 12, and another day holding the same Oats
    goes from 6 mg to 12 mg. *)
Example relogging_rescales_logged_micros :
  exists data',
    log_food oats_days 100 "Snacks" (stored_lookup oats 200) = Some (Ok data') /\
    total_sodium (totals_on oats_days 100) == 116 /\
    total_sodium (totals_on data' 100) == 134 /\
    total_sodium (totals_on oats_days 99) == 6 /\
    total_sodium (totals_on data' 99) == 12.
Proof.
  eexists. split; [vm_compute; reflexivity|]. repeat split.
Qed.

(** ** What a session keeps *)

Lemma update_streaks_logs (data : Data) (today : Z) :
  daily_logs (update_streaks data today) = daily_logs data.
Proof.
  unfold update_streaks.
  destruct (decide (last_checked_date (streaks data) = Some today)); reflexivity.
Qed.

Lemma log_water_streaks (data : Data) (d : Z) (amount : Z) :
  streaks (log_water data d amount) = streaks data.
Proof.
  unfold log_water.
  pose proof (get_log_for_date_frame data d) as (_ & _ & Hs & _).
  destruct (get_log_for_date data d) as [data1 log1]. cbn [fst] in Hs.
  destruct (0 <? amount)%Z; exact Hs.
Qed.

Lemma log_water_keeps (data : Data) (d d' : Z) (amount : Z) :
  is_Some (daily_logs data !! d') ->
  is_Some (daily_logs (log_water data d amount) !! d').
Proof.
  intros Hs. destruct (decide (d' = d)) as [->|Hne].
  - destruct (log_water_log data d amount) as (log & Hl & _). rewrite Hl. eauto.
  - rewrite log_water_other by exact Hne. exact Hs.
Qed.

Lemma log_food_keeps (data data' : Data) (d d' : Z) (meal : string)
    (method : store -> result (store * option FoodEntry)) :
  log_food data d meal method = Some (Ok data') ->
  streaks data' = streaks data /\
  (is_Some (daily_logs data !! d') -> is_Some (daily_logs data' !! d')).
Proof.
  unfold log_food.
  destruct (method (objects data)) as [[σ' [e|]]|err];
    [|intros [= <-]; split; auto|discriminate].
  pose proof (get_log_for_date_frame (set_objects data σ') d) as (_ & _ & Hs & _).
  pose proof (get_log_for_date_keeps (set_objects data σ') d d') as Hk.
  destruct (get_log_for_date (set_objects data σ') d) as [data1 log].
  cbn [fst] in Hs, Hk.
  destruct (append_to_meal (meals log) meal e) as [ms|]; [|discriminate].
  cbn [mbind option_bind]. intros [= <-]. split; [exact Hs|].
  intros H. cbn [daily_logs set_daily_logs].
  destruct (decide (d = d')) as [->|Hne].
  - rewrite lookup_insert_eq. eauto.
  - rewrite lookup_insert_ne by exact Hne. apply Hk, H.
Qed.

Lemma session_step_keeps (data data' : Data) (d' : Z) :
  session_step data data' ->
  streaks data' = streaks data /\
  (is_Some (daily_logs data !! d') -> is_Some (daily_logs data' !! d')).
Proof.
  destruct 1 as [data d|data d a|data d w|data d meal method data' H|data c n du].
  - split; [apply get_log_for_date_frame | apply get_log_for_date_keeps].
  - split; [apply log_water_streaks | apply log_water_keeps].
  - split; [reflexivity | auto].
  - apply (log_food_keeps _ _ _ _ _ _ H).
  - split; [reflexivity | auto].
Qed.

(** All through a session the streaks carry today's date and today has a
    log. *)
Lemma in_session_evaluated (data0 : Data) (today : Z) (data : Data) :
  in_session data0 today data ->
  last_checked_date (streaks data) = Some today /\
  is_Some (daily_logs data !! today).
Proof.
  unfold in_session. intros H.
  apply (rtc_ind_r (R := session_step)
           (fun dt => last_checked_date (streaks dt) = Some today /\
                      is_Some (daily_logs dt !! today))
           (open_session data0 today)); [| |exact H]; clear H data.
  - split.
    + unfold open_session.
      pose proof (get_log_for_date_frame (update_streaks data0 today) today)
        as (_ & _ & Hs & _).
      cbv zeta in Hs. rewrite Hs. apply update_streaks_last_checked.
    + apply open_session_today_logged.
  - intros y z _ Hxy [Hl Hd].
    destruct (session_step_keeps _ _ today Hxy) as [Hs Hk].
    split; [rewrite Hs; exact Hl | apply Hk, Hd].
Qed.

(** X7. A document left by a session always holds the log of the day its
    streaks were evaluated on. *)
Theorem session_evaluated_day_logged (data0 : Data) (today : Z) (data : Data) :
  in_session data0 today data -> evaluated_day_logged data.
Proof.
  intros H d Hd. destruct (in_session_evaluated _ _ _ H) as [Hl Hs].
  rewrite Hl in Hd. injection Hd as <-. exact Hs.
Qed.

Lemma session_evaluated_day_logged_witness :
  in_session on_track 100 (log_water (open_session on_track 100) 100 250) /\
  evaluated_day_logged (log_water (open_session on_track 100) 100 250).
Proof.
  assert (H : in_session on_track 100 (log_water (open_session on_track 100) 100 250)).
  { apply rtc_once. apply step_water. }
  split; [exact H|].
  apply (session_evaluated_day_logged on_track 100 _ H).
Defined.



(** ** Products *)

Lemma new_dict_fresh (σ : store) (m : gmap string Q) :
  σ !! snd (new_dict σ m) = None.
Proof.
  unfold new_dict. cbn [snd]. apply not_elem_of_dom. apply is_fresh.
Qed.

Lemma new_dict_lookup (σ : store) (m : gmap string Q) :
  fst (new_dict σ m) !! snd (new_dict σ m) = Some m.
Proof. unfold new_dict. cbn [fst snd]. apply lookup_insert_eq. Qed.

Lemma new_dict_other (σ : store) (m : gmap string Q) (r : ref) :
  is_Some (σ !! r) -> fst (new_dict σ m) !! r = σ !! r.
Proof.
  intros [x Hx]. unfold new_dict. cbn [fst].
  apply lookup_insert_ne. intros E.
  pose proof (new_dict_fresh σ m) as Hf. unfold new_dict in Hf. cbn [snd] in Hf.
  rewrite E, Hx in Hf. discriminate.
Qed.

Lemma product_micros_lookup (n : Nutriments) (scale : Q) (k : string) :
  default 0
    ((<["sodium_mg"%string := safe_float (sodium_100g n) * 1000 * scale]>
        (<["sugar_g"%string := safe_float (sugars_100g n) * scale]>
           (<["fiber_g"%string := safe_float (fiber_100g n) * scale]>
              (∅ : gmap string Q)))) !! k)
  == per_100g_micro n k * scale.
Proof.
  unfold per_100g_micro.
  destruct (String.eqb k "sodium_mg") eqn:E1.
  { apply String.eqb_eq in E1. subst k. rewrite lookup_insert_eq. reflexivity. }
  apply String.eqb_neq in E1. rewrite lookup_insert_ne by congruence.
  destruct (String.eqb k "sugar_g") eqn:E2.
  { apply String.eqb_eq in E2. subst k. rewrite lookup_insert_eq. reflexivity. }
  apply String.eqb_neq in E2. rewrite lookup_insert_ne by congruence.
  destruct (String.eqb k "fiber_g") eqn:E3.
  { apply String.eqb_eq in E3. subst k. rewrite lookup_insert_eq. reflexivity. }
  apply String.eqb_neq in E3. rewrite lookup_insert_ne by congruence.
  rewrite lookup_empty. simpl. ring.
Qed.

Lemma product_entry (σ : store) (p : Product) (g : Q) :
  let n := nutriments p in
  let σ' := fst (process_product_selection σ p g) in
  let e := snd (process_product_selection σ p g) in
  serving_size_g e = None /\
  grams e = Some g /\
  calories e = Some (safe_float (energy_kcal_100g n) * (g / 100)) /\
  protein_g e = Some (safe_float (proteins_100g n) * (g / 100)) /\
  carbs_g e = Some (safe_float (carbohydrates_100g n) * (g / 100)) /\
  fats_g e = Some (safe_float (fat_100g n) * (g / 100)) /\
  name e = display_name p /\
  (forall k, micro σ' k e == per_100g_micro n k * (g / 100)) /\
  (exists r, micros e = Some r /\ σ !! r = None) /\
  (forall r, is_Some (σ !! r) -> σ' !! r = σ !! r).
Proof.
  cbv zeta. unfold process_product_selection.
  set (m := <["sodium_mg"%string := _]> _).
  pose proof (new_dict_fresh σ m) as Hf.
  pose proof (new_dict_lookup σ m) as Hl.
  pose proof (new_dict_other σ m) as Ho.
  destruct (new_dict σ m) as [σ' r]. cbn [fst snd] in *.
  repeat split; try reflexivity.
  - intros k. unfold micro, micros_of. cbn [micros]. rewrite Hl. cbn [default from_option id].
    apply product_micros_lookup.
  - exists r. split; [reflexivity | exact Hf].
  - exact Ho.
Qed.

(** A product found by the search, the history or the barcode comes with
    a [micros] of its own: the lookup leaves the [micros] of the entries
    already stored as they were. *)
Lemma product_lookup_keeps_micros (σ : store) (p : Product) (g : Q) :
  exists σ' e,
    product_lookup p g σ = Ok (σ', Some e) /\
    forall f : FoodEntry, is_Some (micros f ≫= (σ !!.)) ->
                          micros_of σ' f = micros_of σ f.
Proof.
  unfold product_lookup.
  pose proof (product_entry σ p g) as H. cbv zeta in H.
  destruct (process_product_selection σ p g) as [σ' e]. cbn [fst snd] in H.
  destruct H as (_ & _ & _ & _ & _ & _ & _ & _ & _ & Ho).
  exists σ', e. split; [reflexivity|].
  intros f Hs. unfold micros_of. destruct (micros f) as [r|]; [|reflexivity].
  cbn in Hs. rewrite (Ho r Hs). reflexivity.
Qed.

(** X9. A selected product is scaled linearly from its 100 g values: every
    nutrient of the entry is the per-100 g value times grams/100, sodium
    counted in milligrams, a value that is missing or not a number counts
    as 0; the entry gets a [micros] dictionary of its own and the stored
    ones are untouched. *)
Theorem product_scaled_from_100g (σ : store) (p : Product) (g : Q) :
  let n := nutriments p in
  let σ' := fst (process_product_selection σ p g) in
  let e := snd (process_product_selection σ p g) in
  grams e = Some g /\
  nutrient calories e == safe_float (energy_kcal_100g n) * g / 100 /\
  nutrient protein_g e == safe_float (proteins_100g n) * g / 100 /\
  nutrient carbs_g e == safe_float (carbohydrates_100g n) * g / 100 /\
  nutrient fats_g e == safe_float (fat_100g n) * g / 100 /\
  micro σ' "sodium_mg" e == safe_float (sodium_100g n) * 1000 * g / 100 /\
  micro σ' "sugar_g" e == safe_float (sugars_100g n) * g / 100 /\
  micro σ' "fiber_g" e == safe_float (fiber_100g n) * g / 100 /\
  (exists r, micros e = Some r /\ σ !! r = None) /\
  (forall f : FoodEntry, is_Some (micros f ≫= (σ !!.)) ->
     micros_of σ' f = micros_of σ f).
Proof.
  cbv zeta.
  destruct (product_entry σ p g) as (_ & Hg & Hc & Hp & Hcb & Hf & _ & Hm & Hr & Ho).
  split; [exact Hg|].
  unfold nutrient. rewrite Hc, Hp, Hcb, Hf. cbn [default from_option id].
  split; [field|]. split; [field|]. split; [field|]. split; [field|].
  split; [rewrite Hm; unfold per_100g_micro; simpl; field|].
  split; [rewrite Hm; unfold per_100g_micro; simpl; field|].
  split; [rewrite Hm; unfold per_100g_micro; simpl; field|].
  split; [exact Hr|].
  intros f Hs. unfold micros_of. destruct (micros f) as [r|]; [|reflexivity].
  cbn in Hs. rewrite (Ho r Hs). reflexivity.
Qed.

(** X11. A product logged with 0 grams is lost to rescaling: its entry holds 0
    for every nutrient and keeps 0 grams, so a later scaling starts from
    the 100 g fall-back and multiplies zeros, whatever the product was. *)
Theorem zero_gram_entry_stays_empty (σ : store) (p : Product) (g' : Q) :
  let σ1 := fst (process_product_selection σ p 0) in
  let e1 := snd (process_product_selection σ p 0) in
  exists σ2 e2,
    scale_food_entry σ1 e1 g' = Ok (σ2, Some e2) /\
    grams e2 = Some g' /\
    nutrient calories e2 == 0 /\
    nutrient protein_g e2 == 0 /\
    nutrient carbs_g e2 == 0 /\
    nutrient fats_g e2 == 0 /\
    forall k, micro σ2 k e2 == 0.
Proof.
  cbv zeta.
  destruct (product_entry σ p 0) as (Hs & Hgr & Hc & Hp & Hcb & Hf & _ & Hm & _ & _).
  cbv zeta in *.
  set (σ1 := fst (process_product_selection σ p 0)) in *.
  set (e1 := snd (process_product_selection σ p 0)) in *.
  clearbody σ1 e1.
  destruct (scale_food_entry_no_fault σ1 e1 g') as (σ2 & e2 & E).
  exists σ2, e2. split; [exact E|].
  pose proof E as E'. rewrite scale_food_entry_result in E'. cbv zeta in E'.
  injection E' as _ He.
  split; [rewrite <- He; reflexivity|].
  unfold nutrient.
  split; [rewrite <- He; cbn [calories]; rewrite Hc; cbn; rewrite scaled_eq; field;
          apply base_grams_nonzero|].
  split; [rewrite <- He; cbn [protein_g]; rewrite Hp; cbn; rewrite scaled_eq; field;
          apply base_grams_nonzero|].
  split; [rewrite <- He; cbn [carbs_g]; rewrite Hcb; cbn; rewrite scaled_eq; field;
          apply base_grams_nonzero|].
  split; [rewrite <- He; cbn [fats_g]; rewrite Hf; cbn; rewrite scaled_eq; field;
          apply base_grams_nonzero|].
  intros k.
  destruct (scale_food_entry_micros _ _ _ _ _ k E) as [M V].
  assert (Hsame : micro σ2 k e2 = micro σ2 k e1).
  { unfold micro, micros_of. rewrite M. reflexivity. }
  rewrite Hsame, V, Hm. field.
  apply base_grams_nonzero.
Qed.

(** ** Scaling again *)

(** X13. Logging the same stored food twice compounds its [micros]: the second
    entry has the right top-level nutrients, but its sodium, sugar and the
    like are the original values times both scales, and the first entry
    and the stored food read the same compounded values. *)
Theorem scale_twice_compounds_micros (σ : store) (e : FoodEntry) (g1 g2 : Q) :
  let base := get_or (serving_size_g e) (get_or (grams e) 100) in
  exists σ1 e1 σ2 e2,
    scale_food_entry σ e g1 = Ok (σ1, Some e1) /\
    scale_food_entry σ1 e g2 = Ok (σ2, Some e2) /\
    nutrient calories e2 == nutrient calories e * (g2 / base) /\
    (forall k, micro σ2 k e2 == micro σ k e * (g1 / base) * (g2 / base)) /\
    (forall k, micro σ2 k e1 == micro σ2 k e2) /\
    (forall k, micro σ2 k e == micro σ2 k e2).
Proof.
  cbv zeta.
  destruct (scale_food_entry_no_fault σ e g1) as (σ1 & e1 & E1).
  destruct (scale_food_entry_no_fault σ1 e g2) as (σ2 & e2 & E2).
  exists σ1, e1, σ2, e2. split; [exact E1|]. split; [exact E2|].
  assert (M1 : micros e1 = micros e).
  { rewrite scale_food_entry_result in E1. injection E1 as _ <-. reflexivity. }
  assert (M2 : micros e2 = micros e).
  { rewrite scale_food_entry_result in E2. injection E2 as _ <-. reflexivity. }
  assert (Hsame : forall τ k, micro τ k e1 = micro τ k e /\ micro τ k e2 = micro τ k e).
  { intros τ k. unfold micro, micros_of. rewrite M1, M2. split; reflexivity. }
  split.
  { pose proof E2 as R. rewrite scale_food_entry_result in R. injection R as _ <-.
    unfold nutrient. cbn [calories]. destruct (calories e) as [v|]; simpl.
    - apply scaled_eq.
    - rewrite Qmult_0_l. reflexivity. }
  split.
  { intros k.
    destruct (scale_food_entry_micros _ _ _ _ _ k E1) as [_ V1].
    destruct (scale_food_entry_micros _ _ _ _ _ k E2) as [_ V2].
    rewrite (proj2 (Hsame σ2 k)), V2, V1. reflexivity. }
  split; intros k; destruct (Hsame σ2 k) as [H1 H2]; rewrite ?H1, ?H2; reflexivity.
Qed.

(** ** Search history *)

Lemma remove_first_sublist (x : string) (l : list string) :
  remove_first x l `sublist_of` l.
Proof.
  induction l as [|y l IH]; simpl; [constructor|].
  destruct (String.eqb y x).
  - apply sublist_cons. reflexivity.
  - apply sublist_skip, IH.
Qed.

Lemma remove_first_not_in (x : string) (l : list string) :
  NoDup l -> x ∉ remove_first x l.
Proof.
  induction 1 as [|y l Hy Hl IH]; simpl; [apply not_elem_of_nil|].
  destruct (String.eqb y x) eqn:E.
  - apply String.eqb_eq in E. subst y. exact Hy.
  - apply String.eqb_neq in E. rewrite not_elem_of_cons. split; [congruence | exact IH].
Qed.

Lemma remove_first_absent (x : string) (l : list string) :
  x ∉ l -> remove_first x l = l.
Proof.
  induction l as [|y l IH]; simpl; [reflexivity|].
  rewrite not_elem_of_cons. intros [Hxy Hl].
  destruct (String.eqb y x) eqn:E.
  - apply String.eqb_eq in E. congruence.
  - rewrite IH by exact Hl. reflexivity.
Qed.

Lemma remove_first_head (x : string) (l : list string) :
  remove_first x (x :: l) = l.
Proof. simpl. rewrite String.eqb_refl. reflexivity. Qed.

(** The list the new term is put in front of. *)
Lemma record_search_eq (history : list string) (query : string) :
  record_search history query = query :: take 9 (remove_first query history).
Proof.
  unfold record_search. case_bool_decide as H; [reflexivity|].
  rewrite (remove_first_absent _ _ H). reflexivity.
Qed.

(** X14. A typed search goes to the front of the history, which keeps at most
    ten terms, no term twice if it had none twice, and the other terms in
    the order they were in. *)
Theorem record_search_recent_first (history : list string) (query : string) :
  let h := record_search history query in
  head h = Some query /\
  (length h <= 10)%nat /\
  length h = Nat.min 10 (S (length (remove_first query history))) /\
  tail h `sublist_of` history /\
  (NoDup history -> NoDup h).
Proof.
  cbv zeta. rewrite record_search_eq. cbn [head tail length].
  assert (Hs : take 9 (remove_first query history) `sublist_of` history).
  { etransitivity; [apply sublist_take | apply remove_first_sublist]. }
  split; [reflexivity|].
  rewrite length_take.
  split; [lia|]. split; [lia|]. split; [exact Hs|].
  intros Hnd. apply NoDup_cons. split.
  - intros Hin. apply (remove_first_not_in query history Hnd).
    eapply elem_of_sublist; [exact Hin | apply sublist_take].
  - eapply sublist_NoDup; [exact Hnd | exact Hs].
Qed.

(** X15. Typing the same search again changes nothing, and running a search
    picked from the history again does not move it to the front: only a
    typed, non-empty term is recorded. *)
Theorem record_search_again (history : list string) (query : string) :
  record_search (record_search history query) query = record_search history query /\
  (forall picked typed, picked <> ""%string ->
     searched_history history (Some picked) typed = history) /\
  (forall picked, searched_history history picked "" = history).
Proof.
  split; [|split].
  - rewrite !record_search_eq, remove_first_head, take_take. reflexivity.
  - intros picked typed Hp. unfold searched_history.
    destruct (String.eqb picked "") eqn:E; [|reflexivity].
    apply String.eqb_eq in E. contradiction.
  - intros [q|]; unfold searched_history; simpl; [|reflexivity].
    destruct (String.eqb q ""); reflexivity.
Qed.

(** ** Frequent foods *)

Lemma times_snoc (k x : string) (l : list string) :
  times k (l ++ [x]) = (times k l + (if bool_decide (k = x) then 1 else 0))%nat.
Proof.
  unfold times. rewrite filter_app, length_app. f_equal.
  rewrite filter_cons, filter_nil.
  case_bool_decide; destruct (decide (k = x)); try contradiction; reflexivity.
Qed.

Lemma times_pos (k : string) (l : list string) : k ∈ l -> (0 < times k l)%nat.
Proof.
  intros H. unfold times.
  assert (Hin : k ∈ filter (k =.) l) by (apply list_elem_of_filter; auto).
  destruct (filter (k =.) l); [apply elem_of_nil in Hin; contradiction | simpl; lia].
Qed.

Lemma count_up_keys (c : list (string * nat)) (x : string) :
  (count_up c x).*1 = if bool_decide (x ∈ c.*1) then c.*1 else c.*1 ++ [x].
Proof.
  induction c as [|[k n] c IH]; cbn [count_up].
  - rewrite bool_decide_false by apply not_elem_of_nil. reflexivity.
  - destruct (String.eqb k x) eqn:E.
    + apply String.eqb_eq in E. subst k. rewrite !fmap_cons. cbn [fst].
      rewrite bool_decide_true by (apply list_elem_of_here). reflexivity.
    + apply String.eqb_neq in E. rewrite !fmap_cons. cbn [fst]. rewrite IH.
      destruct (decide (x ∈ c.*1)) as [H|H].
      * rewrite !bool_decide_true; [reflexivity | apply list_elem_of_further, H | exact H].
      * rewrite !bool_decide_false; [reflexivity | | exact H].
        rewrite not_elem_of_cons. split; [congruence | exact H].
Qed.

Lemma count_up_NoDup (c : list (string * nat)) (x : string) :
  NoDup (c.*1) -> NoDup ((count_up c x).*1).
Proof.
  intros H. rewrite count_up_keys. case_bool_decide as Hx; [exact H|].
  apply NoDup_app. split; [exact H|]. split.
  - intros y Hy Hy'. apply list_elem_of_singleton in Hy'. subst y. contradiction.
  - apply NoDup_singleton.
Qed.

Lemma count_up_map (c : list (string * nat)) (x : string) :
  (list_to_map (count_up c x) : gmap string nat)
  = <[x := S (default 0%nat ((list_to_map c : gmap string nat) !! x))]> (list_to_map c).
Proof.
  induction c as [|[k n] c IH]; simpl.
  - reflexivity.
  - destruct (String.eqb k x) eqn:E.
    + apply String.eqb_eq in E. subst k. simpl.
      rewrite lookup_insert_eq. simpl. rewrite insert_insert_eq. reflexivity.
    + apply String.eqb_neq in E. simpl. rewrite IH.
      rewrite lookup_insert_ne by exact E.
      apply insert_insert_ne. exact E.
Qed.

Lemma times_zero (k : string) (l : list string) : times k l = 0%nat -> k ∉ l.
Proof. intros H Hin. pose proof (times_pos k l Hin). lia. Qed.

Lemma times_in (k : string) (l : list string) : (0 < times k l)%nat -> k ∈ l.
Proof.
  unfold times. intros H.
  destruct (filter (k =.) l) as [|y r] eqn:E; [simpl in H; lia|].
  assert (Hy : y ∈ filter (k =.) l) by (rewrite E; apply list_elem_of_here).
  apply list_elem_of_filter in Hy as [<- Hy]. exact Hy.
Qed.

(** The counter of the names read so far maps each name to the number of
    times it was read. *)
Lemma Counter_map (l : list string) :
  NoDup ((Counter l).*1) /\
  forall k, (list_to_map (Counter l) : gmap string nat) !! k
            = if decide (times k l = 0%nat) then None else Some (times k l).
Proof.
  unfold Counter. induction l as [|x l [IHn IHm]] using rev_ind.
  - split; [constructor|]. intros k. simpl. rewrite lookup_empty. reflexivity.
  - rewrite foldl_app. cbn [foldl]. split; [apply count_up_NoDup, IHn|].
    intros k. rewrite count_up_map, times_snoc.
    destruct (decide (k = x)) as [->|Hne].
    + rewrite lookup_insert_eq, IHm, bool_decide_true by reflexivity.
      destruct (decide (times x l = 0%nat)) as [E|E]; simpl.
      * rewrite E. reflexivity.
      * destruct (decide ((times x l + 1)%nat = 0%nat)); [lia|]. f_equal. lia.
    + rewrite lookup_insert_ne by congruence.
      rewrite IHm, bool_decide_false by exact Hne.
      rewrite Nat.add_0_r. reflexivity.
Qed.

Lemma Counter_counts (l : list string) : counts (Counter l) l.
Proof.
  destruct (Counter_map l) as [Hn Hm]. split; [exact Hn|]. split.
  - intros k n Hk. apply (elem_of_list_to_map (M := gmap string)) in Hk; [|exact Hn].
    rewrite Hm in Hk. destruct (decide (times k l = 0%nat)); [discriminate|].
    injection Hk as <-. split; [reflexivity|]. apply times_in. lia.
  - intros k Hk. pose proof (times_pos k l Hk) as Hp.
    assert (Hl : (list_to_map (Counter l) : gmap string nat) !! k = Some (times k l)).
    { rewrite Hm. destruct (decide (times k l = 0%nat)); [lia | reflexivity]. }
    apply (elem_of_list_to_map (M := gmap string)) in Hl; [|exact Hn].
    apply list_elem_of_fmap. exists (k, times k l). split; [reflexivity | exact Hl].
Qed.

#[global] Instance more_common_trans : Transitive more_common.
Proof. intros a b c. unfold more_common. lia. Qed.

Lemma insert_by_count_perm (x : string * nat) (l : list (string * nat)) :
  insert_by_count x l ≡ₚ x :: l.
Proof.
  induction l as [|y l IH]; simpl; [reflexivity|].
  destruct (snd x <? snd y)%nat; [|reflexivity].
  rewrite IH. apply perm_swap.
Qed.

Lemma insert_by_count_sorted (x : string * nat) (l : list (string * nat)) :
  Sorted more_common l -> Sorted more_common (insert_by_count x l).
Proof.
  induction 1 as [|y l Hl IH Hhd]; simpl.
  - repeat constructor.
  - destruct (snd x <? snd y)%nat eqn:E.
    + apply Nat.ltb_lt in E. constructor; [exact IH|].
      destruct Hhd as [|z l Hz]; simpl.
      * constructor. unfold more_common. lia.
      * destruct (snd x <? snd z)%nat; constructor; [exact Hz|].
        unfold more_common. lia.
    + apply Nat.ltb_ge in E. constructor.
      * constructor; assumption.
      * constructor. exact E.
Qed.

Lemma sorted_by_count (c : list (string * nat)) :
  foldr insert_by_count [] c ≡ₚ c /\
  StronglySorted more_common (foldr insert_by_count [] c).
Proof.
  split.
  - induction c as [|x c IH]; simpl; [reflexivity|].
    rewrite insert_by_count_perm, IH. reflexivity.
  - apply Sorted_StronglySorted; [apply more_common_trans|].
    induction c as [|x c IH]; simpl; [constructor|].
    apply insert_by_count_sorted, IH.
Qed.

Lemma StronglySorted_take_drop {A : Type} (R : relation A) (l : list A) (n : nat) a b :
  StronglySorted R l -> a ∈ take n l -> b ∈ drop n l -> R a b.
Proof.
  intros Hs. revert n. induction Hs as [|x l Hs IH Hall]; intros n Ha Hb.
  - rewrite take_nil in Ha. apply elem_of_nil in Ha. contradiction.
  - destruct n as [|n]; simpl in *; [apply elem_of_nil in Ha; contradiction|].
    apply elem_of_cons in Ha as [->|Ha].
    + rewrite Forall_forall in Hall. apply Hall.
      eapply elem_of_sublist; [exact Hb | apply sublist_drop].
    + apply (IH n Ha Hb).
Qed.

Lemma get_frequent_foods_eq (days : list DailyLog) (limit : nat) :
  get_frequent_foods days limit
  = (most_common limit (Counter (name <$> concat (all_food <$> days)))).*1.
Proof.
  unfold get_frequent_foods.
  destruct (name <$> concat (all_food <$> days)) eqn:E; [|reflexivity].
  unfold most_common, Counter. simpl. rewrite take_nil. reflexivity.
Qed.

Lemma frequent_names_logged (days : list DailyLog) (limit : nat) (x : string) :
  x ∈ get_frequent_foods days limit -> x ∈ name <$> concat (all_food <$> days).
Proof.
  rewrite get_frequent_foods_eq.
  set (l := name <$> concat (all_food <$> days)).
  destruct (Counter_counts l) as (_ & Hc & _).
  destruct (sorted_by_count (Counter l)) as [Hp _].
  intros Hx. apply list_elem_of_fmap in Hx as ([k n] & -> & Hk).
  apply (Hc k n). rewrite <- Hp.
  eapply elem_of_sublist; [exact Hk | apply sublist_take].
Qed.

(** X16. The frequent foods are the most logged names: at most [limit] of them,
    each once, each the name of a logged entry, and no name left out was
    logged more often than one that is listed; when fewer than [limit] are
    listed, every logged name is. *)
Theorem frequent_foods_most_logged (days : list DailyLog) (limit : nat) :
  let all_names := name <$> concat (all_food <$> days) in
  let frequent := get_frequent_foods days limit in
  (length frequent <= limit)%nat /\
  NoDup frequent /\
  (forall x, x ∈ frequent -> x ∈ all_names) /\
  (forall x y, x ∈ frequent -> y ∈ all_names -> y ∉ frequent ->
     (times y all_names <= times x all_names)%nat) /\
  ((length frequent < limit)%nat -> forall y, y ∈ all_names -> y ∈ frequent).
Proof.
  cbv zeta. rewrite get_frequent_foods_eq.
  set (l := name <$> concat (all_food <$> days)).
  destruct (Counter_counts l) as (Hnd & Hc & Hall).
  destruct (sorted_by_count (Counter l)) as [Hp Hs].
  unfold most_common. set (s := foldr insert_by_count [] (Counter l)) in *.
  assert (Hsub : take limit s `sublist_of` s) by apply sublist_take.
  assert (Hin : forall k n, (k, n) ∈ s <-> (k, n) ∈ Counter l).
  { intros k n. rewrite Hp. reflexivity. }
  assert (Hsnd : NoDup (s.*1)) by (rewrite Hp; exact Hnd).
  split; [rewrite length_fmap, length_take; lia|].
  split.
  { eapply sublist_NoDup; [exact Hsnd | rewrite fmap_take; apply sublist_take]. }
  split.
  { intros x Hx. apply list_elem_of_fmap in Hx as ([k n] & -> & Hk).
    apply (Hc k n), Hin. eapply elem_of_sublist; [exact Hk | exact Hsub]. }
  split.
  { intros x y Hx Hy Hno.
    apply list_elem_of_fmap in Hx as ([k n] & -> & Hk). simpl.
    apply Hall in Hy. apply list_elem_of_fmap in Hy as ([k' m] & -> & Hy). simpl in *.
    assert (Hn : n = times k l).
    { apply (Hc k n), Hin. eapply elem_of_sublist; [exact Hk | exact Hsub]. }
    assert (Hm : m = times k' l) by apply (Hc k' m Hy).
    apply Hin in Hy. rewrite <- (take_drop limit s) in Hy.
    apply elem_of_app in Hy as [Hy|Hy].
    - exfalso. apply Hno. apply list_elem_of_fmap. exists (k', m). split; [reflexivity | exact Hy].
    - pose proof (StronglySorted_take_drop more_common s limit _ _ Hs Hk Hy) as HR.
      unfold more_common in HR. simpl in HR. lia. }
  intros Hlt y Hy.
  rewrite length_fmap, length_take in Hlt.
  rewrite take_ge by lia.
  apply Hall in Hy. rewrite <- Hp in Hy. exact Hy.
Qed.

Lemma find_logged_some (days : list DailyLog) (food_name : string) :
  food_name ∈ name <$> concat (all_food <$> days) ->
  exists food,
    find_logged days food_name = Some food /\
    name food = food_name /\
    food ∈ concat (all_food <$> days).
Proof.
  intros H. apply list_elem_of_fmap in H as (f & -> & Hf).
  assert (Hsame : forall x, x ∈ concat (all_food <$> reverse days)
                            <-> x ∈ concat (all_food <$> days)).
  { intros x. rewrite !list_elem_of_In, !in_concat. split.
    - intros (l & Hl & Hx). exists l. split; [|exact Hx].
      apply list_elem_of_In in Hl. apply list_elem_of_In.
      rewrite fmap_reverse, elem_of_reverse in Hl. exact Hl.
    - intros (l & Hl & Hx). exists l. split; [|exact Hx].
      apply list_elem_of_In in Hl. apply list_elem_of_In.
      rewrite fmap_reverse, elem_of_reverse. exact Hl. }
  unfold find_logged.
  destruct (List.find _ _) as [food|] eqn:E.
  - apply find_some in E as [Hin Hn]. apply String.eqb_eq in Hn.
    exists food. split; [reflexivity|]. split; [exact Hn|].
    apply Hsame, list_elem_of_In, Hin.
  - exfalso. apply Hsame, list_elem_of_In in Hf.
    pose proof (find_none _ _ E f Hf) as Hn. simpl in Hn.
    rewrite String.eqb_refl in Hn. discriminate.
Qed.



(** ** Goal bars *)

Lemma Qdiv_bounds (a b : Q) :
  0 < b -> (0 <= a -> 0 <= a / b) /\ (a <= b <-> a / b <= 1) /\ a / b * b == a.
Proof.
  intros Hb. split; [|split].
  - intros Ha. apply Qle_shift_div_l; [exact Hb | lra].
  - split.
    + intros H. apply Qle_shift_div_r; [exact Hb | lra].
    + intros H. apply (Qmult_le_r _ _ b Hb) in H.
      assert (E : a / b * b == a) by (field; lra). lra.
  - field. lra.
Qed.

(** X18. A goal bar never leaves its track: for a current value that is not
    negative the progress is between 0 and 1, it is 1 exactly when a
    positive goal is reached, and below the goal it is the fraction
    reached. *)
Theorem goal_progress_bounds (current goal : Q) :
  0 <= current ->
  exists p,
    goal_progress current goal = Ok p /\
    0 <= p <= 1 /\
    (0 < goal -> (p == 1 <-> goal <= current)) /\
    (0 < goal -> current <= goal -> p * goal == current).
Proof.
  intros Hc. unfold goal_progress. destruct (qltb 0 goal) eqn:E.
  - apply qltb_lt in E. rewrite py_div_ok by lra. cbn.
    destruct (Qdiv_bounds current goal E) as (H0 & H1 & H2).
    specialize (H0 Hc).
    eexists. split; [reflexivity|].
    destruct (Qlt_le_dec goal current) as [Hlt|Hle].
    + assert (Hge : 1 <= current / goal).
      { apply Qnot_lt_le. intros Hn. assert (current <= goal) by (apply H1; lra). lra. }
      rewrite (Q.min_r _ _ Hge).
      split; [lra|]. split; [intros _; split; intros; [lra | reflexivity]|].
      intros _ Hle. lra.
    + assert (Hle1 : current / goal <= 1) by (apply H1, Hle).
      rewrite (Q.min_l _ _ Hle1).
      split; [lra|]. split; [|intros _ _; exact H2].
      intros _. split; [intros Hp; rewrite Hp in H2; lra|]. intros Hg.
      assert (Heq : current == goal) by lra. rewrite Heq. field. lra.
  - apply qltb_ge in E. exists 0. split; [reflexivity|]. split; [lra|].
    split; intros Hg; lra.
Qed.

Lemma goal_progress_bounds_witness :
  0 <= 1500 /\
  exists p, goal_progress 1500 2000 = Ok p /\ 0 <= p <= 1.
Proof.
  assert (H : 0 <= 1500) by discriminate.
  split; [exact H|].
  destruct (goal_progress_bounds 1500 2000 H) as (p & Hp & Hb & _).
  exists p. split; [exact Hp | exact Hb].
Defined.

(** ** The course of a fast *)

Lemma shown_zero (x : Q) :
  x == 0 -> py_int (fst (py_divmod x 3600)) = 0%Z /\ py_int (snd (py_divmod x 3600) / 60) = 0%Z.
Proof.
  intros Hx. apply (shown_hours_minutes x 0). rewrite Hx. reflexivity.
Qed.

(** X19. A running fast of [d > 0] hours, seen at or after its start: progress
    stays between 0 and 1 and the remaining time between 0 and the
    duration; before the end they are the fraction elapsed and what is
    left; from the end on the fast is still shown, with progress 1 and
    "0h 0m" left: it never ends by itself. *)
Theorem fasting_runs_until_ended (f : Fasting) (T now : Q) :
  active f = true -> start_time f = Some T -> (0 < duration_hours f)%Z -> T <= now ->
  let duration := inject_Z (duration_hours f) * 3600 in
  exists v,
    fasting_panel f now = Ok (Some v) /\
    0 <= progress v <= 1 /\
    0 <= remaining_sec v <= duration /\
    (now <= T + duration ->
       remaining_sec v == duration - (now - T) /\
       progress v * duration == now - T) /\
    (T + duration <= now ->
       remaining_sec v == 0 /\ progress v == 1 /\ shown_remaining v = (0%Z, 0%Z)).
Proof.
  intros Ha Hs Hd Hnow. cbv zeta.
  assert (Hd0 : duration_hours f <> 0%Z) by lia.
  eexists. split; [apply (fasting_panel_active f T now Ha Hs Hd0)|].
  cbv zeta. cbn [elapsed_sec remaining_sec progress shown_remaining].
  assert (Hsec : inject_Z (duration_hours f * 3600) == inject_Z (duration_hours f) * 3600).
  { rewrite inject_Z_mult. reflexivity. }
  set (D := inject_Z (duration_hours f) * 3600) in *.
  assert (HD : 0 < D).
  { unfold D. assert (0 < inject_Z (duration_hours f)).
    { change 0 with (inject_Z 0). rewrite <- Zlt_Qlt. exact Hd. }
    lra. }
  assert (HDs : 0 < inject_Z (duration_hours f * 3600)) by (rewrite Hsec; exact HD).
  set (Ds := inject_Z (duration_hours f * 3600)) in *.
  set (e := now - T).
  assert (He : 0 <= e) by (unfold e; lra).
  destruct (Qdiv_bounds e Ds HDs) as (H0 & H1 & H2). specialize (H0 He).
  destruct (Qlt_le_dec Ds e) as [Hover|Hunder].
  - assert (Hge : 1 <= e / Ds).
    { apply Qnot_lt_le. intros Hn. assert (e <= Ds) by (apply H1; lra). lra. }
    assert (Hr : Qmax 0 (Ds - e) == 0) by (apply Q.max_l; lra).
    assert (Hp : Qmin (e / Ds) 1 == 1) by (apply Q.min_r; exact Hge).
    split; [rewrite Hp; lra|]. split; [rewrite Hr; lra|]. split.
    + intros Hb. unfold e in Hover. lra.
    + intros _. split; [exact Hr|]. split; [exact Hp|].
      destruct (shown_zero (Qmax 0 (Ds - e)) Hr) as [-> ->]. reflexivity.
  - assert (Hle1 : e / Ds <= 1) by (apply H1, Hunder).
    assert (Hr : Qmax 0 (Ds - e) == Ds - e) by (apply Q.max_r; lra).
    assert (Hp : Qmin (e / Ds) 1 == e / Ds) by (apply Q.min_l; exact Hle1).
    split; [rewrite Hp; lra|]. split; [rewrite Hr; lra|]. split.
    + intros _. split; [rewrite Hr; lra|]. rewrite Hp, <- Hsec. exact H2.
    + intros Hb. assert (Heq : e == Ds) by (unfold e in *; lra).
      split; [rewrite Hr; lra|]. split; [rewrite Hp, Heq; field; lra|].
      assert (Hz : Qmax 0 (Ds - e) == 0) by (rewrite Hr; lra).
      destruct (shown_zero (Qmax 0 (Ds - e)) Hz) as [-> ->]. reflexivity.
Qed.

Lemma fasting_runs_until_ended_witness :
  active (start_fast 1000 16) = true /\
  start_time (start_fast 1000 16) = Some 1000 /\
  (0 < duration_hours (start_fast 1000 16))%Z /\
  1000 <= 1000 + 20 * 3600 /\
  exists v,
    fasting_panel (start_fast 1000 16) (1000 + 20 * 3600) = Ok (Some v) /\
    remaining_sec v == 0 /\ progress v == 1.
Proof.
  assert (H3 : (0 < duration_hours (start_fast 1000 16))%Z) by reflexivity.
  assert (H4 : 1000 <= 1000 + 20 * 3600) by discriminate.
  split; [reflexivity|]. split; [reflexivity|]. split; [exact H3|]. split; [exact H4|].
  destruct (fasting_runs_until_ended (start_fast 1000 16) 1000 (1000 + 20 * 3600)
              eq_refl eq_refl H3 H4) as (v & Hv & _ & _ & _ & Hover).
  exists v. split; [exact Hv|].
  destruct Hover as (Hr & Hp & _); [discriminate|]. split; assumption.
Defined.

(** X20. Starting a fast when none is active and then ending it: the started
    fast is shown at once with nothing elapsed, an active fast cannot be
    restarted (declining to end it changes nothing), and once ended no fast
    is shown at any time although the start time stays stored; the
    duration is kept as the default of the next start. *)
Theorem manage_fasting_start_then_end (f : Fasting) (now later t : Q) (d d' : Z) :
  active f = false -> d <> 0%Z ->
  let started := manage_fasting f true now d in
  let ended := manage_fasting started true later d' in
  started = start_fast now d /\
  (exists v, fasting_panel started now = Ok (Some v) /\
             elapsed_sec v == 0 /\ progress v == 0) /\
  manage_fasting started false later d' = started /\
  fasting_panel ended t = Ok None /\
  start_time ended = Some now /\
  duration_hours ended = d.
Proof.
  intros Ha Hd. cbv zeta.
  assert (Hs : manage_fasting f true now d = start_fast now d).
  { unfold manage_fasting. rewrite Ha. reflexivity. }
  rewrite Hs. split; [reflexivity|]. split.
  - eexists. split; [apply (fasting_panel_active (start_fast now d) now now eq_refl eq_refl Hd)|].
    cbv zeta. cbn [elapsed_sec progress].
    assert (E : now - now == 0) by ring.
    split; [exact E|]. rewrite E. unfold Qdiv. rewrite Qmult_0_l.
    apply Q.min_l. discriminate.
  - repeat split.
Qed.

Lemma manage_fasting_start_then_end_witness :
  active idle = false /\ 16%Z <> 0%Z /\
  fasting_panel (manage_fasting (manage_fasting idle true 1000 16) true 5000 18) 9000
  = Ok None.
Proof.
  assert (H : 16%Z <> 0%Z) by discriminate.
  split; [reflexivity|]. split; [exact H|].
  apply (manage_fasting_start_then_end idle 1000 5000 9000 16 18 eq_refl H).
Defined.

(** ** Streak counters *)

(** X21. One evaluation moves a counter by at most one step up: counters that
    are not negative stay so and grow by at most 1, the date of the state
    becomes today, and after a gap (the last evaluation neither today nor
    yesterday) no counter is above 1. *)
Theorem update_streaks_bounds (data : Data) (today : Z) :
  (0 <= calorie_goal (streaks data))%Z ->
  (0 <= water_goal (streaks data))%Z ->
  let s := streaks data in
  let s' := streaks (update_streaks data today) in
  (0 <= calorie_goal s' <= calorie_goal s + 1)%Z /\
  (0 <= water_goal s' <= water_goal s + 1)%Z /\
  last_checked_date s' = Some today /\
  (last_checked_date s <> Some today ->
   last_checked_date s <> Some (today - 1)%Z ->
   (calorie_goal s' <= 1)%Z /\ (water_goal s' <= 1)%Z).
Proof.
  intros Hc Hw. cbv zeta.
  split; [|split; [|split; [apply update_streaks_last_checked|]]].
  - unfold update_streaks.
    destruct (decide (last_checked_date (streaks data) = Some today)); [lia|].
    cbn [streaks set_streaks calorie_goal].
    destruct (daily_logs data !! (today - 1)%Z) as [log|];
      [destruct (calorie_adherent _ _)|];
      destruct (decide (last_checked_date (streaks data) <> Some (today - 1)%Z));
      cbn [calorie_goal]; lia.
  - unfold update_streaks.
    destruct (decide (last_checked_date (streaks data) = Some today)); [lia|].
    cbn [streaks set_streaks water_goal].
    destruct (daily_logs data !! (today - 1)%Z) as [log|];
      [destruct (qleb _ _)|];
      destruct (decide (last_checked_date (streaks data) <> Some (today - 1)%Z));
      cbn [water_goal]; lia.
  - intros Hn Hg. unfold update_streaks.
    destruct (decide (last_checked_date (streaks data) = Some today)); [contradiction|].
    destruct (decide (last_checked_date (streaks data) <> Some (today - 1)%Z));
      [|contradiction].
    cbn [streaks set_streaks calorie_goal water_goal].
    destruct (daily_logs data !! (today - 1)%Z) as [log|];
      [destruct (calorie_adherent _ _); destruct (qleb _ _)|];
      cbn [calorie_goal water_goal]; lia.
Qed.

Lemma update_streaks_bounds_witness :
  (0 <= calorie_goal (streaks on_track))%Z /\
  (0 <= water_goal (streaks on_track))%Z /\
  (0 <= calorie_goal (streaks (update_streaks on_track 100)) <= 4 + 1)%Z.
Proof.
  assert (H1 : (0 <= calorie_goal (streaks on_track))%Z) by (vm_compute; discriminate).
  assert (H2 : (0 <= water_goal (streaks on_track))%Z) by (vm_compute; discriminate).
  split; [exact H1|]. split; [exact H2|].
  apply (update_streaks_bounds on_track 100 H1 H2).
Defined.

(** ** The two averages of a report *)

Lemma qsum_nonneg (l : list Q) : Forall (Qle 0) l -> 0 <= qsum l.
Proof.
  induction 1 as [|x l Hx _ IH]; [discriminate|].
  rewrite qsum_cons. lra.
Qed.

Lemma qsum_eaten (l : list Q) :
  Forall (Qle 0) l -> qsum (List.filter (qltb 0) l) == qsum l.
Proof.
  induction 1 as [|x l Hx _ IH]; [reflexivity|]. simpl.
  destruct (qltb 0 x) eqn:E.
  - rewrite !qsum_cons, IH. reflexivity.
  - apply qltb_ge in E. rewrite qsum_cons, IH. lra.
Qed.

Lemma eaten_nonneg (l : list Q) :
  Forall (Qle 0) l -> Forall (Qle 0) (List.filter (qltb 0) l).
Proof.
  induction 1 as [|x l Hx _ IH]; simpl; [constructor|].
  destruct (qltb 0 x); [constructor; assumption | exact IH].
Qed.

Lemma mean_below_mean_eaten (cals : list Q) :
  cals <> [] -> Forall (Qle 0) cals ->
  qsum cals / inject_Z (Z.of_nat (length cals)) <= mean_eaten cals.
Proof.
  intros Hne Hpos. unfold mean_eaten.
  pose proof (qsum_eaten cals Hpos) as Hs.
  pose proof (qsum_nonneg cals Hpos) as Hn.
  pose proof (List.filter_length_le (qltb 0) cals) as Hlen.
  assert (Hn0 : 0 < inject_Z (Z.of_nat (length cals))).
  { change 0 with (inject_Z 0). rewrite <- Zlt_Qlt.
    destruct cals; [contradiction | simpl; lia]. }
  destruct (List.filter (qltb 0) cals) as [|c eaten] eqn:E.
  - apply Qle_shift_div_r; [exact Hn0|].
    change (qsum []) with 0 in Hs. lra.
  - set (m := inject_Z (Z.of_nat (length (c :: eaten)))).
    set (n := inject_Z (Z.of_nat (length cals))) in *.
    assert (Hm0 : 0 < m).
    { unfold m. change 0 with (inject_Z 0). rewrite <- Zlt_Qlt. simpl. lia. }
    assert (Hmn : m <= n).
    { unfold m, n. rewrite <- Zle_Qle. lia. }
    rewrite Hs.
    apply Qle_shift_div_r; [exact Hn0|].
    assert (Hq : 0 <= qsum cals / m) by (apply Qle_shift_div_l; [exact Hm0 | lra]).
    assert (Hx : qsum cals / m * m == qsum cals) by (field; lra).
    assert (Hy : qsum cals / m * m <= qsum cals / m * n).
    { rewrite !(Qmult_comm (qsum cals / m)).
      apply Qmult_le_compat_r; assumption. }
    lra.
Qed.

(** X22. The average of the summary table is never above the one quoted in the
    trend advice: the table divides the week's calories by 7, the advice
    by the number of days with calories.  (For days whose calories are not
    negative.) *)
Theorem table_average_below_advice_average (data : Data) (today : Z) (r : Report) :
  view_summary_reports data weekly today = Ok (Some r) ->
  Forall (Qle 0) (daily_cals r) ->
  avg_cals r <= mean_eaten (daily_cals r) /\
  ((2 <= size (relevant (today - 6) today (weight_logs data)))%nat ->
   exists change,
     chronological_change (relevant (today - 6) today (weight_logs data)) change /\
     advice r = advise (goal_weight_kg (profile data)) (weight_kg (profile data))
                       change (mean_eaten (daily_cals r))).
Proof.
  intros Hr Hpos.
  assert (Hne : relevant (today - (num_days_of weekly - 1)) today (daily_logs data) <> ∅).
  { intros He. rewrite (view_summary_reports_no_data _ _ _ He) in Hr. discriminate. }
  destruct (view_summary_reports_ok data weekly today Hne) as (adv & Hadv & Hr').
  rewrite Hr' in Hr. injection Hr as <-.
  cbn [avg_cals daily_cals advice] in *.
  split.
  - assert (Hlen : length (daily (daily_logs data) (log_sum calories)
                            (window_dates (today - (num_days_of weekly - 1))
                               (num_days_of weekly))) = 7%nat).
    { rewrite daily_length. apply window_dates_length. }
    pose proof (mean_below_mean_eaten _ ltac:(intros E; rewrite E in Hlen; discriminate) Hpos)
      as Hm.
    rewrite Hlen in Hm. exact Hm.
  - intros Hsize.
    destruct (trend_advice_weekly data (today - 6) today
                (daily (daily_logs data) (log_sum calories)
                   (window_dates (today - (num_days_of weekly - 1)) (num_days_of weekly)))
                Hsize) as (change & Hch & Ht).
    exists change. split; [exact Hch|].
    pose proof (eq_trans (eq_sym Hadv) Ht) as E.
    injection E as ->. reflexivity.
Qed.

Lemma table_average_below_advice_average_witness :
  exists r,
    view_summary_reports three_logged weekly 100 = Ok (Some r) /\
    Forall (Qle 0) (daily_cals r) /\
    avg_cals r <= mean_eaten (daily_cals r).
Proof.
  destruct (view_summary_reports three_logged weekly 100) as [[r|]|e] eqn:E;
    try (vm_compute in E; discriminate).
  exists r.
  assert (H2 : Forall (Qle 0) (daily_cals r)).
  { pose proof E as E'. vm_compute in E'. injection E' as <-.
    cbn [daily_cals]. repeat constructor; discriminate. }
  split; [reflexivity|]. split; [exact H2|].
  apply (table_average_below_advice_average three_logged 100 r E H2).
Defined.

(** ** Recipes *)

Lemma micro_empty (σ : store) (k : string) (ing : FoodEntry) :
  micros_of σ ing = ∅ -> micro σ k ing = 0.
Proof. intros H. unfold micro. rewrite H, lookup_empty. reflexivity. Qed.

Lemma add_ingredient_sums (σ : store) (t : RecipeTotals) (ing : FoodEntry) :
  complete ing ->
  exists t',
    add_ingredient σ t ing = Some t' /\
    r_serving_size_g t' == r_serving_size_g t + nutrient grams ing /\
    r_calories t' == r_calories t + nutrient calories ing /\
    r_protein_g t' == r_protein_g t + nutrient protein_g ing /\
    r_carbs_g t' == r_carbs_g t + nutrient carbs_g ing /\
    r_fats_g t' == r_fats_g t + nutrient fats_g ing /\
    r_sodium_mg t' == r_sodium_mg t + micro σ "sodium_mg" ing /\
    r_sugar_g t' == r_sugar_g t + micro σ "sugar_g" ing.
Proof.
  intros ([g Hg] & [c Hc] & [p Hp] & [cb Hcb] & [f Hf]).
  unfold add_ingredient, nutrient. rewrite Hg, Hc, Hp, Hcb, Hf.
  cbn [mbind option_bind default from_option id].
  eexists. split; [reflexivity|].
  cbn [r_serving_size_g r_calories r_protein_g r_carbs_g r_fats_g r_sodium_mg r_sugar_g].
  do 5 (split; [reflexivity|]).
  case_bool_decide as Hm; cbn [negb].
  - rewrite !(micro_empty σ _ ing Hm). split; ring.
  - split; reflexivity.
Qed.

Lemma add_ingredients_sums (σ : store) (t : RecipeTotals) (ingredients : list FoodEntry) :
  Forall complete ingredients ->
  exists t',
    add_ingredients σ t ingredients = Some t' /\
    r_serving_size_g t' == r_serving_size_g t + qsum (map (nutrient grams) ingredients) /\
    r_calories t' == r_calories t + qsum (map (nutrient calories) ingredients) /\
    r_protein_g t' == r_protein_g t + qsum (map (nutrient protein_g) ingredients) /\
    r_carbs_g t' == r_carbs_g t + qsum (map (nutrient carbs_g) ingredients) /\
    r_fats_g t' == r_fats_g t + qsum (map (nutrient fats_g) ingredients) /\
    r_sodium_mg t' == r_sodium_mg t + qsum (map (micro σ "sodium_mg") ingredients) /\
    r_sugar_g t' == r_sugar_g t + qsum (map (micro σ "sugar_g") ingredients).
Proof.
  intros Hall. revert t. induction Hall as [|ing rest Hi _ IH]; intros t.
  - exists t. split; [reflexivity|]. cbn [map]. change (qsum []) with 0.
    repeat split; ring.
  - destruct (add_ingredient_sums σ t ing Hi)
      as (t1 & E1 & A1 & A2 & A3 & A4 & A5 & A6 & A7).
    destruct (IH t1) as (t' & E & B1 & B2 & B3 & B4 & B5 & B6 & B7).
    exists t'. cbn [add_ingredients]. rewrite E1. cbn [mbind option_bind].
    split; [exact E|]. cbn [map]. rewrite !qsum_cons.
    rewrite B1, B2, B3, B4, B5, B6, B7, A1, A2, A3, A4, A5, A6, A7.
    repeat split; ring.
Qed.

(** X23. A recipe is the sum of its ingredients: its serving size is their
    grams, its calories, protein, carbs, fats, sodium and sugar are their
    sums, and their fibre is dropped; logged at its full serving size (when
    that is not 0) it gives exactly these sums. *)
Theorem recipe_sums_ingredients (σ : store) (recipe_name : string)
    (ingredients : list FoodEntry) :
  ingredients <> [] -> Forall complete ingredients ->
  exists σ' recipe serving,
    make_recipe σ recipe_name ingredients = Some (σ', Some recipe) /\
    serving_size_g recipe = Some serving /\ grams recipe = None /\
    serving == qsum (map (nutrient grams) ingredients) /\
    nutrient calories recipe == qsum (map (nutrient calories) ingredients) /\
    nutrient protein_g recipe == qsum (map (nutrient protein_g) ingredients) /\
    nutrient carbs_g recipe == qsum (map (nutrient carbs_g) ingredients) /\
    nutrient fats_g recipe == qsum (map (nutrient fats_g) ingredients) /\
    micro σ' "sodium_mg" recipe == qsum (map (micro σ "sodium_mg") ingredients) /\
    micro σ' "sugar_g" recipe == qsum (map (micro σ "sugar_g") ingredients) /\
    micro σ' "fiber_g" recipe == 0 /\
    (~ serving == 0 ->
     exists σ2 logged,
       scale_food_entry σ' recipe serving = Ok (σ2, Some logged) /\
       grams logged = Some serving /\
       nutrient calories logged == nutrient calories recipe /\
       nutrient protein_g logged == nutrient protein_g recipe /\
       nutrient carbs_g logged == nutrient carbs_g recipe /\
       nutrient fats_g logged == nutrient fats_g recipe /\
       forall k, micro σ2 k logged == micro σ' k recipe).
Proof.
  intros Hne Hall.
  set (t0 := {| r_serving_size_g := 0; r_calories := 0; r_protein_g := 0;
                r_carbs_g := 0; r_fats_g := 0; r_sodium_mg := 0; r_sugar_g := 0 |}).
  destruct (add_ingredients_sums σ t0 ingredients Hall)
    as (t & E & B1 & B2 & B3 & B4 & B5 & B6 & B7).
  cbn [t0 r_serving_size_g r_calories r_protein_g r_carbs_g r_fats_g
       r_sodium_mg r_sugar_g] in B1, B2, B3, B4, B5, B6, B7.
  unfold make_recipe. destruct ingredients as [|i0 rest]; [contradiction|].
  fold t0. rewrite E. cbn [mbind option_bind].
  set (m := <["sodium_mg"%string := r_sodium_mg t]> _).
  pose proof (new_dict_lookup σ m) as Hl.
  destruct (new_dict σ m) as [σ' r]. cbn [fst snd] in Hl.
  set (recipe := {| name := recipe_name; serving_size_g := Some (r_serving_size_g t);
                    grams := None; calories := Some (r_calories t);
                    protein_g := Some (r_protein_g t); carbs_g := Some (r_carbs_g t);
                    fats_g := Some (r_fats_g t); micros := Some r |}).
  exists σ', recipe, (r_serving_size_g t).
  assert (Hmicro : forall k, micro σ' k recipe = default 0 (m !! k)).
  { intros k. unfold micro, micros_of. cbn [micros recipe]. rewrite Hl. reflexivity. }
  split; [reflexivity|]. split; [reflexivity|]. split; [reflexivity|].
  split; [rewrite B1; ring|].
  change (nutrient calories recipe) with (r_calories t).
  change (nutrient protein_g recipe) with (r_protein_g t).
  change (nutrient carbs_g recipe) with (r_carbs_g t).
  change (nutrient fats_g recipe) with (r_fats_g t).
  split; [rewrite B2; ring|]. split; [rewrite B3; ring|].
  split; [rewrite B4; ring|]. split; [rewrite B5; ring|].
  split; [rewrite Hmicro; unfold m; rewrite lookup_insert_eq; cbn [default from_option id]; rewrite B6; ring|].
  split; [rewrite Hmicro; unfold m; rewrite lookup_insert_ne by discriminate;
          rewrite lookup_insert_eq; cbn [default from_option id]; rewrite B7; ring|].
  split; [rewrite Hmicro; unfold m; rewrite !lookup_insert_ne by discriminate;
          rewrite lookup_empty; reflexivity|].
  intros Hs.
  destruct (scale_food_entry_no_fault σ' recipe (r_serving_size_g t)) as (σ2 & logged & Es).
  exists σ2, logged. split; [exact Es|].
  assert (Hb : get_or (serving_size_g recipe) (get_or (grams recipe) 100) = r_serving_size_g t).
  { cbn [recipe serving_size_g grams get_or].
    destruct (truthy (r_serving_size_g t)) eqn:Et; [reflexivity|].
    unfold truthy in Et. rewrite negb_false_iff, Qeq_bool_iff in Et. contradiction. }
  pose proof Es as R. rewrite scale_food_entry_result in R. cbv zeta in R.
  rewrite Hb in R. injection R as _ R.
  split; [rewrite <- R; reflexivity|].
  rewrite <- R. unfold nutrient.
  cbn [calories protein_g carbs_g fats_g]. unfold recipe.
  cbn [calories protein_g carbs_g fats_g fmap option_fmap option_map
       default from_option id].
  split; [rewrite scaled_eq; field; exact Hs|].
  split; [rewrite scaled_eq; field; exact Hs|].
  split; [rewrite scaled_eq; field; exact Hs|].
  split; [rewrite scaled_eq; field; exact Hs|].
  fold recipe.
  intros k. destruct (scale_food_entry_micros _ _ _ _ _ k Es) as [M V].
  rewrite Hb in V.
  change (micro σ2 k recipe == micro σ' k recipe).
  rewrite V. field. exact Hs.
Qed.

Lemma recipe_sums_ingredients_witness :
  [oats; milk] <> [] /\ Forall complete [oats; milk] /\
  exists σ' recipe,
    make_recipe pantry "Porridge" [oats; milk] = Some (σ', Some recipe) /\
    nutrient calories recipe == 540.
Proof.
  assert (H1 : [oats; milk] <> []) by discriminate.
  assert (H2 : Forall complete [oats; milk]).
  { repeat constructor; eexists; reflexivity. }
  split; [exact H1|]. split; [exact H2|].
  destruct (recipe_sums_ingredients pantry "Porridge" [oats; milk] H1 H2)
    as (σ' & recipe & s & E & _ & _ & _ & Hc & _).
  exists σ', recipe. split; [exact E|]. rewrite Hc. reflexivity.
Defined.

(** ** Weight history *)

Lemma sorted_items_dates_increase (m : gmap Z Q) :
  StronglySorted Z.lt (fst <$> sorted_items m).
Proof.
  pose proof (StronglySorted_merge_sort by_date (map_to_list m)) as Hs.
  assert (Hnd : NoDup (fst <$> sorted_items m)).
  { unfold sorted_items. rewrite merge_sort_Permutation.
    apply NoDup_fst_map_to_list. }
  fold (sorted_items m) in Hs.
  induction Hs as [|[d w] l Hl IH Hall]; cbn [fmap list_fmap]; [constructor|].
  rewrite fmap_cons in Hnd. apply NoDup_cons in Hnd as [Hd Hnd].
  constructor; [exact (IH Hnd)|].
  apply Forall_fmap, Forall_forall. intros [d' w'] Hin.
  pose proof (proj1 (Forall_forall _ _) Hall _ Hin) as Hle.
  unfold by_date in Hle. cbn in Hle |- *.
  assert (d <> d').
  { intros ->. apply Hd. apply list_elem_of_fmap. exists (d', w'). auto. }
  lia.
Qed.

(** X24. The weight graph is refused exactly when fewer than two dates hold a
    weight; otherwise it plots every logged weight once, against its own
    date, with the dates strictly increasing. *)
Theorem weight_history_series (logs : gmap Z Q) :
  (view_weight_history logs = None <-> (size logs < 2)%nat) /\
  forall dates weights,
    view_weight_history logs = Some (dates, weights) ->
    length dates = size logs /\ length weights = size logs /\
    StronglySorted Z.lt dates /\
    (forall i d w, dates !! i = Some d -> weights !! i = Some w ->
                   logs !! d = Some w) /\
    (forall d w, logs !! d = Some w ->
                 exists i, dates !! i = Some d /\ weights !! i = Some w).
Proof.
  unfold view_weight_history. split.
  - destruct (decide (size logs < 2)%nat); split; intros; try discriminate;
      try reflexivity; try lia.
  - intros dates weights. destruct (decide (size logs < 2)%nat); [discriminate|].
    cbv zeta. intros E. injection E as <- <-.
    rewrite !length_fmap, sorted_items_length.
    split; [reflexivity|]. split; [reflexivity|].
    split; [apply sorted_items_dates_increase|]. split.
    + intros i d w Hd Hw. rewrite list_lookup_fmap in Hd. rewrite list_lookup_fmap in Hw.
      destruct (sorted_items logs !! i) as [[d' w']|] eqn:Ei; [|discriminate].
      cbn in Hd, Hw. injection Hd as ->. injection Hw as ->.
      apply sorted_items_elem. eapply list_elem_of_lookup_2, Ei.
    + intros d w Hl. apply sorted_items_elem in Hl.
      apply list_elem_of_lookup_1 in Hl as [i Hi]. exists i.
      rewrite !list_lookup_fmap, Hi. split; reflexivity.
Qed.

(** ** Meal plans *)

Lemma remove_first_snoc (x : string) (l : list string) :
  remove_first x (l ++ [x]) ≡ₚ l.
Proof.
  induction l as [|y l IH]; cbn [app remove_first].
  - rewrite String.eqb_refl. reflexivity.
  - destruct (String.eqb y x) eqn:E.
    + apply String.eqb_eq in E. subst y. symmetry. apply Permutation_cons_append.
    + constructor. exact IH.
Qed.

Lemma remove_first_snoc_absent (x : string) (l : list string) :
  x ∉ l -> remove_first x (l ++ [x]) = l.
Proof.
  induction l as [|y l IH]; cbn [app remove_first].
  - rewrite String.eqb_refl. reflexivity.
  - rewrite not_elem_of_cons. intros [Hxy Hl].
    destruct (String.eqb y x) eqn:E.
    + apply String.eqb_eq in E. congruence.
    + rewrite (IH Hl). reflexivity.
Qed.

Lemma remove_first_snoc_present (x : string) (l : list string) :
  x ∈ l -> remove_first x (l ++ [x]) = remove_first x l ++ [x].
Proof.
  induction l as [|y l IH]; cbn [app remove_first].
  - intros H. apply elem_of_nil in H. contradiction.
  - intros H. destruct (String.eqb y x) eqn:E; [reflexivity|].
    apply String.eqb_neq in E. apply elem_of_cons in H as [->|H]; [congruence|].
    rewrite (IH H). reflexivity.
Qed.

(** X25. Adding a planned item and removing it again leaves the same items:
    in the same order when the name was new to the meal, and otherwise
    with the earlier occurrence gone and the added one kept at the end. *)
Theorem plan_add_then_remove (items : list string) (item_name : string) :
  item_name <> ""%string ->
  plan_remove (plan_add items item_name) item_name ≡ₚ items /\
  (item_name ∉ items ->
   plan_remove (plan_add items item_name) item_name = items) /\
  (item_name ∈ items ->
   plan_remove (plan_add items item_name) item_name
   = plan_remove items item_name ++ [item_name]).
Proof.
  intros Hne. unfold plan_add, plan_remove.
  apply String.eqb_neq in Hne. rewrite Hne.
  rewrite (bool_decide_true (item_name ∈ items ++ [item_name]))
    by (apply elem_of_app; right; apply list_elem_of_singleton; reflexivity).
  split; [apply remove_first_snoc|]. split.
  - apply remove_first_snoc_absent.
  - intros Hin. rewrite (bool_decide_true _ Hin).
    apply remove_first_snoc_present, Hin.
Qed.

Lemma plan_add_then_remove_witness :
  plan_remove (plan_add ["Oats"; "Eggs"; "Oats"] "Oats") "Oats"
  = ["Eggs"; "Oats"; "Oats"]%string.
Proof.
  assert (Hne : "Oats"%string <> ""%string) by discriminate.
  destruct (plan_add_then_remove ["Oats"; "Eggs"; "Oats"]%string "Oats" Hne)
    as (_ & _ & H).
  rewrite H; [reflexivity|]. apply list_elem_of_here.
Defined.

(** ** The build script *)

Lemma flag_pairs_lookup (flag i : string) (l : list string) :
  i ∈ l ->
  exists k, flat_map (fun x => [flag; x]) l !! k = Some flag /\
            flat_map (fun x => [flag; x]) l !! S k = Some i.
Proof.
  induction l as [|y l IH]; intros Hi.
  - apply elem_of_nil in Hi. contradiction.
  - apply elem_of_cons in Hi as [->|Hi].
    + exists 0%nat. split; reflexivity.
    + destruct (IH Hi) as (k & H1 & H2). exists (S (S k)). split; assumption.
Qed.

Lemma flag_pairs_elem (flag x : string) (l : list string) :
  x ∈ flat_map (fun y => [flag; y]) l <-> l <> [] /\ (x = flag \/ x ∈ l).
Proof.
  induction l as [|y l IH]; cbn [flat_map].
  - rewrite elem_of_nil. split; [contradiction|]. intros [H _]. congruence.
  - cbn [app]. rewrite !elem_of_cons, IH. split.
    + intros [->|[->|[_ [->|H]]]]; split; auto; discriminate.
    + intros [_ [->|[->|H]]]; auto.
      destruct l as [|z l]; [apply elem_of_nil in H; contradiction|].
      right. right. split; [discriminate|]. auto.
Qed.

Lemma pyinstaller_args_eq (system target_platform : string) :
  Build.get_pyinstaller_args system target_platform
  = ["pyinstaller"; "--onefile"; "--console"; "--name";
     Build.APP_NAME +:+ "_" +:+ Build.resolved system target_platform;
     "--clean"; "--noconfirm"]%string
    ++ flat_map (fun i => ["--hidden-import"%string; i]) Build.hidden_imports
    ++ (if String.eqb (Build.resolved system target_platform) "windows"
        then ["--icon=NONE"%string]
        else if String.eqb (Build.resolved system target_platform) "linux"
             then ["--strip"%string] else [])
    ++ [Build.MAIN_SCRIPT].
Proof.
  unfold Build.get_pyinstaller_args. cbv zeta.
  fold (Build.resolved system target_platform).
  destruct (String.eqb _ "windows"); [|destruct (String.eqb _ "linux")];
    rewrite <- ?app_assoc, ?app_nil_r; reflexivity.
Qed.

(** X27. The PyInstaller command of every target starts with the program and
    ends with the main script, names the executable after the platform,
    passes every hidden import behind its flag, and carries [--strip]
    exactly for Linux and [--icon=NONE] exactly for Windows, where
    [current] stands for the running system. *)
Theorem pyinstaller_args_shape (system target_platform : string) :
  head (Build.get_pyinstaller_args system target_platform) = Some "pyinstaller"%string /\
  last (Build.get_pyinstaller_args system target_platform) = Some Build.MAIN_SCRIPT /\
  Build.get_pyinstaller_args system target_platform !! 3%nat = Some "--name"%string /\
  Build.get_pyinstaller_args system target_platform !! 4%nat
    = Some (Build.APP_NAME +:+ "_" +:+ Build.resolved system target_platform)%string /\
  (forall i, i ∈ Build.hidden_imports ->
     exists k,
       Build.get_pyinstaller_args system target_platform !! k
         = Some "--hidden-import"%string /\
       Build.get_pyinstaller_args system target_platform !! S k = Some i) /\
  ("--strip"%string ∈ Build.get_pyinstaller_args system target_platform
     <-> Build.resolved system target_platform = "linux"%string) /\
  ("--icon=NONE"%string ∈ Build.get_pyinstaller_args system target_platform
     <-> Build.resolved system target_platform = "windows"%string).
Proof.
  rewrite pyinstaller_args_eq.
  generalize (Build.resolved system target_platform). intros p.
  split; [reflexivity|].
  split; [rewrite !app_assoc; apply last_snoc|].
  split; [reflexivity|]. split; [reflexivity|].
  split.
  { intros i Hi.
    destruct (flag_pairs_lookup "--hidden-import" i _ Hi) as (k & H1 & H2).
    exists (7 + k)%nat. split.
    - rewrite (lookup_app_r [_;_;_;_;_;_;_]) by (cbn [length]; lia).
      replace (7 + k - length _)%nat with k by (cbn [length]; lia).
      apply lookup_app_l_Some, H1.
    - change (S (7 + k)) with (7 + S k)%nat.
      rewrite (lookup_app_r [_;_;_;_;_;_;_]) by (cbn [length]; lia).
      replace (7 + S k - length _)%nat with (S k) by (cbn [length]; lia).
      apply lookup_app_l_Some, H2. }
  assert (Hname1 : "--strip"%string <> (Build.APP_NAME +:+ "_" +:+ p)%string)
    by (cbn; discriminate).
  assert (Hname2 : "--icon=NONE"%string <> (Build.APP_NAME +:+ "_" +:+ p)%string)
    by (cbn; discriminate).
  set (nm := (Build.APP_NAME +:+ "_" +:+ p)%string) in *. clearbody nm.
  assert (Himp : forall x : string,
            x = "--strip"%string \/ x = "--icon=NONE"%string ->
            x ∉ flat_map (fun i => ["--hidden-import"%string; i]) Build.hidden_imports).
  { intros x Hx Hin. apply flag_pairs_elem in Hin as [_ Hin].
    unfold Build.hidden_imports in Hin.
    rewrite !elem_of_cons, elem_of_nil in Hin.
    destruct Hx as [-> | ->]; repeat (destruct Hin as [Hin|Hin]; [discriminate|]);
      exact Hin. }
  rewrite !elem_of_app, !elem_of_cons, !elem_of_nil.
  pose proof (Himp "--strip"%string (or_introl eq_refl)) as I1.
  pose proof (Himp "--icon=NONE"%string (or_intror eq_refl)) as I2.
  unfold Build.MAIN_SCRIPT.
  destruct (String.eqb_spec p "windows") as [->|Hw];
    [|destruct (String.eqb_spec p "linux") as [->|Hl]];
    rewrite ?list_elem_of_singleton, ?elem_of_nil;
    split; split; intros H; try discriminate; try reflexivity;
    intuition (try discriminate; try congruence).
Qed.
